(** * Flow Studio run engine: a shallow embedding of the kernel's pure parts

    The definitions below are translated from the Python sources under
    [swarm/runtime]; each one names the function it embeds.  Python values
    are modelled as follows:

    - [int] is [Z]; [float] is the kernel's binary64 [float]; [str] is
      [string]: the helpers of module [Py] are Python's on ASCII text, and
      the statements that use them beyond literals either assume
      [s.isascii()] or take [str.upper], [str.lower] and [len] as
      parameters;
    - a call that may raise returns an outcome: the value or the exception;
    - [Optional[T]] is [option T]; a [dict] read with [.get] is a finite map
      or a record of the keys the code reads;
    - a function that mutates its argument returns the new value. *)

From Stdlib Require Import ZArith List Bool Lia Ascii String DecimalString.
From Corelib Require Import PrimFloat Uint63Axioms SpecFloat FloatOps.
From stdpp Require Import base option list strings gmap sorting.

Local Open Scope string_scope.
Local Open Scope Z_scope.

(** String concatenation is written [+:+]; [++] is list concatenation. *)
#[local] Disable Notation "_ ++ _" : string_scope.

(** ** Python string and truthiness helpers *)

Module Py.

(** [c.upper()] and [c.lower()] on one ASCII character. *)
Definition upper_ascii (c : ascii) : ascii :=
  let n := nat_of_ascii c in
  if ((97 <=? n)%nat && (n <=? 122)%nat)%bool then ascii_of_nat (n - 32) else c.

Definition lower_ascii (c : ascii) : ascii :=
  let n := nat_of_ascii c in
  if ((65 <=? n)%nat && (n <=? 90)%nat)%bool then ascii_of_nat (n + 32) else c.

Fixpoint upper (s : string) : string :=
  match s with
  | EmptyString => EmptyString
  | String c r => String (upper_ascii c) (upper r)
  end.

Fixpoint lower (s : string) : string :=
  match s with
  | EmptyString => EmptyString
  | String c r => String (lower_ascii c) (lower r)
  end.

(** [x in xs] for a list of strings. *)
Definition str_in (x : string) (xs : list string) : bool :=
  existsb (String.eqb x) xs.

(** Whitespace, as [str.isspace] sees ASCII. *)
Definition is_space (c : ascii) : bool :=
  let n := nat_of_ascii c in
  ((n =? 32)%nat || ((9 <=? n)%nat && (n <=? 13)%nat)
   || ((28 <=? n)%nat && (n <=? 31)%nat))%bool.

Fixpoint lstrip (s : string) : string :=
  match s with
  | String c r => if is_space c then lstrip r else s
  | EmptyString => EmptyString
  end.

Fixpoint rstrip (s : string) : string :=
  match s with
  | EmptyString => EmptyString
  | String c r =>
      match rstrip r with
      | EmptyString => if is_space c then EmptyString else String c EmptyString
      | r' => String c r'
      end
  end.

(** [s.strip()] *)
Definition strip (s : string) : string := rstrip (lstrip s).

(** [len(s)] as a Python int, on ASCII text. *)
Definition len (s : string) : Z := Z.of_nat (String.length s).

(** [s.isascii()].  On such text a byte is a character, and the case
    mapping, the whitespace and the length above are Python's. *)
Fixpoint isascii (s : string) : bool :=
  match s with
  | EmptyString => true
  | String c r => ((nat_of_ascii c <? 128)%nat && isascii r)%bool
  end.

End Py.

(** ** Python numbers: int/float conversions *)

Module PyNum.

(** [float(z)]: the nearest binary64 number, ties to even.  Beyond the
    range of floats, where Python raises OverflowError, the value is an
    infinity; the counts converted below stay far from it. *)
Definition float_of_Z (z : Z) : float :=
  FloatOps.SF2Prim
    (SpecFloat.binary_normalize FloatOps.prec FloatOps.emax z 0 false).

(** [a / b] on ints (true division): [None] is ZeroDivisionError. *)
Definition truediv (a b : Z) : option float :=
  if b =? 0 then None
  else Some (PrimFloat.div (float_of_Z a) (float_of_Z b)).

(** [int(f)]: truncation toward zero; [None] for inf and nan. *)
Definition int_of_float (f : float) : option Z :=
  match FloatOps.Prim2SF f with
  | SpecFloat.S754_zero _ => Some 0
  | SpecFloat.S754_finite sg m e =>
      let mag := if 0 <=? e then Z.shiftl (Zpos m) e
                 else Z.shiftr (Zpos m) (- e) in
      Some (if sg then - mag else mag)
  | _ => None
  end.

End PyNum.

(** ** Python sequences: slicing *)

Module PySeq.

(** The start index of [l[start:]] after Python's clamping. *)
Definition clamp_start (start n : Z) : Z :=
  if start <? 0 then Z.max (start + n) 0 else Z.min start n.

(** [l[start:]] *)
Definition slice_from {A} (start : Z) (l : list A) : list A :=
  drop (Z.to_nat (clamp_start start (Z.of_nat (length l)))) l.

(** [l[:stop]] *)
Definition slice_to {A} (stop : Z) (l : list A) : list A :=
  take (Z.to_nat (clamp_start stop (Z.of_nat (length l)))) l.

(** [len(set(l))] *)
Definition len_set (l : list string) : Z :=
  Z.of_nat (length (remove_dups l)).

(** The last [k] elements of [l] (all of [l] when it is shorter). *)
Definition lastn {A} (k : nat) (l : list A) : list A :=
  drop (length l - k)%nat l.

(** [list.sort(key=...)]: the stable sort by an integer key. *)
Fixpoint insert_by_key {A} (key : A -> Z) (x : A) (l : list A) : list A :=
  match l with
  | [] => [x]
  | y :: r => if key x <=? key y then x :: y :: r
              else y :: insert_by_key key x r
  end.

Fixpoint sort_by_key {A} (key : A -> Z) (l : list A) : list A :=
  match l with
  | [] => []
  | x :: r => insert_by_key key x (sort_by_key key r)
  end.

(** The order [sort_by_key] establishes. *)
Definition key_le {A} (key : A -> Z) (a b : A) : Prop := key a <= key b.

End PySeq.

(** ** Python [str] to [int] and back *)

Module PyInt.

Definition is_digit (c : ascii) : bool :=
  let n := nat_of_ascii c in ((48 <=? n)%nat && (n <=? 57)%nat)%bool.

Definition digit_val (c : ascii) : Z := Z.of_nat (nat_of_ascii c) - 48.

(** Digits with single underscores between them, most significant first;
    [prev_digit] tells whether the previous character was a digit. *)
Fixpoint digits (acc : Z) (prev_digit : bool) (s : string) : option Z :=
  match s with
  | EmptyString => if prev_digit then Some acc else None
  | String c r =>
      if is_digit c then digits (10 * acc + digit_val c) true r
      else if (Ascii.eqb c "_" && prev_digit)%bool then digits acc false r
      else None
  end.

(** [int(s)] in base 10; [None] is ValueError. *)
Definition of_str (s : string) : option Z :=
  match Py.strip s with
  | String "-" r => option_map Z.opp (digits 0 false r)
  | String "+" r => digits 0 false r
  | r => digits 0 false r
  end.

(** [str(z)] *)
Definition to_str (z : Z) : string := NilZero.string_of_int (Z.to_int z).

End PyInt.

(** ** JSON values, as [json.loads] returns them *)

Module Json.

#[local] Set Warnings "-register-all".

Inductive json :=
| JNull
| JBool (b : bool)
| JInt (z : Z)
| JFloat (f : float)
| JStr (s : string)
| JList (l : list json)
| JDict (d : list (string * json)).

(** [bool(v)] *)
Definition truthy (v : json) : bool :=
  match v with
  | JNull => false
  | JBool b => b
  | JInt z => negb (z =? 0)
  | JFloat f => negb (PrimFloat.eqb f PrimFloat.zero)
  | JStr s => negb (String.eqb s "")
  | JList l => match l with [] => false | _ => true end
  | JDict d => match d with [] => false | _ => true end
  end.

(** [isinstance(v, dict)] *)
Definition is_dict (v : json) : bool :=
  match v with JDict _ => true | _ => false end.

(** [d.get(k)] and [k in d] on an object's items. *)
Definition get (k : string) (d : list (string * json)) : option json :=
  snd <$> List.find (fun kv => String.eqb (fst kv) k) d.

Definition mem (k : string) (d : list (string * json)) : bool :=
  match get k d with Some _ => true | None => false end.

(** [type(v).__name__] *)
Definition type_name (v : json) : string :=
  match v with
  | JNull => "NoneType"
  | JBool _ => "bool"
  | JInt _ => "int"
  | JFloat _ => "float"
  | JStr _ => "str"
  | JList _ => "list"
  | JDict _ => "dict"
  end.

(** Numbers: Python compares and equates [bool], [int] and [float] by
    value.  Two ints are compared as integers and two floats as IEEE 754
    numbers; an int and a float are compared exactly, by the mathematical
    value of the float, with no conversion of the int. *)
Inductive Num :=
| NInt (z : Z)
| NFloat (f : float).

(** How the int [z] stands to the float [f]: [None] when [f] is a nan,
    which compares false with everything.  A finite float is
    [(-1)^sg * m * 2^e]. *)
Definition compare_int_float (z : Z) (f : float) : option comparison :=
match FloatOps.Prim2SF f with
| SpecFloat.S754_nan => None
| SpecFloat.S754_zero _ => Some (z ?= 0)
| SpecFloat.S754_infinity sg => Some (if sg then Gt else Lt)
| SpecFloat.S754_finite sg m e =>
    let n := if sg then Zneg m else Zpos m in
    if 0 <=? e then Some (z ?= n * 2 ^ e)
    else Some (z * 2 ^ (- e) ?= n)
end.

(** How [a] stands to [b]: [None] when a nan is involved. *)
Definition compare_num (a b : Num) : option comparison :=
match a, b with
| NInt x, NInt y => Some (x ?= y)
| NInt x, NFloat g => compare_int_float x g
| NFloat f, NInt y => option_map CompOpp (compare_int_float y f)
| NFloat f, NFloat g =>
    if PrimFloat.ltb f g then Some Lt
    else if PrimFloat.eqb f g then Some Eq
    else if PrimFloat.ltb g f then Some Gt
    else None
end.

(** [a < b], [a <= b], [a == b] *)
Definition num_ltb (a b : Num) : bool :=
match compare_num a b with
| Some Lt => true
| _ => false
end.

Definition num_leb (a b : Num) : bool :=
match compare_num a b with
| Some Lt | Some Eq => true
| _ => false
end.

Definition num_eqb (a b : Num) : bool :=
match compare_num a b with
| Some Eq => true
| _ => false
end.

(** The number a value is, when [isinstance(v, (int, float))]; a [bool] is
    an [int]. *)
Definition to_num (v : json) : option Num :=
match v with
| JBool b => Some (NInt (if b then 1 else 0))
| JInt z => Some (NInt z)
| JFloat f => Some (NFloat f)
| _ => None
end.

(** [f.is_integer()] *)
Definition float_is_integer (f : float) : bool :=
match FloatOps.Prim2SF f with
| SpecFloat.S754_zero _ => true
| SpecFloat.S754_finite _ m e =>
    if 0 <=? e then true else Z.land (Zpos m) (Z.ones (- e)) =? 0
| _ => false
end.

(** [a == b] *)
Fixpoint py_eqb (a b : json) {struct a} : bool :=
match a with
| JNull => match b with JNull => true | _ => false end
| JStr s => match b with JStr t => String.eqb s t | _ => false end
| JList l1 =>
    match b with
    | JList l2 =>
        (fix go (l1 l2 : list json) : bool :=
           match l1, l2 with
           | [], [] => true
           | x :: r1, y :: r2 => (py_eqb x y && go r1 r2)%bool
           | _, _ => false
           end) l1 l2
    | _ => false
    end
| JDict d1 =>
    match b with
    | JDict d2 =>
        ((length d1 =? length d2)%nat
         && (fix go (d : list (string * json)) : bool :=
               match d with
               | [] => true
               | (k, v) :: r =>
                   (match get k d2 with
                    | Some v' => py_eqb v v'
                    | None => false
                    end && go r)%bool
               end) d1)%bool
    | _ => false
    end
| _ =>
    match to_num a, to_num b with
    | Some x, Some y => num_eqb x y
    | _, _ => false
    end
end.

(** [v in vs] *)
Definition py_in (v : json) (vs : list json) : bool := existsb (py_eqb v) vs.

End Json.

(** ** routing_helpers.py: the microloop exit predicate *)

Module RoutingHelpers.

(** The run-time shapes of [can_further_iteration_help]:
    [Union[str, bool]], [None], or any other object. *)
Inductive CanHelp :=
| CHNone
| CHBool (b : bool)
| CHStr (s : string)
| CHOther.

Record MicroloopState := {
  current_iteration : Z;
  max_iterations : Z;
  status : string;
  can_further_iteration_help : CanHelp;
  success_values : list string
}.

Section CaseMapping.
(** [str.upper] and [str.lower]: the case mappings of Python's [str], which
    act on every letter of the text and not on the ASCII letters alone. *)
Variable upper lower : string -> string.

(** [MicroloopState.is_status_success] *)
Definition is_status_success (st : MicroloopState) : bool :=
  let status_upper :=
    if String.eqb (status st) "" then "" else upper (status st) in
  Py.str_in status_upper (map upper (success_values st)).

(** [MicroloopState.is_at_max_iterations] *)
Definition is_at_max_iterations (st : MicroloopState) : bool :=
  max_iterations st <=? current_iteration st.

(** [_normalize_can_help] *)
Definition _normalize_can_help (value : CanHelp) : bool :=
  match value with
  | CHNone => true
  | CHBool b => b
  | CHStr s => Py.str_in (lower s) ["yes"; "true"; "1"]
  | CHOther => true
  end.

(** [MicroloopState.can_help] *)
Definition can_help (st : MicroloopState) : bool :=
  _normalize_can_help (can_further_iteration_help st).

(** [should_exit_microloop] *)
Definition should_exit_microloop (st : MicroloopState) : bool * string :=
  if is_status_success st then (true, "status_verified")
  else if is_at_max_iterations st then (true, "max_iterations_reached")
  else if negb (can_help st) then (true, "no_further_help")
  else (false, "").

(** The status is among the success values, both in upper case; an empty
    status is compared as it is. *)
Definition status_in_success_values (st : MicroloopState) : Prop :=
  exists v,
    In v (success_values st) /\
    upper v = (if String.eqb (status st) "" then "" else upper (status st)).

End CaseMapping.

Definition default_state (i m : Z) (s : string) (c : CanHelp) :=
  {| current_iteration := i; max_iterations := m; status := s;
     can_further_iteration_help := c; success_values := ["VERIFIED"] |}.

End RoutingHelpers.

(** ** progress_tracker.py: stall detection *)

Module ProgressTracker.

Record ProgressTracker := {
  error_signatures : list string;
  stall_threshold : Z
}.

Definition create_tracker (stall_threshold : Z) : ProgressTracker :=
  {| error_signatures := []; stall_threshold := stall_threshold |}.

(** The append that [record_iteration] and [record_success] perform on
    [error_signatures]. *)
Definition record (sig : string) (t : ProgressTracker) : ProgressTracker :=
  {| error_signatures := error_signatures t ++ [sig];
     stall_threshold := stall_threshold t |}.

(** [ProgressTracker.is_stalled] *)
Definition is_stalled (t : ProgressTracker) : bool :=
  if Z.of_nat (length (error_signatures t)) <? stall_threshold t then false
  else
    let recent := PySeq.slice_from (- stall_threshold t) (error_signatures t) in
    PySeq.len_set recent =? 1.

(** [ProgressTracker.get_stall_count] *)
Fixpoint count_prefix_eq (x : string) (l : list string) : Z :=
  match l with
  | [] => 0
  | y :: r => if String.eqb y x then 1 + count_prefix_eq x r else 0
  end.

Definition get_stall_count (t : ProgressTracker) : Z :=
  match reverse (error_signatures t) with
  | [] => 0
  | last_sig :: _ => count_prefix_eq last_sig (reverse (error_signatures t))
  end.

(** [ProgressTracker.get_velocity]; [None] is ZeroDivisionError. *)
Definition get_velocity (t : ProgressTracker) : option float :=
  if Z.of_nat (length (error_signatures t)) <? 2 then Some PrimFloat.one
  else
    let window :=
      Z.min (Z.of_nat (length (error_signatures t))) (stall_threshold t) in
    let recent := PySeq.slice_from (- window) (error_signatures t) in
    let unique := PySeq.len_set recent in
    PyNum.truediv unique (Z.of_nat (length recent)).

(** All the signatures of a window are equal. *)
Definition all_equal (l : list string) : Prop :=
  forall x y, In x l -> In y l -> x = y.

End ProgressTracker.

(** ** checkpoint_resume.py: checkpoints and the resume point *)

Module CheckpointResume.

Definition Path := string.

(** What opening a receipt file and [json.load] give:
    [_load_checkpoint_from_receipt] runs them under
    [except (json.JSONDecodeError, OSError)]. *)
Inductive ReceiptFile :=
| Parsed (receipt : Json.json)
| Unreadable  (* JSONDecodeError or OSError: caught, the file is skipped *)
| Undecodable (* any other exception, such as UnicodeDecodeError: not caught *).

(** The part of the run directory the checkpoint manager reads:
    [receipts flow_key] is [list_receipts(run_base / flow_key)], in its
    order, each path with what loading it gives; [envelope flow_key step_id]
    is [handoff_envelope_path(run_base / flow_key, step_id)] when that file
    exists. *)
Record RunDir := {
  receipts : string -> list (Path * ReceiptFile);
  envelope : string -> string -> option Path
}.

(** A checkpoint holds what the receipt held: only [step_id] is made sure
    to be a [str]; absent, [completed_at] is [None]. *)
Record Checkpoint := {
  step_id : string;
  flow_key : string;
  run_id : Json.json;
  step_index : Z;
  status : Json.json;
  receipt_path : Path;
  envelope_path : option Path;
  completed_at : Json.json
}.

(** The [reason] of a resume point, by the text that builds it. *)
Inductive Reason :=
| NoCheckpoints
    (* "No checkpoints found; starting from beginning" *)
| LastSucceeded (step_id : string)
    (* f"Last step '{step_id}' succeeded; advancing to next" *)
| LastNotSucceeded (step_id : string) (status : Json.json)
    (* f"Last step '{step_id}' {status}; retrying" *).

Record ResumePoint := {
  rp_flow_key : string;
  rp_step_id : string;
  rp_step_index : Z;
  rp_action : string;
  rp_reason : Reason;
  rp_last_checkpoint : option Checkpoint
}.

(** A call returns a value or raises. *)
Inductive Exception :=
| AttributeError
| LoadError.

Inductive Outcome (A : Type) :=
| Returned (a : A)
| Raised (e : Exception).
Arguments Returned {A} a.
Arguments Raised {A} e.

Definition bind {A B} (o : Outcome A) (f : A -> Outcome B) : Outcome B :=
  match o with
  | Returned a => f a
  | Raised e => Raised e
  end.

(** [CheckpointManager._extract_step_index] *)
Definition _extract_step_index (step_id : string) : Z :=
  let from_prefix :=
    if String.prefix "step-" step_id
    then PyInt.of_str (String.substring 5 (String.length step_id) step_id)
    else None in
  match from_prefix with
  | Some n => n
  | None =>
      match PyInt.of_str step_id with
      | Some n => n
      | None => 0
      end
  end.

(** [receipt.get("step_id", "")] and [receipt.get("status", "unknown")] *)
Definition receipt_step_id (receipt : list (string * Json.json)) : Json.json :=
  default (Json.JStr "") (Json.get "step_id" receipt).

Definition receipt_status (receipt : list (string * Json.json)) : Json.json :=
  default (Json.JStr "unknown") (Json.get "status" receipt).

(** [CheckpointManager._load_checkpoint_from_receipt]: [receipt.get] raises
    AttributeError unless the receipt is an object, and so does
    [step_id.startswith] unless the step id is a [str]. *)
Definition _load_checkpoint_from_receipt (d : RunDir)
    (r_path : Path) (content : ReceiptFile) (flow_key : string)
    : Outcome (option Checkpoint) :=
  match content with
  | Unreadable => Returned None
  | Undecodable => Raised LoadError
  | Parsed (Json.JDict receipt) =>
      let run_id := default (Json.JStr "") (Json.get "run_id" receipt) in
      let status := receipt_status receipt in
      let completed_at := default Json.JNull (Json.get "completed_at" receipt) in
      match receipt_step_id receipt with
      | Json.JStr step_id =>
          Returned
            (Some {| step_id := step_id; flow_key := flow_key; run_id := run_id;
                     step_index := _extract_step_index step_id;
                     status := status; receipt_path := r_path;
                     envelope_path := envelope d flow_key step_id;
                     completed_at := completed_at |})
      | _ => Raised AttributeError
      end
  | Parsed _ => Raised AttributeError
  end.

(** The loop of [list_checkpoints] over the receipt files: the checkpoints
    in the order of the files, the skipped files left out. *)
Fixpoint load_receipts (d : RunDir) (flow_key : string)
    (receipt_files : list (Path * ReceiptFile)) : Outcome (list Checkpoint) :=
  match receipt_files with
  | [] => Returned []
  | (r_path, content) :: rest =>
      bind (_load_checkpoint_from_receipt d r_path content flow_key)
        (fun checkpoint =>
           bind (load_receipts d flow_key rest)
             (fun checkpoints =>
                Returned match checkpoint with
                         | Some c => c :: checkpoints
                         | None => checkpoints
                         end))
  end.

(** [CheckpointManager.list_checkpoints] *)
Definition list_checkpoints (d : RunDir) (flow_key : string)
    : Outcome (list Checkpoint) :=
  bind (load_receipts d flow_key (receipts d flow_key))
    (fun checkpoints => Returned (PySeq.sort_by_key step_index checkpoints)).

(** [CheckpointManager.get_last_checkpoint] *)
Definition get_last_checkpoint (d : RunDir) (flow_key : string)
    : Outcome (option Checkpoint) :=
  bind (list_checkpoints d flow_key)
    (fun checkpoints => Returned (last checkpoints)).

(** [CheckpointManager.find_resume_point] *)
Definition find_resume_point (d : RunDir) (flow_key : string)
    : Outcome ResumePoint :=
  bind (get_last_checkpoint d flow_key)
    (fun last_checkpoint =>
       Returned
         match last_checkpoint with
         | None =>
             {| rp_flow_key := flow_key; rp_step_id := "step-0";
                rp_step_index := 0; rp_action := "start_fresh";
                rp_reason := NoCheckpoints;
                rp_last_checkpoint := None |}
         | Some last_checkpoint =>
             if Json.py_eqb (status last_checkpoint) (Json.JStr "succeeded") then
               let next_index := step_index last_checkpoint + 1 in
               {| rp_flow_key := flow_key;
                  rp_step_id := "step-" +:+ PyInt.to_str next_index;
                  rp_step_index := next_index;
                  rp_action := "continue";
                  rp_reason := LastSucceeded (step_id last_checkpoint);
                  rp_last_checkpoint := Some last_checkpoint |}
             else
               {| rp_flow_key := flow_key;
                  rp_step_id := step_id last_checkpoint;
                  rp_step_index := step_index last_checkpoint;
                  rp_action := "retry";
                  rp_reason := LastNotSucceeded (step_id last_checkpoint)
                                 (status last_checkpoint);
                  rp_last_checkpoint := Some last_checkpoint |}
         end).

(** The receipt files the loader takes without raising: the unreadable
    ones, and the objects whose step id is a [str]. *)
Definition well_formed (content : ReceiptFile) : bool :=
  match content with
  | Unreadable => true
  | Parsed (Json.JDict receipt) =>
      match receipt_step_id receipt with
      | Json.JStr _ => true
      | _ => false
      end
  | _ => false
  end.

(** The step index a receipt file stands for, when it gives a checkpoint. *)
Definition receipt_index (content : ReceiptFile) : option Z :=
  match content with
  | Parsed (Json.JDict receipt) =>
      match receipt_step_id receipt with
      | Json.JStr step_id => Some (_extract_step_index step_id)
      | _ => None
      end
  | _ => None
  end.

End CheckpointResume.

(** ** stepwise/routing/utility_candidates.py: inject-flow candidates *)

Module UtilityCandidates.

(** A value held in a trigger's evidence or in a step result. *)
Inductive Value :=
| VNone
| VBool (b : bool)
| VInt (z : Z)
| VStr (s : string).

(** [str(v)], as an f-string formats it. *)
Definition py_str (v : Value) : string :=
  match v with
  | VNone => "None"
  | VBool true => "True"
  | VBool false => "False"
  | VInt z => PyInt.to_str z
  | VStr s => s
  end.

Definition Dict := list (string * Value).

Definition UTILITY_SOURCE : string := "utility_flow_detector".
Definition INJECT_PREFIX : string := "inject_flow:".

(** [GitStatus] (a [TypedDict] with [total=False]). *)
Record GitStatus := {
  behind_count : option Z;
  diverged : option bool;
  has_conflicts : option bool;
  ahead_count : option Z;
  branch : option string;
  upstream : option string
}.

(** [swarm.runtime.types.RoutingCandidate], with the fields the
    constructor call in [get_utility_flow_candidates] sets. *)
Record RoutingCandidate := {
  candidate_id : string;
  action : string;
  target_node : option string;
  reason : string;
  priority : Z;
  source : string;
  evidence_pointers : list string;
  is_default : bool
}.

(** [utility_flow_injection.UtilityFlowMetadata], as the tests build it. *)
Record UtilityFlowMetadata := {
  flow_id : string;
  flow_number : Z;
  injection_trigger : string;
  on_complete_next_flow : string;
  on_complete_reason : string;
  on_failure_next_flow : string;
  pass_artifacts : list string;
  node_ids : list string;
  first_node_id : option string
}.

(** The result of [InjectionTriggerDetector.check_triggers]. *)
Record TriggerResult := {
  triggered : bool;
  trigger_type : option string;
  tr_flow_id : option string;
  tr_reason : string;
  tr_priority : Z;
  evidence : Dict
}.

(** The shapes of [step_result] that [_step_result_to_dict] tells apart. *)
Inductive StepResult :=
| SRDict (d : Dict)
| SRToDict (to_dict : Dict)
| SRAttrs (attrs : Dict).

Definition dict_get (k : string) (d : Dict) : option Value :=
  snd <$> List.find (fun kv => String.eqb (fst kv) k) d.

(** [_step_result_to_dict] *)
Definition _step_result_to_dict (step_result : StepResult) : Dict :=
  match step_result with
  | SRDict d => d
  | SRToDict d => d
  | SRAttrs attrs =>
      omap (fun attr => pair attr <$> dict_get attr attrs)
           ["status"; "output"; "error"; "duration_ms"; "step_id";
            "artifacts"; "can_further_iteration_help"]
  end.

Section Candidates.
(** [RunState] is passed through to the detector unread. *)
Context {RunState : Type}.

(** An [InjectionTriggerDetector] over its registry. *)
Record Detector := {
  registry : list UtilityFlowMetadata;
  check_triggers : Dict -> RunState -> option GitStatus -> TriggerResult
}.

(** The process state the function reads: the [SWARM_STRICT_REPO_ROOT]
    flag and the detector cached for each repository root. *)
Record Env := {
  strict_mode : bool;
  get_utility_flow_detector : string -> Detector
}.

Inductive Result :=
| ValueError (msg : string)
| Return (candidates : list RoutingCandidate).

(** [get_utility_flow_candidates] *)
Definition get_utility_flow_candidates (env : Env)
    (step_result : StepResult) (run_state : RunState)
    (git_status : option GitStatus) (repo_root : option string) : Result :=
  match repo_root with
  | None =>
      if strict_mode env then
        ValueError
          ("repo_root is required in strict mode (get_utility_flow_candidates). "
           +:+ "Either pass repo_root explicitly or unset SWARM_STRICT_REPO_ROOT.")
      else Return []
  | Some root =>
      let detector := get_utility_flow_detector env root in
      let result_dict := _step_result_to_dict step_result in
      let trigger_result :=
        check_triggers detector result_dict run_state git_status in
      match tr_flow_id trigger_result with
      | Some fid =>
          if (triggered trigger_result && negb (String.eqb fid ""))%bool then
            let evidence_pointers :=
              ("trigger:" +:+ match trigger_type trigger_result with
                              | Some t => t
                              | None => "None"
                              end)
              :: map (fun kv => fst kv +:+ ":" +:+ py_str (snd kv))
                     (evidence trigger_result) in
            Return
              [ {| candidate_id := INJECT_PREFIX +:+ fid;
                   action := "inject_flow";
                   target_node := Some fid;
                   reason := tr_reason trigger_result;
                   priority := tr_priority trigger_result;
                   source := UTILITY_SOURCE;
                   evidence_pointers := evidence_pointers;
                   is_default := false |} ]
          else Return []
      | None => Return []
      end
  end.

(** The first node of the utility flow [fid] in the detector's registry. *)
Definition first_node_of (det : Detector) (fid : string) : option string :=
  match List.find (fun m => String.eqb (flow_id m) fid) (registry det) with
  | Some m => first_node_id m
  | None => None
  end.

End Candidates.

(** The reset flow of the tests in [test_divergence_detection.py]. *)
Definition reset_flow : UtilityFlowMetadata :=
  {| flow_id := "reset"; flow_number := 8;
     injection_trigger := "upstream_diverged";
     on_complete_next_flow := "return";
     on_complete_reason := "Branch synchronized";
     on_failure_next_flow := "pause";
     pass_artifacts := [];
     node_ids := ["diagnose"; "sync"];
     first_node_id := Some "diagnose" |}.

(** A sample detector over that registry: it reports upstream divergence
    when the git status is behind or diverged, as in scenario 3 of the
    spec. *)
Definition divergence_detector : @Detector unit :=
  {| registry := [reset_flow];
     check_triggers := fun _ _ gs =>
       match gs with
       | Some g =>
           if (default false (diverged g)
               || (0 <? default 0 (behind_count g)))%bool
           then {| triggered := true;
                   trigger_type := Some "upstream_diverged";
                   tr_flow_id := Some "reset";
                   tr_reason := "Upstream diverged";
                   tr_priority := 80;
                   evidence := [("behind_count", VInt (default 0 (behind_count g)));
                                ("diverged", VBool (default false (diverged g)))] |}
           else {| triggered := false; trigger_type := None; tr_flow_id := None;
                   tr_reason := ""; tr_priority := 0; evidence := [] |}
       | None => {| triggered := false; trigger_type := None; tr_flow_id := None;
                    tr_reason := ""; tr_priority := 0; evidence := [] |}
       end |}.

Definition test_env : @Env unit :=
  {| strict_mode := false;
     get_utility_flow_detector := fun _ => divergence_detector |}.

Definition diverged_status : GitStatus :=
  {| behind_count := Some 5; diverged := Some true; has_conflicts := None;
     ahead_count := None; branch := None; upstream := None |}.

End UtilityCandidates.

(** ** types/tool_call.py: the normalized tool call and its dictionary form *)

Module ToolCall.

Section WithAny.
(** The values of [tool_input], a [Dict[str, Any]]. *)
Context {Any : Type}.

Record NormalizedToolCall := {
  tool_name : string;
  tool_input : list (string * Any);
  tool_output : option string;
  success : bool;
  duration_ms : Z;
  blocked : bool;
  blocked_reason : option string;
  source : string;
  timestamp : option string
}.

(** The dataclass constructor followed by [__post_init__]; [now] is
    [datetime.now(timezone.utc).isoformat()] at the time of the call. *)
Definition new (now : string) (tool_name : string)
    (tool_input : list (string * Any)) (tool_output : option string)
    (success : bool) (duration_ms : Z) (blocked : bool)
    (blocked_reason : option string) (source : string)
    (timestamp : option string) : NormalizedToolCall :=
  {| tool_name := tool_name; tool_input := tool_input;
     tool_output := tool_output; success := success;
     duration_ms := duration_ms; blocked := blocked;
     blocked_reason := blocked_reason; source := source;
     timestamp := match timestamp with
                  | None => Some (now +:+ "Z")
                  | Some t => Some t
                  end |}.

(** The dictionary [to_dict] builds and [from_dict] reads, one entry per
    key: [None] is an absent key.  The value under "timestamp" may
    itself be [None]. *)
Record ToolCallDict := {
  k_tool_name : option string;
  k_tool_input : option (list (string * Any));
  k_success : option bool;
  k_duration_ms : option Z;
  k_source : option string;
  k_timestamp : option (option string);
  k_tool_output : option string;
  k_blocked : option bool;
  k_blocked_reason : option string
}.

(** [NormalizedToolCall.to_dict] *)
Definition to_dict (self : NormalizedToolCall) : ToolCallDict :=
  {| k_tool_name := Some (tool_name self);
     k_tool_input := Some (tool_input self);
     k_success := Some (success self);
     k_duration_ms := Some (duration_ms self);
     k_source := Some (source self);
     k_timestamp := Some (timestamp self);
     k_tool_output := tool_output self;
     k_blocked := if blocked self then Some true else None;
     k_blocked_reason :=
       if blocked self then
         match blocked_reason self with
         | Some r => if String.eqb r "" then None else Some r
         | None => None
         end
       else None |}.

(** [NormalizedToolCall.from_dict] *)
Definition from_dict (now : string) (data : ToolCallDict)
    : NormalizedToolCall :=
  new now
    (default "unknown" (k_tool_name data))
    (default [] (k_tool_input data))
    (k_tool_output data)
    (default true (k_success data))
    (default 0 (k_duration_ms data))
    (default false (k_blocked data))
    (k_blocked_reason data)
    (default "unknown" (k_source data))
    (default None (k_timestamp data)).

(** What [to_dict] keeps of [blocked_reason]. *)
Definition kept_blocked_reason (c : NormalizedToolCall) : option string :=
  if blocked c then
    match blocked_reason c with
    | Some r => if String.eqb r "" then None else Some r
    | None => None
    end
  else None.

Definition with_blocked_reason (r : option string)
    (c : NormalizedToolCall) : NormalizedToolCall :=
  {| tool_name := tool_name c; tool_input := tool_input c;
     tool_output := tool_output c; success := success c;
     duration_ms := duration_ms c; blocked := blocked c;
     blocked_reason := r; source := source c;
     timestamp := timestamp c |}.

End WithAny.

Arguments NormalizedToolCall Any : clear implicits.
Arguments ToolCallDict Any : clear implicits.

End ToolCall.

(** ** boundary_enforcement.py: the boundary scanner *)

Module BoundaryEnforcement.

(** [needle in hay] on strings. *)
Fixpoint contains (needle hay : string) : bool :=
  (String.prefix needle hay
   || match hay with
      | EmptyString => false
      | String _ r => contains needle r
      end)%bool.

Inductive ViolationSeverity := INFO | WARNING | ERROR | CRITICAL.

Inductive ViolationType :=
| WRITE_OUTSIDE_WORKSPACE
| REAL_REPO_MODIFICATION
| UNAUTHORIZED_PUSH
| MAIN_BRANCH_MUTATION
| FORCE_OPERATION
| SECRET_EXPOSURE.

Record Violation := {
  v_type : ViolationType;
  severity : ViolationSeverity;
  path : string;
  operation : string;
  detail : string;
  v_step_id : string;
  v_timestamp : string;
  remediation : string
}.

(** [changed_files] and [real_repo_files] are sets; they are listed in the
    order the scanner iterates them. *)
Record WorkspaceState := {
  ws_timestamp : string;
  git_status : string;
  git_ref : string;
  changed_files : list string;
  real_repo_ref : string;
  real_repo_files : list string
}.

(** Class constants of [BoundaryScanner], in declaration order. *)
Definition PROTECTED_PATHS : list string :=
  [".git/config"; ".git/hooks/pre-push"; ".gitignore"].

Definition FORCE_PATTERNS : list string :=
  ["push --force"; "push -f"; "reset --hard"; "clean -fd"; "checkout --force"].

Definition SECRET_PATTERNS : list string :=
  [".env"; "credentials"; "secrets"; "api_key"; "password"; "token"].

(** A scanner with what it reads from its surroundings: the workspace
    ([root()] as path components, [is_shadow()]), the resolution of
    [(repo_root / file_path).resolve()] to path components, the state
    [capture_state()] would return, and the clock. *)
Record BoundaryScanner := {
  workspace_root : list string;
  is_shadow : bool;
  _step_id : string;
  _repo_root : string;
  _baseline : option WorkspaceState;
  resolve : string -> string -> list string;
  capture_state : WorkspaceState;
  root_text : string;
  now : string
}.

(** [abs_path.relative_to(workspace_root)] succeeds. *)
Fixpoint is_relative_to (abs_path root : list string) : bool :=
  match root, abs_path with
  | [], _ => true
  | r :: root', a :: abs' => (String.eqb r a && is_relative_to abs' root')%bool
  | _ :: _, [] => false
  end.

(** [BoundaryScanner._check_write_violations] *)
Definition _check_write_violations (self : BoundaryScanner)
    (current : WorkspaceState) : list Violation :=
  flat_map
    (fun file_path =>
       let abs_path := resolve self (_repo_root self) file_path in
       if is_relative_to abs_path (workspace_root self) then []
       else [ {| v_type := WRITE_OUTSIDE_WORKSPACE; severity := ERROR;
                 path := file_path; operation := "write";
                 detail := "File " +:+ file_path
                           +:+ " is outside workspace root " +:+ root_text self;
                 v_step_id := _step_id self; v_timestamp := now self;
                 remediation :=
                   "Ensure all writes go to workspace.root() or RUN_BASE" |} ])
    (changed_files current).

(** [s[:8]] *)
Definition first8 (s : string) : string := String.substring 0 8 s.

(** [BoundaryScanner._check_shadow_violations] *)
Definition _check_shadow_violations (self : BoundaryScanner)
    (current : WorkspaceState) : list Violation :=
  match _baseline self with
  | None => []
  | Some baseline =>
      if (negb (String.eqb (real_repo_ref current) "")
          && negb (String.eqb (real_repo_ref baseline) "")
          && negb (String.eqb (real_repo_ref current) (real_repo_ref baseline)))%bool
      then [ {| v_type := REAL_REPO_MODIFICATION; severity := CRITICAL;
                path := "HEAD"; operation := "commit/reset";
                detail := "Real repo HEAD changed from "
                          +:+ first8 (real_repo_ref baseline) +:+ " to "
                          +:+ first8 (real_repo_ref current);
                v_step_id := _step_id self; v_timestamp := now self;
                remediation :=
                  "Shadow mode should not modify real repo. Check for escaped git commands." |} ]
      else []
  end.

(** [BoundaryScanner._check_protected_paths] *)
Definition _check_protected_paths (self : BoundaryScanner)
    (current : WorkspaceState) : list Violation :=
  flat_map
    (fun file_path =>
       flat_map
         (fun protected =>
            if contains protected file_path then
              [ {| v_type := MAIN_BRANCH_MUTATION; severity := WARNING;
                   path := file_path; operation := "modify";
                   detail := "Protected path " +:+ protected +:+ " was modified";
                   v_step_id := _step_id self; v_timestamp := now self;
                   remediation := "Review if this modification is intentional." |} ]
            else [])
         PROTECTED_PATHS)
    (changed_files current).

(** [BoundaryScanner._check_secret_exposure]: one warning per file, for
    the first pattern that matches. *)
Definition _check_secret_exposure (self : BoundaryScanner)
    (current : WorkspaceState) : list Violation :=
  flat_map
    (fun file_path =>
       let file_lower := Py.lower file_path in
       match List.find (fun pattern => contains pattern file_lower)
                       SECRET_PATTERNS with
       | Some pattern =>
           [ {| v_type := SECRET_EXPOSURE; severity := WARNING;
                path := file_path; operation := "modify";
                detail := "File " +:+ file_path
                          +:+ " may contain secrets (matched '" +:+ pattern +:+ "')";
                v_step_id := _step_id self; v_timestamp := now self;
                remediation :=
                  "Review file for sensitive data before committing." |} ]
       | None => []
       end)
    (changed_files current).

(** [BoundaryScanner.scan] *)
Definition scan (self : BoundaryScanner)
    (current_state : option WorkspaceState) : list Violation :=
  let current_state := default (capture_state self) current_state in
  _check_write_violations self current_state
  ++ (if is_shadow self then _check_shadow_violations self current_state else [])
  ++ _check_protected_paths self current_state
  ++ _check_secret_exposure self current_state.

End BoundaryEnforcement.

(** ** state_builder.py: the replay reducer *)

Module StateBuilder.

Section Reducer.
(** [types.HandoffEnvelope] and [types.handoff_envelope_from_dict] are
    not among the sources: the envelope type is a parameter, and the
    parser returns [None] where the Python raises the [KeyError] or
    [TypeError] that [_apply_step_completed] catches. *)
Context {HandoffEnvelope : Type}.
Variable handoff_envelope_from_dict : Json.json -> option HandoffEnvelope.

(** The fields of [RunState] that the replay compares or that
    [step_completed] touches. *)
Record RunState := {
  run_id : string;
  flow_key : string;
  status : string;
  timestamp : option string;
  current_step_id : option string;
  step_index : Z;
  current_flow_index : Z;
  completed_nodes : gset string;
  handoff_envelopes : gmap string HandoffEnvelope
}.

(** The keys of a [step_completed] payload that the handler reads;
    [None] is an absent key. *)
Record Payload := {
  p_step_id : option string;
  p_envelope : option Json.json;
  p_next_step_index : option Z
}.

Definition empty_payload : Payload :=
  {| p_step_id := None; p_envelope := None; p_next_step_index := None |}.

Record RunEvent := {
  ev_run_id : string;
  ts : option string;
  kind : string;
  ev_flow_key : option string;
  ev_step_id : option string;
  payload : option Payload
}.

(** Modelled from the spec: [RunState.mark_node_completed], which lives
    in [swarm/runtime/types] and is not among the sources.  Section 3
    makes [completed_nodes] a set and section 4.2 says that
    [step_completed] adds [step_id] to it. *)
Definition mark_node_completed (state : RunState) (node : string) : RunState :=
  {| run_id := run_id state; flow_key := flow_key state;
     status := status state; timestamp := timestamp state;
     current_step_id := current_step_id state;
     step_index := step_index state;
     current_flow_index := current_flow_index state;
     completed_nodes := {[ node ]} ∪ completed_nodes state;
     handoff_envelopes := handoff_envelopes state |}.

Definition set_envelope (node : string) (e : HandoffEnvelope)
    (state : RunState) : RunState :=
  {| run_id := run_id state; flow_key := flow_key state;
     status := status state; timestamp := timestamp state;
     current_step_id := current_step_id state;
     step_index := step_index state;
     current_flow_index := current_flow_index state;
     completed_nodes := completed_nodes state;
     handoff_envelopes := <[ node := e ]> (handoff_envelopes state) |}.

Definition set_step_index (i : Z) (state : RunState) : RunState :=
  {| run_id := run_id state; flow_key := flow_key state;
     status := status state; timestamp := timestamp state;
     current_step_id := current_step_id state;
     step_index := i;
     current_flow_index := current_flow_index state;
     completed_nodes := completed_nodes state;
     handoff_envelopes := handoff_envelopes state |}.

Definition set_timestamp (t : option string) (state : RunState) : RunState :=
  {| run_id := run_id state; flow_key := flow_key state;
     status := status state; timestamp := t;
     current_step_id := current_step_id state;
     step_index := step_index state;
     current_flow_index := current_flow_index state;
     completed_nodes := completed_nodes state;
     handoff_envelopes := handoff_envelopes state |}.

(** [a or b] on optional strings: the first that is neither [None] nor
    empty. *)
Definition str_or (a b : option string) : option string :=
  match a with
  | Some s => if String.eqb s "" then b else Some s
  | None => b
  end.

(** [event.step_id or payload.get("step_id")], kept when truthy. *)
Definition resolve_step_id (event : RunEvent) (p : Payload) : option string :=
  match str_or (ev_step_id event) (p_step_id p) with
  | Some s => if String.eqb s "" then None else Some s
  | None => None
  end.

(** [_apply_step_completed] *)
Definition _apply_step_completed (state : RunState) (event : RunEvent)
    (p : Payload) : RunState :=
  match resolve_step_id event p with
  | None => state
  | Some step_id =>
      let state := mark_node_completed state step_id in
      let state :=
        match p_envelope p with
        | Some envelope_data =>
            if Json.truthy envelope_data then
              match handoff_envelope_from_dict envelope_data with
              | Some envelope => set_envelope step_id envelope state
              | None => state
              end
            else state
        | None => state
        end in
      match p_next_step_index p with
      | Some i => set_step_index i state
      | None => state
      end
  end.

(** The envelope the handler stores: the payload's, when it is present,
    truthy and parseable. *)
Definition stored_envelope (p : Payload) : option HandoffEnvelope :=
  match p_envelope p with
  | Some data =>
      if Json.truthy data then handoff_envelope_from_dict data else None
  | None => None
  end.

(** The branches of [_apply_event] for the other event kinds.  They do not
    bear on [step_completed], and several of them call [RunState] methods
    that are not among the sources: they are a parameter. *)
Variable apply_other : string -> RunState -> RunEvent -> Payload -> RunState.

(** [_apply_event] *)
Definition _apply_event (state : RunState) (event : RunEvent) : RunState :=
  let p := default empty_payload (payload event) in
  let state := set_timestamp (ts event) state in
  if String.eqb (kind event) "step_completed"
  then _apply_step_completed state event p
  else apply_other (kind event) state event p.

End Reducer.

End StateBuilder.

(** ** context_budget.py: priority-ranked budget enforcement *)

Module ContextBudget.

#[local] Set Warnings "-inexact-float".

Inductive Priority := LOW | MEDIUM | HIGH | CRITICAL.

(** [Priority.value] *)
Definition value (p : Priority) : Z :=
match p with LOW => 1 | MEDIUM => 2 | HIGH => 3 | CRITICAL => 4 end.

Definition is_critical (p : Priority) : bool :=
match p with CRITICAL => true | _ => false end.

Record ContentItem := {
  key : string;
  content : string;
  priority : Priority;
  tokens : Z;
  truncated : bool;
  dropped : bool;
  original_tokens : Z
}.

(** The dataclass constructor followed by [__post_init__]. *)
Definition new_item (key content : string) (priority : Priority) (tokens : Z)
  (truncated dropped : bool) (original_tokens : Z) : ContentItem :=
{| key := key; content := content; priority := priority; tokens := tokens;
   truncated := truncated; dropped := dropped;
   original_tokens := if original_tokens =? 0 then tokens else original_tokens |}.

Definition set_dropped (item : ContentItem) : ContentItem :=
{| key := key item; content := content item; priority := priority item;
   tokens := tokens item; truncated := truncated item; dropped := true;
   original_tokens := original_tokens item |}.

Definition set_tokens (n : Z) (item : ContentItem) : ContentItem :=
{| key := key item; content := content item; priority := priority item;
   tokens := n; truncated := truncated item; dropped := dropped item;
   original_tokens := n |}.

Record BudgetResult := {
  loaded_items : list ContentItem;
  dropped_items : list ContentItem;
  total_tokens : Z;
  result_budget : Z;
  overflow : bool
}.

(** [count_tokens_chars] *)
Definition count_tokens_chars (text : string) : Z := Py.len text / 4.

(** The enforcer: its budget and its [_token_counter]. *)
Record ContextBudgetEnforcer := {
  budget : Z;
  _token_counter : string -> Z
}.

(** [ContextBudgetEnforcer.count_tokens] *)
Definition count_tokens (self : ContextBudgetEnforcer) (text : string) : Z :=
if String.eqb text "" then 0 else _token_counter self text.

(** [text[:stop]] *)
Definition str_slice_to (stop : Z) (text : string) : string :=
String.substring 0 (Z.to_nat (PySeq.clamp_start stop (Py.len text))) text.

(** [text.rfind(" ")]: the index of the last space, or -1. *)
Fixpoint rfind_space_from (i : Z) (text : string) (found : Z) : Z :=
match text with
| EmptyString => found
| String c r => rfind_space_from (i + 1) r (if Ascii.eqb c " " then i else found)
end.

Definition rfind_space (text : string) : Z := rfind_space_from 0 text (-1).

Definition newline : string := String (ascii_of_nat 10) EmptyString.

Definition marker : string := newline +:+ newline +:+ "... [TRUNCATED]".

(** [int(n * f)] for an int [n] and a float [f]. *)
Definition int_of_scaled (n : Z) (f : float) : Z :=
default 0 (PyNum.int_of_float (PrimFloat.mul (PyNum.float_of_Z n) f)).

(** [n > m * f] for ints [n], [m] and a float [f]. *)
Definition gt_scaled (n m : Z) (f : float) : bool :=
PrimFloat.ltb (PrimFloat.mul (PyNum.float_of_Z m) f) (PyNum.float_of_Z n).

(** [n >= m * f] *)
Definition ge_scaled (n m : Z) (f : float) : bool :=
PrimFloat.leb (PrimFloat.mul (PyNum.float_of_Z m) f) (PyNum.float_of_Z n).

(** [ContextBudgetEnforcer._truncate_item] *)
Definition _truncate_item (self : ContextBudgetEnforcer) (item : ContentItem)
  (max_tokens : Z) : ContentItem :=
if max_tokens <=? 0 then
  new_item (key item) "[TRUNCATED: No budget remaining]" (priority item) 10
           true false (original_tokens item)
else
  let marker_tokens := count_tokens self marker in
  let available_tokens := max_tokens - marker_tokens in
  if available_tokens <=? 0 then
    new_item (key item) "[TRUNCATED]" (priority item) 5 true false
             (original_tokens item)
  else
    let chars_per_token :=
      PrimFloat.div (PyNum.float_of_Z (Py.len (content item)))
                    (PyNum.float_of_Z (Z.max (tokens item) 1)) in
    let estimated_chars := int_of_scaled available_tokens chars_per_token in
    let truncated_content := str_slice_to estimated_chars (content item) in
    let last_space := rfind_space truncated_content in
    let truncated_content :=
      if gt_scaled last_space estimated_chars 0.8
      then str_slice_to last_space truncated_content
      else truncated_content in
    let truncated_content := truncated_content +:+ marker in
    let new_tokens := count_tokens self truncated_content in
    new_item (key item) truncated_content (priority item) new_tokens
             true false (original_tokens item).

(** The loop state of [_load_by_priority]. *)
Record LoadState := {
  loaded : list ContentItem;
  dropped_acc : list ContentItem;
  used_tokens : Z
}.

Definition load (item : ContentItem) (st : LoadState) : LoadState :=
{| loaded := loaded st ++ [item];
   dropped_acc := dropped_acc st;
   used_tokens := used_tokens st + tokens item |}.

Definition drop_item (item : ContentItem) (st : LoadState) : LoadState :=
{| loaded := loaded st;
   dropped_acc := dropped_acc st ++ [set_dropped item];
   used_tokens := used_tokens st |}.

(** One iteration of the loop of [_load_by_priority]. *)
Definition load_step (self : ContextBudgetEnforcer) (st : LoadState)
  (item : ContentItem) : LoadState :=
let remaining := budget self - used_tokens st in
match priority item with
| CRITICAL => load item st
| HIGH =>
    if tokens item <=? remaining then load item st
    else if 100 <=? remaining then load (_truncate_item self item remaining) st
    else drop_item item st
| MEDIUM =>
    if tokens item <=? remaining then load item st else drop_item item st
| LOW =>
    if ((tokens item <=? remaining) && ge_scaled remaining (budget self) 0.1)%bool
    then load item st else drop_item item st
end.

(** [sorted(enumerate(items), key=lambda x: (-x[1].priority.value, x[0]))]:
    the stable sort by descending priority. *)
Definition sort_items (items : list ContentItem) : list ContentItem :=
PySeq.sort_by_key (fun item => - value (priority item)) items.

(** [ContextBudgetEnforcer._load_by_priority] *)
Definition _load_by_priority (self : ContextBudgetEnforcer)
  (items : list ContentItem) : list ContentItem * list ContentItem :=
let st := fold_left (load_step self) (sort_items items)
            {| loaded := []; dropped_acc := []; used_tokens := 0 |} in
(loaded st, dropped_acc st).

Definition sum_tokens (items : list ContentItem) : Z :=
fold_right (fun item acc => tokens item + acc) 0 items.

(** [ContextBudgetEnforcer.enforce] (the overflow report is not modelled). *)
Definition enforce (self : ContextBudgetEnforcer) (items : list ContentItem)
  : BudgetResult :=
let items :=
  map (fun item =>
         if tokens item =? 0
         then set_tokens (count_tokens self (content item)) item
         else item) items in
let '(loaded, dropped) := _load_by_priority self items in
{| loaded_items := loaded;
   dropped_items := dropped;
   total_tokens := sum_tokens loaded;
   result_budget := budget self;
   overflow := (match dropped with [] => false | _ => true end
                || existsb truncated loaded)%bool |}.

(** [create_content_item] with an explicit [token_counter]. *)
Definition create_content_item (key content : string) (priority : Priority)
  (token_counter : string -> Z) : ContentItem :=
let tokens := if String.eqb content "" then 0 else token_counter content in
new_item key content priority tokens false false tokens.

(** A whitespace tokenizer, [lambda t: len(t.split())], as a custom
    [token_counter]. *)
Fixpoint count_words_from (in_word : bool) (text : string) : Z :=
match text with
| EmptyString => 0
| String c r =>
    if Py.is_space c then count_words_from false r
    else (if in_word then 0 else 1) + count_words_from true r
end.

Definition count_words (text : string) : Z := count_words_from false text.

(** [s * n] *)
Fixpoint str_repeat (s : string) (n : nat) : string :=
match n with
| O => EmptyString
| S k => s +:+ str_repeat s k
end.

End ContextBudget.

(** ** structured_output.py: extraction, validation and the reprompt loop *)

Module StructuredOutput.

#[local] Set Warnings "-register-all".

(** *** Scanning for balanced braces *)

Definition backslash : ascii := ascii_of_nat 92.
Definition dquote : ascii := ascii_of_nat 34.

(** The inner loop of [_find_json_candidates], started on an opening brace:
    the length of the balanced candidate that begins there, if any. *)
Fixpoint scan_candidate (text : string) (depth : Z) (in_string escape_next : bool)
  (consumed : nat) : option nat :=
match text with
| EmptyString => None
| String char rest =>
    if escape_next then scan_candidate rest depth in_string false (S consumed)
    else if Ascii.eqb char backslash then
      scan_candidate rest depth in_string true (S consumed)
    else if Ascii.eqb char dquote then
      scan_candidate rest depth (negb in_string) false (S consumed)
    else if in_string then
      scan_candidate rest depth in_string false (S consumed)
    else if Ascii.eqb char "{" then
      scan_candidate rest (depth + 1) in_string false (S consumed)
    else if Ascii.eqb char "}" then
      if depth - 1 =? 0 then Some (S consumed)
      else scan_candidate rest (depth - 1) in_string false (S consumed)
    else scan_candidate rest depth in_string false (S consumed)
end.

(** The outer loop: [skip] characters are still covered by the candidate
    found last. *)
Fixpoint candidates_from (text : string) (skip : nat) : list string :=
match text with
| EmptyString => []
| String char rest =>
    match skip with
    | S k => candidates_from rest k
    | O =>
        if Ascii.eqb char "{" then
          match scan_candidate text 0 false false 0 with
          | Some n => String.substring 0 n text :: candidates_from rest (n - 1)
          | None => candidates_from rest 0
          end
        else candidates_from rest 0
    end
end.

(** [_find_json_candidates] *)
Definition _find_json_candidates (text : string) : list string :=
candidates_from text 0.

(** *** The two fence patterns *)

(** The text before and after the first occurrence of [needle]. *)
Fixpoint split_first (needle hay : string) : option (string * string) :=
if String.prefix needle hay
then Some (EmptyString,
           String.substring (String.length needle) (String.length hay) hay)
else match hay with
     | EmptyString => None
     | String c rest =>
         match split_first needle rest with
         | Some (before, after) => Some (String c before, after)
         | None => None
         end
     end.

Definition fence : string := "```".

(** [re.search(opener + r"\s*([\s\S]*?)\s*```", text)] followed by
    [.group(1).strip()]: the leftmost opener that a later fence closes, and
    the stripped text up to the first such fence. *)
Definition search_fence (opener text : string) : option string :=
match split_first opener text with
| Some (_, after) =>
    match split_first fence after with
    | Some (inner, _) => Some (Py.strip inner)
    | None => None
    end
| None => None
end.

Definition looks_like_code (json_str : string) : bool :=
existsb (fun marker => String.prefix marker json_str)
  ["def "; "class "; "function "; "import "; "const "; "let "; "var "].

(** *** Extraction *)

(** The outcome of [json.loads]. *)
Inductive Loads :=
| Loaded (data : Json.json)
| JSONDecodeError (msg : string) (pos : Z).

Section Extraction.
(** [json.loads], the standard library's parser. *)
Variable json_loads : string -> Loads.

Definition expected_object (data : Json.json) : string :=
"Expected JSON object, got " +:+ Json.type_name data.

(** Strategy 3: the first candidate that parses to an object. *)
Fixpoint first_object (json_candidates : list string) : option Json.json :=
match json_candidates with
| [] => None
| candidate :: rest =>
    match json_loads candidate with
    | Loaded data => if Json.is_dict data then Some data else first_object rest
    | JSONDecodeError _ _ => first_object rest
    end
end.

(** Strategy 4 and the final fallback. *)
Definition extract_raw (text : string) : option Json.json * option string :=
if (String.prefix "{" text || String.prefix "[" text)%bool then
  match json_loads text with
  | Loaded data =>
      if Json.is_dict data then (Some data, None)
      else (None, Some (expected_object data))
  | JSONDecodeError msg pos =>
      (None, Some ("Invalid JSON: " +:+ msg +:+ " at position " +:+ PyInt.to_str pos))
  end
else (None, Some "No valid JSON found in response").

(** Strategies 3 and 4. *)
Definition extract_braces (text : string) : option Json.json * option string :=
match first_object (_find_json_candidates text) with
| Some data => (Some data, None)
| None => extract_raw text
end.

(** Strategies 2 to 4. *)
Definition extract_generic (text : string) : option Json.json * option string :=
match search_fence fence text with
| Some json_str =>
    if looks_like_code json_str then extract_braces text
    else match json_loads json_str with
         | Loaded data =>
             if Json.is_dict data then (Some data, None) else extract_braces text
         | JSONDecodeError _ _ => extract_braces text
         end
| None => extract_braces text
end.

(** [extract_json_from_text] *)
Definition extract_json_from_text (text : string)
  : option Json.json * option string :=
if String.eqb (Py.strip text) "" then (None, Some "Empty response received")
else
  let text := Py.strip text in
  match search_fence "```json" text with
  | Some json_str =>
      match json_loads json_str with
      | Loaded data =>
          if Json.is_dict data then (Some data, None)
          else (None, Some (expected_object data))
      | JSONDecodeError _ _ => extract_generic text
      end
  | None => extract_generic text
  end.

End Extraction.

(** *** Schema validation *)

(** A JSON schema, by the keys [validate_against_schema] reads; [None] is an
    absent key.  [s_nullable] is the truth value of
    [.get("nullable", False)]. *)
Inductive Schema := MkSchema {
  s_required : option (list string);
  s_properties : option (list (string * Schema));
  s_type : option string;
  s_nullable : bool;
  s_enum : option (list Json.json);
  s_items : option Schema;
  s_min_length : option Json.Num;
  s_max_length : option Json.Num;
  s_pattern : option string;
  s_minimum : option Json.Num;
  s_maximum : option Json.Num;
  s_exclusive_minimum : option Json.Num;
  s_exclusive_maximum : option Json.Num
}.

(** The message of a [ValidationError]: the f-string that builds it, with
    the values it interpolates. *)
Inductive Message :=
| ExpectedObject (got : string)
| RequiredMissing (field_name : string)
| CannotBeNull (expected_type : string)
| NotInAllowed (value : Json.json) (allowed : list Json.json)
| ExpectedType (expected_type got : string)
| ExpectedItemType (item_type got : string)
| ItemNotInAllowed (item : Json.json) (allowed : list Json.json)
| ShorterThanMinimum (length : Z) (min_length : Json.Num)
| LongerThanMaximum (length : Z) (max_length : Json.Num)
| PatternMismatch (pattern : string)
| LessThanMinimum (value minimum : Json.Num)
| ExceedsMaximum (value maximum : Json.Num)
| NotGreaterThan (value exclusive_minimum : Json.Num)
| NotLessThan (value exclusive_maximum : Json.Num)
| Text (message : string).

Record ValidationError := {
  path : string;
  message : Message;
  value : option Json.json
}.

Definition find_schema (field_name : string)
  (properties : list (string * Schema)) : option Schema :=
snd <$> List.find (fun kv => String.eqb (fst kv) field_name) properties.

(** [isinstance(value, type_map[t])]; [None] when [t] is not in [type_map]. *)
Definition isinstance_of (t : string) (value : Json.json) : option bool :=
if String.eqb t "string" then
  Some match value with Json.JStr _ => true | _ => false end
else if String.eqb t "number" then
  Some match value with
       | Json.JInt _ | Json.JFloat _ | Json.JBool _ => true
       | _ => false
       end
else if String.eqb t "integer" then
  Some match value with Json.JInt _ | Json.JBool _ => true | _ => false end
else if String.eqb t "boolean" then
  Some match value with Json.JBool _ => true | _ => false end
else if String.eqb t "array" then
  Some match value with Json.JList _ => true | _ => false end
else if String.eqb t "object" then
  Some match value with Json.JDict _ => true | _ => false end
else if String.eqb t "null" then
  Some match value with Json.JNull => true | _ => false end
else None.

(** [prop_schema.get("type")] when truthy. *)
Definition expected_type_of (prop_schema : Schema) : option string :=
match s_type prop_schema with
| Some t => if String.eqb t "" then None else Some t
| None => None
end.

Definition type_is (prop_schema : Schema) (t : string) : bool :=
match s_type prop_schema with
| Some t' => String.eqb t' t
| None => false
end.

Section Validation.
(** [re.match(pattern, value)] is not [None]. *)
Variable re_match : string -> string -> bool.
(** [len(value)] of a [str]: the number of its characters. *)
Variable str_len : string -> Z.

(** The enum check of a present, non-null field. *)
Definition enum_errors (field_path : string) (prop_schema : Schema)
  (value : Json.json) : list ValidationError :=
match s_enum prop_schema with
| Some allowed_values =>
    if Json.py_in value allowed_values then []
    else [ {| path := field_path;
              message := NotInAllowed value allowed_values;
              value := Some value |} ]
| None => []
end.

(** The type check, with whole-valued floats accepted as integers. *)
Definition type_errors (field_path : string) (prop_schema : Schema)
  (value : Json.json) : list ValidationError :=
match expected_type_of prop_schema with
| Some expected_type =>
    match isinstance_of expected_type value with
    | Some false =>
        let whole_float :=
          match value with
          | Json.JFloat f =>
              (String.eqb expected_type "integer" && Json.float_is_integer f)%bool
          | _ => false
          end in
        if whole_float then []
        else [ {| path := field_path;
                  message := ExpectedType expected_type (Json.type_name value);
                  value := Some value |} ]
    | _ => []
    end
| None => []
end.

(** The string constraints. *)
Definition string_errors (field_path : string) (prop_schema : Schema)
  (value : Json.json) : list ValidationError :=
match value with
| Json.JStr s =>
    if type_is prop_schema "string" then
      let n := Json.NInt (str_len s) in
      match s_min_length prop_schema with
      | Some min_length =>
          if Json.num_ltb n min_length
          then [ {| path := field_path;
                    message := ShorterThanMinimum (str_len s) min_length;
                    value := Some value |} ]
          else []
      | None => []
      end
      ++ match s_max_length prop_schema with
         | Some max_length =>
             if Json.num_ltb max_length n
             then [ {| path := field_path;
                       message := LongerThanMaximum (str_len s) max_length;
                       value := Some value |} ]
             else []
         | None => []
         end
      ++ match s_pattern prop_schema with
         | Some pattern =>
             if re_match pattern s then []
             else [ {| path := field_path;
                       message := PatternMismatch pattern;
                       value := Some value |} ]
         | None => []
         end
    else []
| _ => []
end.

(** The numeric constraints. *)
Definition numeric_errors (field_path : string) (prop_schema : Schema)
  (value : Json.json) : list ValidationError :=
if (type_is prop_schema "number" || type_is prop_schema "integer")%bool then
  match Json.to_num value with
  | Some n =>
      match s_minimum prop_schema with
      | Some minimum =>
          if Json.num_ltb n minimum
          then [ {| path := field_path; message := LessThanMinimum n minimum;
                    value := Some value |} ]
          else []
      | None => []
      end
      ++ match s_maximum prop_schema with
         | Some maximum =>
             if Json.num_ltb maximum n
             then [ {| path := field_path; message := ExceedsMaximum n maximum;
                       value := Some value |} ]
             else []
         | None => []
         end
      ++ match s_exclusive_minimum prop_schema with
         | Some exclusive_minimum =>
             if Json.num_leb n exclusive_minimum
             then [ {| path := field_path;
                       message := NotGreaterThan n exclusive_minimum;
                       value := Some value |} ]
             else []
         | None => []
         end
      ++ match s_exclusive_maximum prop_schema with
         | Some exclusive_maximum =>
             if Json.num_leb exclusive_maximum n
             then [ {| path := field_path;
                       message := NotLessThan n exclusive_maximum;
                       value := Some value |} ]
             else []
         | None => []
         end
  | None => []
  end
else [].

(** The null case of a present field. *)
Definition null_errors (field_path : string) (prop_schema : Schema)
  : list ValidationError :=
if (type_is prop_schema "null" || s_nullable prop_schema)%bool then []
else match s_type prop_schema with
     | Some prop_type =>
         [ {| path := field_path; message := CannotBeNull prop_type;
              value := Some Json.JNull |} ]
     | None => []
     end.

(** The type and enum checks of an array item that is not validated as a
    nested object. *)
Definition item_type_errors (item_path : string) (items_schema : Schema)
  (item : Json.json) : list ValidationError :=
match s_type items_schema with
| Some item_type =>
    match isinstance_of item_type item with
    | Some false =>
        [ {| path := item_path;
             message := ExpectedItemType item_type (Json.type_name item);
             value := Some item |} ]
    | _ => []
    end
| None => []
end.

Definition item_enum_errors (item_path : string) (items_schema : Schema)
  (item : Json.json) : list ValidationError :=
match s_enum items_schema with
| Some allowed =>
    if Json.py_in item allowed then []
    else [ {| path := item_path; message := ItemNotInAllowed item allowed;
              value := Some item |} ]
| None => []
end.

Definition required_errors (path_prefix : string) (schema : Schema)
  (d : list (string * Json.json)) : list ValidationError :=
flat_map
  (fun field_name =>
     if Json.mem field_name d then []
     else [ {| path := path_prefix +:+ "." +:+ field_name;
               message := RequiredMissing field_name;
               value := None |} ])
  (default [] (s_required schema)).

(** [validate_against_schema] *)
Fixpoint validate_against_schema (data : Json.json) (schema : Schema)
  (path_prefix : string) {struct data} : list ValidationError :=
match data with
| Json.JDict d =>
    required_errors path_prefix schema d
    ++ (fix fields (l : list (string * Json.json)) : list ValidationError :=
          match l with
          | [] => []
          | (field_name, value) :: rest =>
              let field_path := path_prefix +:+ "." +:+ field_name in
              match find_schema field_name (default [] (s_properties schema)) with
              | None => []
              | Some prop_schema =>
                  match value with
                  | Json.JNull => null_errors field_path prop_schema
                  | _ =>
                      enum_errors field_path prop_schema value
                      ++ type_errors field_path prop_schema value
                      ++ match value with
                         | Json.JDict _ =>
                             if type_is prop_schema "object"
                             then validate_against_schema value prop_schema field_path
                             else []
                         | _ => []
                         end
                      ++ match value with
                         | Json.JList items =>
                             match s_items prop_schema with
                             | Some items_schema =>
                                 if type_is prop_schema "array" then
                                   (fix each (idx : Z) (items : list Json.json)
                                      : list ValidationError :=
                                      match items with
                                      | [] => []
                                      | item :: more =>
                                          let item_path :=
                                            field_path +:+ "[" +:+ PyInt.to_str idx
                                            +:+ "]" in
                                          match item with
                                          | Json.JDict _ =>
                                              if type_is items_schema "object"
                                              then validate_against_schema
                                                     item items_schema item_path
                                              else item_type_errors item_path
                                                     items_schema item
                                          | _ => item_type_errors item_path
                                                   items_schema item
                                          end
                                          ++ item_enum_errors item_path items_schema item
                                          ++ each (idx + 1) more
                                      end) 0 items
                                 else []
                             | None => []
                             end
                         | _ => []
                         end
                      ++ string_errors field_path prop_schema value
                      ++ numeric_errors field_path prop_schema value
                  end
              end
              ++ fields rest
          end) d
| _ =>
    [ {| path := path_prefix; message := ExpectedObject (Json.type_name data);
         value := Some data |} ]
end.

End Validation.

(** *** The extraction microloop *)

Record ExtractionResult := {
  success : bool;
  data : option Json.json;
  errors : list ValidationError;
  attempts : Z;
  raw_responses : list string
}.

(** What awaiting [query_fn(prompt)] yields: a response, or an exception
    with its text. *)
Inductive QueryOutcome :=
| Response (text : string)
| QueryException (e : string).

Section Microloop.
Variable json_loads : string -> Loads.
Variable re_match : string -> string -> bool.
Variable str_len : string -> Z.
(** [build_reprompt]: its text reaches the result only through [query_fn]. *)
Variable build_reprompt :
  string -> Schema -> list ValidationError -> string -> string.
(** The model behind [query_fn], with its state. *)
Context {World : Type}.
Variable query_fn : World -> string -> World * QueryOutcome.

Definition text_error (msg : string) : ValidationError :=
{| path := "$"; message := Text msg; value := None |}.

(** The body of [for attempt in range(max_attempts)], for the [remaining]
    iterations from [attempt] on. *)
Fixpoint attempts_from (remaining : nat) (attempt max_attempts : Z)
  (prompt : string) (schema : Schema) (w : World) (current_prompt : string)
  (result : ExtractionResult) : World * ExtractionResult :=
match remaining with
| O => (w, result)
| S remaining' =>
    let next := attempts_from remaining' (attempt + 1) max_attempts prompt schema in
    match query_fn w current_prompt with
    | (w', QueryException e) =>
        next w' current_prompt
          {| success := success result; data := data result;
             errors := [text_error ("Query failed: " +:+ e)];
             attempts := attempt + 1;
             raw_responses :=
               raw_responses result ++ ["[QUERY_ERROR: " +:+ e +:+ "]"] |}
    | (w', Response response) =>
        let raw := raw_responses result ++ [response] in
        match extract_json_from_text json_loads response with
        | (None, parse_error) =>
            let errs := [text_error (default "Invalid JSON" parse_error)] in
            next w'
              (if attempt <? max_attempts - 1
               then build_reprompt prompt schema errs response
               else current_prompt)
              {| success := success result; data := data result;
                 errors := errs; attempts := attempt + 1;
                 raw_responses := raw |}
        | (Some d, _) =>
            match validate_against_schema re_match str_len d schema "$" with
            | [] =>
                (w', {| success := true; data := Some d; errors := [];
                        attempts := attempt + 1; raw_responses := raw |})
            | validation_errors =>
                next w'
                  (if attempt <? max_attempts - 1
                   then build_reprompt prompt schema validation_errors response
                   else current_prompt)
                  {| success := success result; data := data result;
                     errors := validation_errors; attempts := attempt + 1;
                     raw_responses := raw |}
            end
        end
    end
end.

(** [extract_with_microloop] *)
Definition extract_with_microloop (prompt : string) (schema : Schema)
  (max_attempts : Z) (w : World) : World * ExtractionResult :=
attempts_from (Z.to_nat max_attempts) 0 max_attempts prompt schema w prompt
  {| success := false; data := None; errors := []; attempts := 0;
     raw_responses := [] |}.

End Microloop.

(** *** What zero validation errors mean, at every depth *)

Section Conformance.
Variable re_match : string -> string -> bool.
Variable str_len : string -> Z.

(** The value has the type the property declares, as [isinstance] decides
    it, a whole-valued float counting as an integer. *)
Definition has_declared_type (prop_schema : Schema) (v : Json.json) : Prop :=
forall t, expected_type_of prop_schema = Some t ->
  isinstance_of t v = Some false ->
  t = "integer" /\ exists f, v = Json.JFloat f /\ Json.float_is_integer f = true.

Definition in_enum (prop_schema : Schema) (v : Json.json) : Prop :=
forall allowed, s_enum prop_schema = Some allowed -> Json.py_in v allowed = true.

Definition string_constraints_hold (prop_schema : Schema) (v : Json.json) : Prop :=
forall s, v = Json.JStr s -> s_type prop_schema = Some "string" ->
  (forall m, s_min_length prop_schema = Some m ->
     Json.num_ltb (Json.NInt (str_len s)) m = false) /\
  (forall m, s_max_length prop_schema = Some m ->
     Json.num_ltb m (Json.NInt (str_len s)) = false) /\
  (forall p, s_pattern prop_schema = Some p -> re_match p s = true).

Definition numeric_constraints_hold (prop_schema : Schema) (v : Json.json) : Prop :=
forall n, Json.to_num v = Some n ->
  s_type prop_schema = Some "number" \/ s_type prop_schema = Some "integer" ->
  (forall m, s_minimum prop_schema = Some m -> Json.num_ltb n m = false) /\
  (forall m, s_maximum prop_schema = Some m -> Json.num_ltb m n = false) /\
  (forall m, s_exclusive_minimum prop_schema = Some m -> Json.num_leb n m = false) /\
  (forall m, s_exclusive_maximum prop_schema = Some m -> Json.num_leb m n = false).

(** An array item has the type the items schema declares, as [isinstance]
    decides it. *)
Definition item_has_type (items_schema : Schema) (item : Json.json) : Prop :=
forall t, s_type items_schema = Some t -> isinstance_of t item <> Some false.

Definition item_in_enum (items_schema : Schema) (item : Json.json) : Prop :=
forall allowed, s_enum items_schema = Some allowed -> Json.py_in item allowed = true.

(** Conformance of a value to a schema, at every depth.

    - An object conforms when it has every required field and each of its
      fields that the schema describes conforms to the property's schema.
    - A field conforms when it is null where null is allowed, or when it is
      of the declared type, in the enum and within the string and numeric
      constraints; moreover an object under a property of type "object"
      conforms to that property's schema, and each item of an array under a
      property of type "array" conforms to the items schema.
    - An item conforms when it is in the items' enum and, if the items are
      objects and so is the item, conforms as an object; otherwise it has
      the items' type. *)
Inductive conforms : Json.json -> Schema -> Prop :=
| conforms_object (d : list (string * Json.json)) (schema : Schema) :
    (forall field_name, In field_name (default [] (s_required schema)) ->
       Json.mem field_name d = true) ->
    (forall field_name v prop_schema, In (field_name, v) d ->
       find_schema field_name (default [] (s_properties schema)) = Some prop_schema ->
       field_conforms prop_schema v) ->
    conforms (Json.JDict d) schema
with field_conforms : Schema -> Json.json -> Prop :=
| conforms_null (prop_schema : Schema) :
    s_type prop_schema = Some "null" \/ s_nullable prop_schema = true
    \/ s_type prop_schema = None ->
    field_conforms prop_schema Json.JNull
| conforms_value (prop_schema : Schema) (v : Json.json) :
    v <> Json.JNull ->
    has_declared_type prop_schema v ->
    in_enum prop_schema v ->
    string_constraints_hold prop_schema v ->
    numeric_constraints_hold prop_schema v ->
    (s_type prop_schema = Some "object" -> Json.is_dict v = true ->
     conforms v prop_schema) ->
    (forall items items_schema,
       v = Json.JList items -> s_type prop_schema = Some "array" ->
       s_items prop_schema = Some items_schema ->
       forall item, In item items -> item_conforms items_schema item) ->
    field_conforms prop_schema v
with item_conforms : Schema -> Json.json -> Prop :=
| conforms_item (items_schema : Schema) (item : Json.json) :
    (s_type items_schema = Some "object" -> Json.is_dict item = true ->
     conforms item items_schema) ->
    (~ (s_type items_schema = Some "object" /\ Json.is_dict item = true) ->
     item_has_type items_schema item) ->
    item_in_enum items_schema item ->
    item_conforms items_schema item.

End Conformance.

(** Zero validation errors on a value mean that it conforms, whatever the
    schema and the path. *)
Definition nil_conforms (re_match : string -> string -> bool)
  (str_len : string -> Z) (v : Json.json) : Prop :=
  forall schema path,
    validate_against_schema re_match str_len v schema path = [] ->
    conforms re_match str_len v schema.

(** A successful result carries an object with zero validation errors. *)
Definition validated (re_match : string -> string -> bool)
  (str_len : string -> Z) (schema : Schema) (r : ExtractionResult) : Prop :=
  success r = true ->
  exists fields,
    data r = Some (Json.JDict fields) /\
    validate_against_schema re_match str_len (Json.JDict fields) schema "$"
    = [] /\
    errors r = [].

End StructuredOutput.

(** ** A reader for JSON text, to run the examples

    [json.loads] is a parameter of the extraction functions and of the
    theorems about them.  The examples need an instance: this reader covers
    objects, arrays, strings without escapes, integers and the three
    literals. *)

Module JsonText.

(** Text written with apostrophes for the double quotes. *)
Fixpoint dq (s : string) : string :=
match s with
| EmptyString => EmptyString
| String c r =>
    String (if Ascii.eqb c "'" then StructuredOutput.dquote else c) (dq r)
end.

Fixpoint read_string (s : string) : option (string * string) :=
match s with
| EmptyString => None
| String c r =>
    if Ascii.eqb c StructuredOutput.dquote then Some (EmptyString, r)
    else if Ascii.eqb c StructuredOutput.backslash then None
    else match read_string r with
         | Some (a, rest) => Some (String c a, rest)
         | None => None
         end
end.

Fixpoint read_digits (acc : Z) (seen : bool) (s : string) : option (Z * string) :=
match s with
| EmptyString => if seen then Some (acc, s) else None
| String c r =>
    if PyInt.is_digit c then read_digits (10 * acc + PyInt.digit_val c) true r
    else if seen then Some (acc, s) else None
end.

Definition literal (word : string) (v : Json.json) (s : string)
  : option (Json.json * string) :=
if String.prefix word s
then Some (v, String.substring (String.length word) (String.length s) s)
else None.

Fixpoint parse_value (fuel : nat) (s : string) : option (Json.json * string) :=
match fuel with
| O => None
| S f =>
    match Py.lstrip s with
    | EmptyString => None
    | String c r =>
        if Ascii.eqb c "{" then
          match Py.lstrip r with
          | String "}" r' => Some (Json.JDict [], r')
          | _ => parse_members f r []
          end
        else if Ascii.eqb c "[" then
          match Py.lstrip r with
          | String "]" r' => Some (Json.JList [], r')
          | _ => parse_elements f r []
          end
        else if Ascii.eqb c StructuredOutput.dquote then
          match read_string r with
          | Some (a, rest) => Some (Json.JStr a, rest)
          | None => None
          end
        else if Ascii.eqb c "-" then
          match read_digits 0 false r with
          | Some (z, rest) => Some (Json.JInt (- z), rest)
          | None => None
          end
        else if PyInt.is_digit c then
          match read_digits 0 false (String c r) with
          | Some (z, rest) => Some (Json.JInt z, rest)
          | None => None
          end
        else
          match literal "true" (Json.JBool true) (String c r) with
          | Some x => Some x
          | None =>
              match literal "false" (Json.JBool false) (String c r) with
              | Some x => Some x
              | None => literal "null" Json.JNull (String c r)
              end
          end
    end
end
with parse_elements (fuel : nat) (s : string) (acc : list Json.json)
  : option (Json.json * string) :=
match fuel with
| O => None
| S f =>
    match parse_value f s with
    | Some (v, rest) =>
        match Py.lstrip rest with
        | String "," r => parse_elements f r (acc ++ [v])
        | String "]" r => Some (Json.JList (acc ++ [v]), r)
        | _ => None
        end
    | None => None
    end
end
with parse_members (fuel : nat) (s : string) (acc : list (string * Json.json))
  : option (Json.json * string) :=
match fuel with
| O => None
| S f =>
    match Py.lstrip s with
    | String c r =>
        if Ascii.eqb c StructuredOutput.dquote then
          match read_string r with
          | Some (k, rest) =>
              match Py.lstrip rest with
              | String ":" r2 =>
                  match parse_value f r2 with
                  | Some (v, rest2) =>
                      match Py.lstrip rest2 with
                      | String "," r3 => parse_members f r3 (acc ++ [(k, v)])
                      | String "}" r3 => Some (Json.JDict (acc ++ [(k, v)]), r3)
                      | _ => None
                      end
                  | None => None
                  end
              | _ => None
              end
          | None => None
          end
        else None
    | EmptyString => None
    end
end.

Definition loads (s : string) : StructuredOutput.Loads :=
match parse_value (S (String.length s)) s with
| Some (v, rest) =>
    if String.eqb (Py.strip rest) "" then StructuredOutput.Loaded v
    else StructuredOutput.JSONDecodeError "Extra data"
           (Py.len s - Py.len (Py.lstrip rest))
| None => StructuredOutput.JSONDecodeError "Expecting value" 0
end.

End JsonText.

(** ** Values used in the statements and examples below *)

(** A concrete instance for evaluation: envelopes reduced to their summary
    string, as in [test_rebuild_with_envelope]. *)
Definition summary_of_dict (data : Json.json) : option string :=
match data with
| Json.JDict d =>
    match Json.get "summary" d with
    | Some (Json.JStr s) => Some s
    | _ => None
    end
| _ => None
end.

Definition initial_state (run_id : string) : @StateBuilder.RunState string :=
{| StateBuilder.run_id := run_id; StateBuilder.flow_key := "";
   StateBuilder.status := "pending"; StateBuilder.timestamp := None;
   StateBuilder.current_step_id := None; StateBuilder.step_index := 0;
   StateBuilder.current_flow_index := 1;
   StateBuilder.completed_nodes := ∅;
   StateBuilder.handoff_envelopes := ∅ |}.

Definition step_completed_event (sid : string)
  (p : option StateBuilder.Payload) : StateBuilder.RunEvent :=
{| StateBuilder.ev_run_id := "run-1";
   StateBuilder.ts := Some "2026-01-01T00:00:00+00:00";
   StateBuilder.kind := "step_completed";
   StateBuilder.ev_flow_key := Some "build";
   StateBuilder.ev_step_id := Some sid;
   StateBuilder.payload := p |}.

Definition ignore_other (k : string) (s : @StateBuilder.RunState string)
  (e : StateBuilder.RunEvent) (p : StateBuilder.Payload) := s.

Definition envelope_payload : StateBuilder.Payload :=
{| StateBuilder.p_step_id := None;
   StateBuilder.p_envelope :=
     Some (Json.JDict [("step_id", Json.JStr "1");
                       ("status", Json.JStr "succeeded");
                       ("summary", Json.JStr "Step 1 completed successfully")]);
   StateBuilder.p_next_step_index := Some 1 |}.

(** The kinds of violation [scan] can return. *)
Definition scan_kind (v : BoundaryEnforcement.Violation) : Prop :=
  (BoundaryEnforcement.v_type v = BoundaryEnforcement.WRITE_OUTSIDE_WORKSPACE /\
   BoundaryEnforcement.severity v = BoundaryEnforcement.ERROR) \/
  (BoundaryEnforcement.v_type v = BoundaryEnforcement.REAL_REPO_MODIFICATION /\
   BoundaryEnforcement.severity v = BoundaryEnforcement.CRITICAL) \/
  (BoundaryEnforcement.v_type v = BoundaryEnforcement.MAIN_BRANCH_MUTATION /\
   BoundaryEnforcement.severity v = BoundaryEnforcement.WARNING) \/
  (BoundaryEnforcement.v_type v = BoundaryEnforcement.SECRET_EXPOSURE /\
   BoundaryEnforcement.severity v = BoundaryEnforcement.WARNING).

(** A shadow-mode scanner over [/repo] whose step changed one file inside
    the workspace. *)
Definition quiet_state : BoundaryEnforcement.WorkspaceState :=
  {| BoundaryEnforcement.ws_timestamp := "2026-01-01T00:00:00+00:00";
     BoundaryEnforcement.git_status := " M src/app.py";
     BoundaryEnforcement.git_ref := "abc123";
     BoundaryEnforcement.changed_files := ["src/app.py"];
     BoundaryEnforcement.real_repo_ref := "abc123";
     BoundaryEnforcement.real_repo_files := [] |}.

Definition quiet_scanner : BoundaryEnforcement.BoundaryScanner :=
  {| BoundaryEnforcement.workspace_root := ["repo"];
     BoundaryEnforcement.is_shadow := true;
     BoundaryEnforcement._step_id := "build-step-2";
     BoundaryEnforcement._repo_root := "/repo";
     BoundaryEnforcement._baseline := Some quiet_state;
     BoundaryEnforcement.resolve := fun _ f => ["repo"; f];
     BoundaryEnforcement.capture_state := quiet_state;
     BoundaryEnforcement.root_text := "/repo";
     BoundaryEnforcement.now := "2026-01-01T00:00:01+00:00" |}.
(** A previous-step output of 200 one-letter words followed by one unbroken
    run of 3601 characters, counted by the whitespace tokenizer; and an
    enforcer with budget 100 using the same tokenizer. *)
Definition long_tail_item : ContextBudget.ContentItem :=
ContextBudget.create_content_item "previous_output"
  (ContextBudget.str_repeat "a " 200 +:+ ContextBudget.str_repeat "b" 3601)
  ContextBudget.HIGH ContextBudget.count_words.

Definition word_enforcer : ContextBudget.ContextBudgetEnforcer :=
{| ContextBudget.budget := 100;
   ContextBudget._token_counter := ContextBudget.count_words |}.

(** Every truncation the enforcer may perform on [items] fits the room it
    was given. *)
Definition truncation_fits (self : ContextBudget.ContextBudgetEnforcer)
  (items : list ContextBudget.ContentItem) : Prop :=
forall item remaining, In item items -> 100 <= remaining ->
  ContextBudget.tokens (ContextBudget._truncate_item self item remaining)
  <= remaining.

Definition all_critical (items : list ContextBudget.ContentItem) : Prop :=
Forall (fun item => ContextBudget.priority item = ContextBudget.CRITICAL) items.

(** The invariant of the loop of [_load_by_priority]. *)
Definition load_inv (self : ContextBudget.ContextBudgetEnforcer)
  (st : ContextBudget.LoadState) : Prop :=
  ContextBudget.used_tokens st = ContextBudget.sum_tokens (ContextBudget.loaded st) /\
  (all_critical (ContextBudget.loaded st) \/
   ContextBudget.used_tokens st <= ContextBudget.budget self).
(** The two shapes a result of [extract_json_from_text] may have: an object
    and no error, or no data and an error message. *)
Definition object_or_error (r : option Json.json * option string) : Prop :=
match r with
| (Some d, None) => Json.is_dict d = true
| (None, Some _) => True
| _ => False
end.

(** The empty schema [{}], and a schema with its "type" set. *)
Definition plain_schema : StructuredOutput.Schema :=
{| StructuredOutput.s_required := None; StructuredOutput.s_properties := None;
   StructuredOutput.s_type := None; StructuredOutput.s_nullable := false;
   StructuredOutput.s_enum := None; StructuredOutput.s_items := None;
   StructuredOutput.s_min_length := None; StructuredOutput.s_max_length := None;
   StructuredOutput.s_pattern := None; StructuredOutput.s_minimum := None;
   StructuredOutput.s_maximum := None;
   StructuredOutput.s_exclusive_minimum := None;
   StructuredOutput.s_exclusive_maximum := None |}.

Definition typed (t : string) (s : StructuredOutput.Schema) : StructuredOutput.Schema :=
{| StructuredOutput.s_required := StructuredOutput.s_required s;
   StructuredOutput.s_properties := StructuredOutput.s_properties s;
   StructuredOutput.s_type := Some t;
   StructuredOutput.s_nullable := StructuredOutput.s_nullable s;
   StructuredOutput.s_enum := StructuredOutput.s_enum s;
   StructuredOutput.s_items := StructuredOutput.s_items s;
   StructuredOutput.s_min_length := StructuredOutput.s_min_length s;
   StructuredOutput.s_max_length := StructuredOutput.s_max_length s;
   StructuredOutput.s_pattern := StructuredOutput.s_pattern s;
   StructuredOutput.s_minimum := StructuredOutput.s_minimum s;
   StructuredOutput.s_maximum := StructuredOutput.s_maximum s;
   StructuredOutput.s_exclusive_minimum := StructuredOutput.s_exclusive_minimum s;
   StructuredOutput.s_exclusive_maximum := StructuredOutput.s_exclusive_maximum s |}.

Definition status_schema : StructuredOutput.Schema :=
{| StructuredOutput.s_required := None; StructuredOutput.s_properties := None;
   StructuredOutput.s_type := Some "string"; StructuredOutput.s_nullable := false;
   StructuredOutput.s_enum :=
     Some [Json.JStr "VERIFIED"; Json.JStr "UNVERIFIED"; Json.JStr "BLOCKED"];
   StructuredOutput.s_items := None;
   StructuredOutput.s_min_length := None; StructuredOutput.s_max_length := None;
   StructuredOutput.s_pattern := None; StructuredOutput.s_minimum := None;
   StructuredOutput.s_maximum := None;
   StructuredOutput.s_exclusive_minimum := None;
   StructuredOutput.s_exclusive_maximum := None |}.

Definition summary_schema : StructuredOutput.Schema :=
{| StructuredOutput.s_required := None; StructuredOutput.s_properties := None;
   StructuredOutput.s_type := Some "string"; StructuredOutput.s_nullable := false;
   StructuredOutput.s_enum := None; StructuredOutput.s_items := None;
   StructuredOutput.s_min_length := Some (Json.NInt 1);
   StructuredOutput.s_max_length := None;
   StructuredOutput.s_pattern := None; StructuredOutput.s_minimum := None;
   StructuredOutput.s_maximum := None;
   StructuredOutput.s_exclusive_minimum := None;
   StructuredOutput.s_exclusive_maximum := None |}.

(** [{"type": "array", "items": {"type": "string"}}] *)
Definition array_of_strings : StructuredOutput.Schema :=
{| StructuredOutput.s_required := None;
   StructuredOutput.s_properties := None;
   StructuredOutput.s_type := Some "array";
   StructuredOutput.s_nullable := false;
   StructuredOutput.s_enum := None;
   StructuredOutput.s_items := Some (typed "string" plain_schema);
   StructuredOutput.s_min_length := None;
   StructuredOutput.s_max_length := None;
   StructuredOutput.s_pattern := None;
   StructuredOutput.s_minimum := None;
   StructuredOutput.s_maximum := None;
   StructuredOutput.s_exclusive_minimum := None;
   StructuredOutput.s_exclusive_maximum := None |}.

(** [create_step_result_schema()], the base schema: [status] and [summary]
    required, [status] one of three strings, [summary] non-empty,
    [next_action] a string, [artifacts] and [concerns] arrays of strings. *)
Definition step_result_schema : StructuredOutput.Schema :=
{| StructuredOutput.s_required := Some ["status"; "summary"];
   StructuredOutput.s_properties :=
     Some [("status", status_schema); ("summary", summary_schema);
           ("next_action", typed "string" plain_schema);
           ("artifacts", array_of_strings);
           ("concerns", array_of_strings)];
   StructuredOutput.s_type := Some "object"; StructuredOutput.s_nullable := false;
   StructuredOutput.s_enum := None; StructuredOutput.s_items := None;
   StructuredOutput.s_min_length := None; StructuredOutput.s_max_length := None;
   StructuredOutput.s_pattern := None; StructuredOutput.s_minimum := None;
   StructuredOutput.s_maximum := None;
   StructuredOutput.s_exclusive_minimum := None;
   StructuredOutput.s_exclusive_maximum := None |}.

(** A scripted model: its state counts the queries made; it answers the
    first with prose, the second with an object whose status is not allowed,
    and every later one with a valid object. *)
Definition scripted_model (w : nat) (prompt : string)
  : nat * StructuredOutput.QueryOutcome :=
(S w,
 StructuredOutput.Response
   match w with
   | O => "I think the change is fine."
   | S O => JsonText.dq "{'status': 'DONE', 'summary': 'ok'}"
   | _ => JsonText.dq "Here it is: {'status': 'VERIFIED', 'summary': 'ok'}"
   end).

Definition same_prompt (original_prompt : string) (schema : StructuredOutput.Schema)
  (errors : list StructuredOutput.ValidationError) (previous_response : string)
  : string := original_prompt.

Definition any_pattern (pattern value : string) : bool := true.

(** The run directory of scenario 5: the receipt of step "1" was written,
    with status succeeded, before the crash. *)
Definition crash_dir : CheckpointResume.RunDir :=
{| CheckpointResume.receipts := fun _ =>
     [("runs/run-1/build/receipts/1-implementer.json",
       CheckpointResume.Parsed
         (Json.JDict [("step_id", Json.JStr "1"); ("run_id", Json.JStr "run-1");
                      ("status", Json.JStr "succeeded")]))];
   CheckpointResume.envelope := fun _ _ => None |}.

(** The same run directory with a second receipt file that holds the JSON
    array []. *)
Definition array_receipt_dir : CheckpointResume.RunDir :=
{| CheckpointResume.receipts := fun flow_key =>
     CheckpointResume.receipts crash_dir flow_key
     ++ [("runs/run-1/build/receipts/2-critic.json",
          CheckpointResume.Parsed (Json.JList []))];
   CheckpointResume.envelope := fun _ _ => None |}.

(** ** routing_helpers.py: the dictionary wrapper and the exit-reason tables *)

Module MicroloopTermination.

#[local] Set Warnings "-inexact-float".

(** The keys of [routing_config] that [check_microloop_termination] reads;
    [None] is an absent key. *)
Record RoutingConfig := {
  max_iterations : option Z;
  loop_success_values : option (list string);
  loop_condition_field : option string
}.

(** The value under "can_further_iteration_help", by its run-time type. *)
Definition can_help_of (v : Json.json) : RoutingHelpers.CanHelp :=
match v with
| Json.JNull => RoutingHelpers.CHNone
| Json.JBool b => RoutingHelpers.CHBool b
| Json.JStr s => RoutingHelpers.CHStr s
| _ => RoutingHelpers.CHOther
end.

(** What a call produces: the returned [Optional[str]], or the
    [AttributeError] of [self.status.upper()] on a status that is truthy and
    not a string. *)
Inductive Outcome :=
| AttributeError
| Returned (reason : option string).

Section CaseMapping.
(** [str.upper] and [str.lower] *)
Variable upper lower : string -> string.

(** [check_microloop_termination] *)
Definition check_microloop_termination (handoff : list (string * Json.json))
  (routing_config : RoutingConfig) (iteration : Z) : Outcome :=
let max_iterations := default 3 (max_iterations routing_config) in
let success_values := default ["VERIFIED"] (loop_success_values routing_config) in
let status_field := default "status" (loop_condition_field routing_config) in
let status := default (Json.JStr "") (Json.get status_field handoff) in
let can_help :=
  default (Json.JBool true) (Json.get "can_further_iteration_help" handoff) in
let decide (status : string) :=
  let state :=
    {| RoutingHelpers.current_iteration := iteration;
       RoutingHelpers.max_iterations := max_iterations;
       RoutingHelpers.status := status;
       RoutingHelpers.can_further_iteration_help := can_help_of can_help;
       RoutingHelpers.success_values := success_values |} in
  let '(should_exit, reason) :=
    RoutingHelpers.should_exit_microloop upper lower state in
  Returned (if should_exit then Some reason else None) in
match status with
| Json.JStr s => decide (upper s)
| other => if Json.truthy other then AttributeError else decide ""
end.

End CaseMapping.

(** [exit_reason_to_human_readable] *)
Definition exit_reason_to_human_readable (reason : string) : string :=
if String.eqb reason "status_verified" then "Status is VERIFIED"
else if String.eqb reason "max_iterations_reached" then "Maximum iterations reached"
else if String.eqb reason "no_further_help"
     then "Critic indicated no further iteration can help"
else if String.eqb reason "" then ""
else "Unknown exit reason: " +:+ reason.

(** [exit_reason_needs_human_review] *)
Definition exit_reason_needs_human_review (reason : string) : bool :=
Py.str_in reason ["max_iterations_reached"; "no_further_help"].

(** [exit_reason_to_confidence] *)
Definition exit_reason_to_confidence (reason : string) : float :=
if String.eqb reason "status_verified" then 1.0%float
else if String.eqb reason "no_further_help" then 0.8%float
else if String.eqb reason "max_iterations_reached" then 0.7%float
else if String.eqb reason "" then 1.0%float
else 0.5%float.

(** The state of the next iteration, everything else unchanged. *)
Definition at_iteration (i : Z) (st : RoutingHelpers.MicroloopState)
  : RoutingHelpers.MicroloopState :=
{| RoutingHelpers.current_iteration := i;
   RoutingHelpers.max_iterations := RoutingHelpers.max_iterations st;
   RoutingHelpers.status := RoutingHelpers.status st;
   RoutingHelpers.can_further_iteration_help :=
     RoutingHelpers.can_further_iteration_help st;
   RoutingHelpers.success_values := RoutingHelpers.success_values st |}.

End MicroloopTermination.

(** ** progress_tracker.py: error categories, the full tracker and its
    serialized form *)

Module StallTracking.

(** [extract_error_category] *)
Definition extract_error_category (error_output : string) : string :=
let lower := Py.lower error_output in
let has (s : string) := BoundaryEnforcement.contains s lower in
if has "typeerror" then "type_error"
else if (has "importerror" || has "modulenotfounderror")%bool then "import_error"
else if has "attributeerror" then "attribute_error"
else if has "nameerror" then "name_error"
else if has "assertionerror" then "assertion_error"
else if has "valueerror" then "value_error"
else if has "keyerror" then "key_error"
else if has "indexerror" then "index_error"
else if has "syntaxerror" then "syntax_error"
else if has "runtimeerror" then "runtime_error"
else if (has "failed" && has "test")%bool then "test_failure"
else if has "assertion" then "assertion"
else if has "timeout" then "timeout"
else if (has "flaky" || has "intermittent")%bool then "flaky"
else if (has "compile" && has "error")%bool then "compile_error"
else if (has "linker" || has "undefined reference")%bool then "linker_error"
else if (has "missing" && has "dependency")%bool then "dependency"
else if has "error" then "generic_error"
else if has "exception" then "exception"
else if has "failed" then "failure"
else "unknown".

(** [re.sub(r"\s+", " ", text)]: every run of whitespace becomes one
    space. *)
Fixpoint collapse_whitespace (in_run : bool) (text : string) : string :=
match text with
| EmptyString => EmptyString
| String c r =>
    if Py.is_space c
    then (if in_run then collapse_whitespace true r
          else String " " (collapse_whitespace true r))
    else String c (collapse_whitespace false r)
end.

(** The text consists of whitespace only. *)
Fixpoint all_space (s : string) : bool :=
match s with
| EmptyString => true
| String c r => (Py.is_space c && all_space r)%bool
end.

(** [s[:n]] for a non-negative literal [n]. *)
Definition str_prefix (n : nat) (s : string) : string := String.substring 0 n s.

(** [l[i]]: [None] is IndexError. *)
Definition index {A} (i : Z) (l : list A) : option A :=
let n := Z.of_nat (length l) in
if i <? 0 then (if 0 <=? n + i then l !! Z.to_nat (n + i) else None)
else l !! Z.to_nat i.

(** The signature [record_success] appends:
    ["SUCCESS_" + hashlib.sha256(b"success").hexdigest()[:8]]. *)
Definition success_signature (sha256_hex : string -> string) : string :=
"SUCCESS_" +:+ str_prefix 8 (sha256_hex "success").

(** [StallInfo] *)
Record StallInfo {datetime : Type} := {
  si_is_stalled : bool;
  stall_count : Z;
  velocity : float;
  last_signature : string;
  unique_signatures : Z;
  total_iterations : Z;
  stall_started_at : option datetime;
  recommendation : string
}.
Arguments StallInfo datetime : clear implicits.

Section Tracker.
(** [datetime] values, [hashlib.sha256(...).hexdigest()] and the
    substitution [_NOISE_REGEX.sub("", ...)] are taken as given. *)
Context {datetime : Type}.
Variable sha256_hex : string -> string.
Variable noise_sub : string -> string.

(** [normalize_error_output] *)
Definition normalize_error_output (error_output : string) : string :=
let normalized := Py.lower error_output in
let normalized := Py.strip normalized in
let normalized := noise_sub normalized in
let normalized := collapse_whitespace false normalized in
Py.strip normalized.

(** [compute_error_signature] *)
Definition compute_error_signature (error_output : string) : string :=
str_prefix 16 (sha256_hex (normalize_error_output error_output)).

(** The dataclass [ProgressTracker] with its internal fields; [signatures]
    holds [error_signatures] and [stall_threshold]. *)
Record Tracker := {
  signatures : ProgressTracker.ProgressTracker;
  _timestamps : list datetime;
  _categories : list string;
  _stall_started_at : option datetime
}.

Definition with_stall_started_at (v : option datetime) (self : Tracker) : Tracker :=
{| signatures := signatures self; _timestamps := _timestamps self;
   _categories := _categories self; _stall_started_at := v |}.

(** The three appends that [record_iteration] and [record_success] start
    with. *)
Definition appended (sig : string) (now : datetime) (category : string)
  (self : Tracker) : Tracker :=
{| signatures := ProgressTracker.record sig (signatures self);
   _timestamps := _timestamps self ++ [now];
   _categories := _categories self ++ [category];
   _stall_started_at := _stall_started_at self |}.

(** [ProgressTracker.record_iteration], at time [now]; [None] is the
    IndexError of [self._timestamps[-stall_count]]. *)
Definition record_iteration (error_output : string) (now : datetime)
  (self : Tracker) : option Tracker :=
let sig := compute_error_signature error_output in
let self := appended sig now (extract_error_category error_output) self in
if (ProgressTracker.is_stalled (signatures self)
    && match _stall_started_at self with None => true | Some _ => false end)%bool
then
  let stall_count := ProgressTracker.get_stall_count (signatures self) in
  if ((ProgressTracker.stall_threshold (signatures self) <=? stall_count)
      && (stall_count <=? Z.of_nat (length (_timestamps self))))%bool
  then
    match index (- stall_count) (_timestamps self) with
    | Some t => Some (with_stall_started_at (Some t) self)
    | None => None
    end
  else Some self
else if negb (ProgressTracker.is_stalled (signatures self))
then Some (with_stall_started_at None self)
else Some self.

(** [ProgressTracker.record_success] *)
Definition record_success (now : datetime) (self : Tracker) : Tracker :=
with_stall_started_at None
  (appended (success_signature sha256_hex) now "success" self).

(** [ProgressTracker.reset] *)
Definition reset (self : Tracker) : Tracker :=
{| signatures :=
     {| ProgressTracker.error_signatures := [];
        ProgressTracker.stall_threshold :=
          ProgressTracker.stall_threshold (signatures self) |};
   _timestamps := []; _categories := []; _stall_started_at := None |}.

(** [ProgressTracker.__len__] *)
Definition len (self : Tracker) : Z :=
Z.of_nat (length (ProgressTracker.error_signatures (signatures self))).

(** [ProgressTracker.get_error_category] *)
Definition get_error_category (self : Tracker) : option string :=
last (_categories self).

(** [ProgressTracker.get_signature_history], at time [now]. *)
Definition get_signature_history (now : datetime) (self : Tracker)
  : list (string * string * datetime) :=
imap (fun i sig =>
        (sig, default "unknown" (_categories self !! i),
         default now (_timestamps self !! i)))
     (ProgressTracker.error_signatures (signatures self)).

(** [ProgressTracker.get_stall_info]; [None] is the ZeroDivisionError of
    [get_velocity]. *)
Definition get_stall_info (self : Tracker) : option (StallInfo datetime) :=
let is_stalled := ProgressTracker.is_stalled (signatures self) in
let stall_count := ProgressTracker.get_stall_count (signatures self) in
match ProgressTracker.get_velocity (signatures self) with
| None => None
| Some velocity =>
    let recommendation :=
      if negb is_stalled then "continue"
      else if ProgressTracker.stall_threshold (signatures self) * 2 <=? stall_count
           then "escalate"
      else "investigate" in
    Some {| si_is_stalled := is_stalled;
            stall_count := stall_count;
            velocity := velocity;
            last_signature :=
              default "" (last (ProgressTracker.error_signatures (signatures self)));
            unique_signatures :=
              PySeq.len_set (ProgressTracker.error_signatures (signatures self));
            total_iterations :=
              Z.of_nat (length (ProgressTracker.error_signatures (signatures self)));
            stall_started_at := _stall_started_at self;
            recommendation := recommendation |}
end.

(** The dictionary [build_stall_context] returns, by its keys. *)
Record StallContext := {
  sc_is_stalled : bool;
  sc_stall_count : Z;
  sc_velocity : float;
  same_failure_signature : bool;
  error_category : string
}.

(** [build_stall_context] *)
Definition build_stall_context (tracker : Tracker) : option StallContext :=
match get_stall_info tracker with
| None => None
| Some info =>
    Some {| sc_is_stalled := si_is_stalled info;
            sc_stall_count := stall_count info;
            sc_velocity := velocity info;
            same_failure_signature := 2 <=? stall_count info;
            error_category :=
              match get_error_category tracker with
              | Some c => if String.eqb c "" then "unknown" else c
              | None => "unknown"
              end |}
end.

(** [should_suggest_sidequest] *)
Definition should_suggest_sidequest (tracker : Tracker) : option (bool * string) :=
match get_stall_info tracker with
| None => None
| Some info =>
    Some
      (if negb (si_is_stalled info) then (false, "Not stalled")
       else if String.eqb (recommendation info) "escalate" then
         (true, "Stalled for " +:+ PyInt.to_str (stall_count info)
                +:+ " iterations with same error, escalation recommended")
       else if String.eqb (recommendation info) "investigate" then
         (true, "Stalled for " +:+ PyInt.to_str (stall_count info)
                +:+ " iterations, investigation sidequest suggested")
       else (false, "No sidequest needed"))
end.

(** [create_tracker], with the internal fields. *)
Definition create_tracker (stall_threshold : Z) : Tracker :=
{| signatures := ProgressTracker.create_tracker stall_threshold;
   _timestamps := []; _categories := []; _stall_started_at := None |}.

(** *** Serialization *)

(** [datetime.isoformat] and [datetime.fromisoformat]; the latter's [None]
    is ValueError. *)
Variable isoformat : datetime -> string.
Variable fromisoformat : string -> option datetime.

(** The dictionary [tracker_to_dict] builds and [tracker_from_dict] reads,
    one entry per key: [None] is an absent key.  The value under
    "stall_started_at" may itself be [None]. *)
Record TrackerDict := {
  k_error_signatures : option (list string);
  k_stall_threshold : option Z;
  k_timestamps : option (list string);
  k_categories : option (list string);
  k_stall_started_at : option (option string)
}.

(** [tracker_to_dict] *)
Definition tracker_to_dict (tracker : Tracker) : TrackerDict :=
{| k_error_signatures :=
     Some (ProgressTracker.error_signatures (signatures tracker));
   k_stall_threshold := Some (ProgressTracker.stall_threshold (signatures tracker));
   k_timestamps := Some (map isoformat (_timestamps tracker));
   k_categories := Some (_categories tracker);
   k_stall_started_at := Some (isoformat <$> _stall_started_at tracker) |}.

(** [[datetime.fromisoformat(ts) for ts in ...]]: the first ValueError
    aborts the comprehension. *)
Fixpoint parse_all (l : list string) : option (list datetime) :=
match l with
| [] => Some []
| ts :: r =>
    match fromisoformat ts with
    | Some t => cons t <$> parse_all r
    | None => None
    end
end.

(** [tracker_from_dict]; [None] is the ValueError of [fromisoformat]. *)
Definition tracker_from_dict (data : TrackerDict) : option Tracker :=
match parse_all (default [] (k_timestamps data)) with
| None => None
| Some timestamps =>
    let tracker :=
      {| signatures :=
           {| ProgressTracker.error_signatures :=
                default [] (k_error_signatures data);
              ProgressTracker.stall_threshold :=
                default 3 (k_stall_threshold data) |};
         _timestamps := timestamps;
         _categories := default [] (k_categories data);
         _stall_started_at := None |} in
    match k_stall_started_at data with
    | Some (Some s) =>
        if String.eqb s "" then Some tracker
        else match fromisoformat s with
             | Some t => Some (with_stall_started_at (Some t) tracker)
             | None => None
             end
    | _ => Some tracker
    end
end.

(** [record_success] at each of the given times, in order. *)
Definition record_successes (nows : list datetime) (self : Tracker) : Tracker :=
fold_left (fun tracker now => record_success now tracker) nows self.

(** The lists of a tracker that was only ever changed through its methods
    grow together. *)
Definition aligned (self : Tracker) : Prop :=
length (_timestamps self)
= length (ProgressTracker.error_signatures (signatures self)) /\
length (_categories self)
= length (ProgressTracker.error_signatures (signatures self)).

End Tracker.

(** A two-valued clock with its ISO texts, to run the serialization. *)
Inductive Instant := Morning | Evening.

Definition instant_isoformat (t : Instant) : string :=
match t with
| Morning => "2026-01-01T08:00:00+00:00"
| Evening => "2026-01-01T20:00:00+00:00"
end.

Definition instant_fromisoformat (s : string) : option Instant :=
if String.eqb s "2026-01-01T08:00:00+00:00" then Some Morning
else if String.eqb s "2026-01-01T20:00:00+00:00" then Some Evening
else None.

End StallTracking.

(** ** types/tool_call.py: output truncation and the factories *)

Module ToolCallFactories.

(** [truncate_output] *)
Definition truncate_output (output : string) (max_chars : Z) : string :=
if String.eqb output "" then ""
else if Py.len output <=? max_chars then output
else
  let truncation_indicator :=
    "... [truncated, " +:+ PyInt.to_str (Py.len output) +:+ " chars total]" in
  let available_chars := max_chars - Py.len truncation_indicator in
  if available_chars <=? 0 then truncation_indicator
  else ContextBudget.str_slice_to available_chars output +:+ truncation_indicator.

(** The indicator [truncate_output] appends to an output of [n]
    characters. *)
Definition truncation_indicator (n : Z) : string :=
"... [truncated, " +:+ PyInt.to_str n +:+ " chars total]".

Section WithAny.
Context {Any : Type}.

(** [from_stub]; [now] is the clock reading [__post_init__] takes. *)
Definition from_stub (now : string) (tool_name : string)
  (tool_input : list (string * Any)) (tool_output : option string)
  (success : bool) : ToolCall.NormalizedToolCall Any :=
ToolCall.new now tool_name tool_input tool_output success 0 false None "stub" None.

(** [from_kernel_execution] *)
Definition from_kernel_execution (now : string) (tool_name : string)
  (tool_input : list (string * Any)) (tool_output : option string)
  (success : bool) (duration_ms : Z) : ToolCall.NormalizedToolCall Any :=
ToolCall.new now tool_name tool_input tool_output success duration_ms false None
  "kernel-executed" None.

End WithAny.

End ToolCallFactories.

(** ** boundary_enforcement.py: capturing the workspace state *)

Module BoundaryCapture.

(** [text.split("\n")] *)
Fixpoint split_lines_from (current : string) (text : string) : list string :=
match text with
| EmptyString => [current]
| String c r =>
    if Ascii.eqb c (ascii_of_nat 10) then current :: split_lines_from "" r
    else split_lines_from (current +:+ String c "") r
end.

Definition split_lines (text : string) : list string := split_lines_from "" text.

(** [line[3:]] *)
Definition from_column_3 (line : string) : string :=
String.substring 3 (String.length line) line.

(** The paths [capture_state] adds to [changed_files], in line order. *)
Definition changed_paths (git_status : string) : list string :=
omap (fun line =>
        if (negb (String.eqb line "") && (3 <? Py.len line))%bool
        then Some (from_column_3 line) else None)
     (split_lines git_status).

(** What a scanner reads from its surroundings to capture a state:
    [subprocess.run(["git"] + args, cwd=...)] with its standard output
    ([None] when it raises), the workspace root, and the clock. *)
Record Surroundings := {
  run : list string -> string -> option string;
  workspace_root_text : string;
  shadow : bool;
  repo_root : string;
  clock : string
}.

(** [BoundaryScanner._run_git] *)
Definition _run_git (env : Surroundings) (args : list string)
  (cwd : option string) : string :=
match run env ("git" :: args) (default (workspace_root_text env) cwd) with
| Some stdout => Py.strip stdout
| None => ""
end.

(** [BoundaryScanner.capture_state]; the set [changed_files] lists each
    recorded path once. *)
Definition capture_state (env : Surroundings) : BoundaryEnforcement.WorkspaceState :=
let git_status := _run_git env ["status"; "--porcelain"] None in
let git_ref := _run_git env ["rev-parse"; "HEAD"] None in
{| BoundaryEnforcement.ws_timestamp := clock env;
   BoundaryEnforcement.git_status := git_status;
   BoundaryEnforcement.git_ref := git_ref;
   BoundaryEnforcement.changed_files := remove_dups (changed_paths git_status);
   BoundaryEnforcement.real_repo_ref :=
     if shadow env
     then _run_git env ["rev-parse"; "HEAD"] (Some (repo_root env))
     else "";
   BoundaryEnforcement.real_repo_files := [] |}.




Definition is_critical (v : BoundaryEnforcement.Violation) : bool :=
match BoundaryEnforcement.severity v with
| BoundaryEnforcement.CRITICAL => true
| _ => false
end.

(** The real repository's HEAD moved between the baseline and the current
    state, both refs being known. *)
Definition head_moved (self : BoundaryEnforcement.BoundaryScanner)
  (current : BoundaryEnforcement.WorkspaceState) : bool :=
match BoundaryEnforcement._baseline self with
| None => false
| Some baseline =>
    (negb (String.eqb (BoundaryEnforcement.real_repo_ref current) "")
     && negb (String.eqb (BoundaryEnforcement.real_repo_ref baseline) "")
     && negb (String.eqb (BoundaryEnforcement.real_repo_ref current)
                (BoundaryEnforcement.real_repo_ref baseline)))%bool
end.



End BoundaryCapture.

(** ** checkpoint_resume.py: interrupt states on disk *)

Module InterruptStates.

(** [InterruptState] *)
Record InterruptState := {
  interrupted_at : string;
  step_id : string;
  flow_key : string;
  partial_work : option string;
  artifacts_flushed : list string;
  can_resume_cleanly : bool
}.

(** The JSON object of [interrupt_state.json], one entry per key: [None] is
    an absent key.  The value under "partial_work" may itself be null. *)
Record InterruptData := {
  k_interrupted_at : option string;
  k_step_id : option string;
  k_flow_key : option string;
  k_partial_work : option (option string);
  k_artifacts_flushed : option (list string);
  k_can_resume_cleanly : option bool
}.

(** What a file holds, as [open] and [json.load] see it: an object, some
    other JSON value, a file that cannot be read or whose text is not JSON
    (OSError, JSONDecodeError), or bytes that are not text
    (UnicodeDecodeError). *)
Inductive FileContent :=
| JsonObject (data : InterruptData)
| JsonOther
| NotJson
| NotText.

(** How [mkdir], [open] and [json.dump] end on a path: the file is written,
    or an [OSError] leaves it untouched ([None]) or with some other content,
    such as a truncated text. *)
Inductive WriteOutcome :=
| Writes
| Fails (left : option FileContent).

(** What [save_interrupt_state] produces, with the files afterwards: the
    [OSError], or the path returned. *)
Inductive Saved :=
| OSError (files : gmap string FileContent)
| Written (interrupt_path : string) (files : gmap string FileContent).

(** What [load_interrupt_state] produces: the [AttributeError] of
    [data.get] on JSON that is not an object, the [UnicodeDecodeError] that
    its [except] clause does not catch, or the returned value. *)
Inductive Loaded :=
| AttributeError
| UnicodeDecodeError
| Returned (state : option InterruptState).

Section FileSystem.
(** The file that [Path(run_base) / flow_key / "interrupt_state.json"]
    names.  [pathlib] joins and normalises the parts, so different flow keys
    can name one file. *)
Variable interrupt_path : string -> string -> string.
(** How writing the file at a path ends, and whether the file can be
    unlinked. *)
Variable write_outcome : string -> WriteOutcome.
Variable can_unlink : string -> bool.

(** [save_interrupt_state] *)
Definition save_interrupt_state (state : InterruptState) (run_base : string)
  (files : gmap string FileContent) : Saved :=
let interrupt_path := interrupt_path run_base (flow_key state) in
let interrupt_data :=
  {| k_interrupted_at := Some (interrupted_at state);
     k_step_id := Some (step_id state);
     k_flow_key := Some (flow_key state);
     k_partial_work := Some (partial_work state);
     k_artifacts_flushed := Some (artifacts_flushed state);
     k_can_resume_cleanly := Some (can_resume_cleanly state) |} in
match write_outcome interrupt_path with
| Writes =>
    Written interrupt_path (<[ interrupt_path := JsonObject interrupt_data ]> files)
| Fails None => OSError files
| Fails (Some content) => OSError (<[ interrupt_path := content ]> files)
end.

(** [load_interrupt_state] *)
Definition load_interrupt_state (run_base flow_key : string)
  (files : gmap string FileContent) : Loaded :=
match files !! interrupt_path run_base flow_key with
| None => Returned None
| Some NotJson => Returned None
| Some NotText => UnicodeDecodeError
| Some JsonOther => AttributeError
| Some (JsonObject data) =>
    Returned
      (Some {| interrupted_at := default "" (k_interrupted_at data);
               step_id := default "" (k_step_id data);
               flow_key := default "" (k_flow_key data);
               partial_work := default None (k_partial_work data);
               artifacts_flushed := default [] (k_artifacts_flushed data);
               can_resume_cleanly := default false (k_can_resume_cleanly data) |})
end.

(** [clear_interrupt_state]: the files afterwards and the value returned. *)
Definition clear_interrupt_state (run_base flow_key : string)
  (files : gmap string FileContent) : gmap string FileContent * bool :=
let interrupt_path := interrupt_path run_base flow_key in
match files !! interrupt_path with
| None => (files, false)
| Some _ =>
    if can_unlink interrupt_path then (delete interrupt_path files, true)
    else (files, false)
end.

(** What the [on_interrupt] callback does with the files, and how it ends:
    it returns, it raises an [Exception] (caught and logged by
    [_handle_signal]), or it raises something that is not an [Exception],
    such as [SystemExit], which [_handle_signal] lets through. *)
Inductive CallbackOutcome :=
| CallbackReturned (files : gmap string FileContent)
| CallbackFailed (files : gmap string FileContent)
| CallbackEscaped (files : gmap string FileContent).

(** [InterruptHandler], by the fields [_handle_signal] reads. *)
Record InterruptHandler := {
  h_run_base : string;
  h_flow_key : string;
  h_step_id : string;
  on_interrupt :
    option (InterruptState -> gmap string FileContent -> CallbackOutcome);
  _partial_work : option string;
  _artifacts_flushed : list string
}.

(** [InterruptHandler.set_partial_work] and [add_flushed_artifact] *)
Definition set_partial_work (description : string) (self : InterruptHandler)
  : InterruptHandler :=
{| h_run_base := h_run_base self; h_flow_key := h_flow_key self;
   h_step_id := h_step_id self; on_interrupt := on_interrupt self;
   _partial_work := Some description;
   _artifacts_flushed := _artifacts_flushed self |}.

Definition add_flushed_artifact (artifact_path : string) (self : InterruptHandler)
  : InterruptHandler :=
{| h_run_base := h_run_base self; h_flow_key := h_flow_key self;
   h_step_id := h_step_id self; on_interrupt := on_interrupt self;
   _partial_work := _partial_work self;
   _artifacts_flushed := _artifacts_flushed self ++ [artifact_path] |}.

(** How [_handle_signal] ends: [os._exit(exit_code)], or the exception that
    escaped from the callback. *)
Inductive SignalOutcome :=
| Exited (exit_code : Z) (files : gmap string FileContent)
| Escaped (files : gmap string FileContent).

(** The state [_handle_signal] builds; [now] is the formatted time of the
    interruption. *)
Definition interrupt_state_of (self : InterruptHandler) (now : string)
  : InterruptState :=
let can_resume :=
  ((0 <? Z.of_nat (length (_artifacts_flushed self)))
   || match _partial_work self with None => true | Some _ => false end)%bool in
{| interrupted_at := now;
   step_id := h_step_id self;
   flow_key := h_flow_key self;
   partial_work := _partial_work self;
   artifacts_flushed := _artifacts_flushed self;
   can_resume_cleanly := can_resume |}.

(** [InterruptHandler._handle_signal] *)
Definition _handle_signal (self : InterruptHandler) (signum : Z) (now : string)
  (files : gmap string FileContent) : SignalOutcome :=
let state := interrupt_state_of self now in
let files :=
  match save_interrupt_state state (h_run_base self) files with
  | Written _ files => files
  | OSError files => files
  end in
let exit_code := 128 + signum in
match on_interrupt self with
| Some callback =>
    match callback state files with
    | CallbackReturned files => Exited exit_code files
    | CallbackFailed files => Exited exit_code files
    | CallbackEscaped files => Escaped files
    end
| None => Exited exit_code files
end.

End FileSystem.

(** The file named when the run base and the flow key are plain relative
    names, which [pathlib] joins with a slash. *)
Definition plain_interrupt_path (run_base flow_key : string) : string :=
run_base +:+ "/" +:+ flow_key +:+ "/interrupt_state.json".

End InterruptStates.

(** ** Context budget: the overflow report and the entry points
    (swarm/runtime/context_budget.py) *)

Module BudgetReports.

(** [Priority.name] *)
Definition name (p : ContextBudget.Priority) : string :=
match p with
| ContextBudget.LOW => "LOW"
| ContextBudget.MEDIUM => "MEDIUM"
| ContextBudget.HIGH => "HIGH"
| ContextBudget.CRITICAL => "CRITICAL"
end.

(** The entries of the "loaded" and "dropped" lists of the report. *)
Record LoadedEntry := {
  l_item : string;
  l_tokens : Z;
  l_original_tokens : Z;
  l_priority : string;
  l_truncated : bool
}.

Record DroppedEntry := {
  d_item : string;
  d_tokens : Z;
  d_priority : string
}.

Record OverflowReport := {
  requested : Z;
  allowed : Z;
  report_loaded : list LoadedEntry;
  report_dropped : list DroppedEntry
}.

(** [sum(item.original_tokens for item in items)] *)
Definition sum_original_tokens (items : list ContextBudget.ContentItem) : Z :=
fold_right (fun item acc => ContextBudget.original_tokens item + acc) 0 items.

(** [ContextBudgetEnforcer._build_overflow_report] *)
Definition _build_overflow_report (self : ContextBudget.ContextBudgetEnforcer)
  (loaded dropped : list ContextBudget.ContentItem) : OverflowReport :=
let total_requested := sum_original_tokens (loaded ++ dropped) in
{| requested := total_requested;
   allowed := ContextBudget.budget self;
   report_loaded :=
     map (fun item =>
            {| l_item := ContextBudget.key item;
               l_tokens := ContextBudget.tokens item;
               l_original_tokens := ContextBudget.original_tokens item;
               l_priority := name (ContextBudget.priority item);
               l_truncated := ContextBudget.truncated item |}) loaded;
   report_dropped :=
     map (fun item =>
            {| d_item := ContextBudget.key item;
               d_tokens := ContextBudget.original_tokens item;
               d_priority := name (ContextBudget.priority item) |}) dropped |}.

(** The first loop of [enforce]: an item without a token count gets one. *)
Definition counted (self : ContextBudget.ContextBudgetEnforcer)
  (item : ContextBudget.ContentItem) : ContextBudget.ContentItem :=
if ContextBudget.tokens item =? 0
then ContextBudget.set_tokens
       (ContextBudget.count_tokens self (ContextBudget.content item)) item
else item.

(** The [overflow_report] field of the result of [enforce]. *)
Definition overflow_report (self : ContextBudget.ContextBudgetEnforcer)
  (items : list ContextBudget.ContentItem) : option OverflowReport :=
let r := ContextBudget.enforce self items in
if ContextBudget.overflow r
then Some (_build_overflow_report self (ContextBudget.loaded_items r)
             (ContextBudget.dropped_items r))
else None.

(** [BudgetResult.get_loaded_content]: a dict comprehension, so a later
    item replaces an earlier one with the same key. *)
Definition get_loaded_content (r : ContextBudget.BudgetResult)
  : gmap string string :=
fold_left (fun d item =>
             <[ ContextBudget.key item := ContextBudget.content item ]> d)
  (ContextBudget.loaded_items r) ∅.

(** [any(term in key_lower for term in terms)] *)
Definition any_term_in (terms : list string) (key_lower : string) : bool :=
existsb (fun term => BoundaryEnforcement.contains term key_lower) terms.

(** [classify_content_priority] *)
Definition classify_content_priority (key : string) : ContextBudget.Priority :=
let key_lower := Py.lower key in
if any_term_in ["teaching_notes"; "step_spec"; "objective"] key_lower
then ContextBudget.CRITICAL
else if any_term_in ["previous"; "recent"; "envelope"; "adr"; "requirements";
                     "decision"; "critique"] key_lower
then ContextBudget.HIGH
else if any_term_in ["history"; "summary"; "older"; "archive"; "learnings"]
          key_lower
then ContextBudget.LOW
else ContextBudget.MEDIUM.

Section EntryPoints.

(** [count_tokens_tiktoken(text, model)]: the tokenizer library, or the
    character estimate when it is not installed. *)
Variable count_tokens_tiktoken : string -> string -> Z.

(** [if text: items.append(create_content_item(key, text, priority))], with
    the default token counter of [create_content_item]. *)
Definition item_if (key text : string) (priority : ContextBudget.Priority)
  : list ContextBudget.ContentItem :=
if String.eqb text "" then []
else [ContextBudget.create_content_item key text priority
        (fun text => count_tokens_tiktoken text "gpt-4")].

(** The list [items] that [enforce_context_budget] builds; [artifacts] in
    the order of the dict. *)
Definition context_items (teaching_notes : string)
  (previous_output : option string) (artifacts : list (string * string))
  (history : option string) : list ContextBudget.ContentItem :=
item_if "teaching_notes" teaching_notes ContextBudget.CRITICAL
++ match previous_output with
   | Some previous_output =>
       item_if "previous_output" previous_output ContextBudget.HIGH
   | None => []
   end
++ flat_map (fun '(name, content) =>
               item_if ("artifact:" +:+ name) content ContextBudget.MEDIUM)
     artifacts
++ match history with
   | Some history => item_if "history" history ContextBudget.LOW
   | None => []
   end.

(** [enforce_context_budget] *)
Definition enforce_context_budget (teaching_notes : string)
  (previous_output : option string) (artifacts : list (string * string))
  (history : option string) (budget : Z) (model : string)
  : ContextBudget.BudgetResult :=
let items := context_items teaching_notes previous_output artifacts history in
let enforcer :=
  {| ContextBudget.budget := budget;
     ContextBudget._token_counter := fun t => count_tokens_tiktoken t model |} in
ContextBudget.enforce enforcer items.

(** [apply_budget_to_context_pack] without a [run_base], so that nothing is
    logged. *)
Definition apply_budget_to_context_pack (teaching_notes_content : string)
  (previous_envelope_content : option string)
  (artifact_contents : list (string * string))
  (history_summary : option string) (budget : Z)
  : gmap string string * ContextBudget.BudgetResult :=
let result :=
  enforce_context_budget teaching_notes_content previous_envelope_content
    artifact_contents history_summary budget "gpt-4" in
(get_loaded_content result, result).

End EntryPoints.

(** An item as the dataclass constructor leaves it: [original_tokens] is 0
    only when [tokens] is. *)
Definition constructed (item : ContextBudget.ContentItem) : Prop :=
ContextBudget.tokens item <> 0 -> ContextBudget.original_tokens item <> 0.

End BudgetReports.

(** ** The registry and detector caches
    (swarm/runtime/stepwise/routing/utility_candidates.py) *)

Module UtilityCaches.

(** [_is_strict_mode], from the value of SWARM_STRICT_REPO_ROOT in
    [os.environ] ([None] when it is not set). *)
Definition _is_strict_mode (strict_repo_root : option string) : bool :=
let strict_env := Py.lower (default "" strict_repo_root) in
Py.str_in strict_env ["1"; "true"; "yes"; "on"].

Section Caches.
(** [UtilityFlowRegistry] is defined outside this module; [new_registry] is
    its constructor call [UtilityFlowRegistry(actual_root)]. *)
Context {UtilityFlowRegistry : Type}.
Variable new_registry : string -> UtilityFlowRegistry.
(** [str(repo_root.resolve())] *)
Variable resolve : string -> string.

(** [InjectionTriggerDetector(registry)] *)
Inductive InjectionTriggerDetector :=
| Detector (registry : UtilityFlowRegistry).

(** The process state the module reads and writes: the environment
    variable, the working directory and the three module-level globals. *)
Record Process := {
  strict_repo_root : option string;
  cwd : string;
  _utility_flow_registries : gmap string UtilityFlowRegistry;
  _utility_flow_detectors : gmap string InjectionTriggerDetector;
  _warned_missing_repo_root : bool
}.

Definition with_registries (registries : gmap string UtilityFlowRegistry)
  (p : Process) : Process :=
{| strict_repo_root := strict_repo_root p; cwd := cwd p;
   _utility_flow_registries := registries;
   _utility_flow_detectors := _utility_flow_detectors p;
   _warned_missing_repo_root := _warned_missing_repo_root p |}.

Definition with_detectors (detectors : gmap string InjectionTriggerDetector)
  (p : Process) : Process :=
{| strict_repo_root := strict_repo_root p; cwd := cwd p;
   _utility_flow_registries := _utility_flow_registries p;
   _utility_flow_detectors := detectors;
   _warned_missing_repo_root := _warned_missing_repo_root p |}.

Definition with_warned (p : Process) : Process :=
{| strict_repo_root := strict_repo_root p; cwd := cwd p;
   _utility_flow_registries := _utility_flow_registries p;
   _utility_flow_detectors := _utility_flow_detectors p;
   _warned_missing_repo_root := true |}.

(** A call either raises [ValueError], leaving the globals as they were, or
    returns a value and the process state after it. *)
Inductive Outcome (A : Type) :=
| ValueError (msg : string)
| Returned (value : A) (after : Process).

Arguments ValueError {A} msg.
Arguments Returned {A} value after.

(** [_get_cache_key] *)
Definition _get_cache_key (repo_root : string) : string := resolve repo_root.

(** [_validate_repo_root] *)
Definition _validate_repo_root (repo_root : option string) (context : string)
  (p : Process) : Outcome (option string) :=
match repo_root with
| Some repo_root => Returned (Some repo_root) p
| None =>
    if _is_strict_mode (strict_repo_root p) then
      ValueError ("repo_root is required in strict mode (" +:+ context +:+ "). "
                  +:+ "Either pass repo_root explicitly or unset SWARM_STRICT_REPO_ROOT.")
    else Returned None (with_warned p)
end.

(** [get_utility_flow_registry] *)
Definition get_utility_flow_registry (repo_root : option string) (p : Process)
  : Outcome UtilityFlowRegistry :=
match _validate_repo_root repo_root "get_utility_flow_registry" p with
| ValueError msg => ValueError msg
| Returned validated_root p =>
    let actual_root := default (cwd p) validated_root in
    let cache_key := _get_cache_key actual_root in
    match _utility_flow_registries p !! cache_key with
    | Some registry => Returned registry p
    | None =>
        let registry := new_registry actual_root in
        Returned registry
          (with_registries (<[ cache_key := registry ]> (_utility_flow_registries p)) p)
    end
end.

(** [get_utility_flow_detector] *)
Definition get_utility_flow_detector (repo_root : option string) (p : Process)
  : Outcome InjectionTriggerDetector :=
match _validate_repo_root repo_root "get_utility_flow_detector" p with
| ValueError msg => ValueError msg
| Returned validated_root p =>
    let actual_root := default (cwd p) validated_root in
    let cache_key := _get_cache_key actual_root in
    match _utility_flow_detectors p !! cache_key with
    | Some detector => Returned detector p
    | None =>
        match get_utility_flow_registry (Some actual_root) p with
        | ValueError msg => ValueError msg
        | Returned registry p =>
            let detector := Detector registry in
            Returned detector
              (with_detectors (<[ cache_key := detector ]> (_utility_flow_detectors p)) p)
        end
    end
end.

(** [set_utility_flow_registry] *)
Definition set_utility_flow_registry (registry : UtilityFlowRegistry)
  (repo_root : option string) (p : Process) : Outcome unit :=
match _validate_repo_root repo_root "set_utility_flow_registry" p with
| ValueError msg => ValueError msg
| Returned validated_root p =>
    let actual_root := default (cwd p) validated_root in
    let cache_key := _get_cache_key actual_root in
    let p := with_registries (<[ cache_key := registry ]> (_utility_flow_registries p)) p in
    let p := with_detectors
               (<[ cache_key := Detector registry ]> (_utility_flow_detectors p)) p in
    Returned tt p
end.

(** [clear_utility_flow_caches] *)
Definition clear_utility_flow_caches (p : Process) : Process :=
{| strict_repo_root := strict_repo_root p; cwd := cwd p;
   _utility_flow_registries := ∅;
   _utility_flow_detectors := ∅;
   _warned_missing_repo_root := false |}.

(** The process state after a call. *)
Definition state_after {A} (o : Outcome A) (before : Process) : Process :=
match o with
| ValueError _ => before
| Returned _ after => after
end.

(** Every cached detector was built from the registry cached under the same
    key. *)
Definition coherent (p : Process) : Prop :=
forall cache_key detector,
  _utility_flow_detectors p !! cache_key = Some detector ->
  exists registry,
    _utility_flow_registries p !! cache_key = Some registry /\
    detector = Detector registry.

End Caches.

Arguments ValueError {UtilityFlowRegistry A} msg.
Arguments Returned {UtilityFlowRegistry A} value after.

End UtilityCaches.


(** * Theorems *)

(** ** Microloop exit predicate *)

Lemma str_in_spec x xs : Py.str_in x xs = true <-> In x xs.
Proof.
  unfold Py.str_in. rewrite existsb_exists. split.
  - intros [y [Hy E]]. apply String.eqb_eq in E. now subst.
  - intros H. exists x. split; [assumption | apply String.eqb_refl].
Qed.

Section ExitPredicate.
Variable upper lower : string -> string.

Lemma is_status_success_spec st :
  RoutingHelpers.is_status_success upper st = true <->
  RoutingHelpers.status_in_success_values upper st.
Proof.
  unfold RoutingHelpers.is_status_success, RoutingHelpers.status_in_success_values.
  rewrite str_in_spec, in_map_iff.
  split; intros [v [A B]]; exists v; tauto.
Qed.

Lemma normalize_str_true s :
  In (lower s) ["yes"; "true"; "1"] ->
  RoutingHelpers._normalize_can_help lower (RoutingHelpers.CHStr s) = true.
Proof. intros H. exact (proj2 (str_in_spec _ _) H). Qed.

Lemma normalize_str_false s :
  ~ In (lower s) ["yes"; "true"; "1"] ->
  RoutingHelpers._normalize_can_help lower (RoutingHelpers.CHStr s) = false.
Proof.
  intros H. change (Py.str_in (lower s) ["yes"; "true"; "1"] = false).
  destruct (Py.str_in _ _) eqn:E; [|reflexivity].
  apply str_in_spec in E. contradiction.
Qed.

(** C5: [should_exit_microloop] decides in priority order, whatever
    [str.upper] and [str.lower] do to the letters of the text.  A status in
    [success_values] (compared case-insensitively: both sides in upper
    case) exits with [status_verified]; otherwise an iteration count at or
    above the maximum exits with [max_iterations_reached]; otherwise a
    [can_further_iteration_help] that normalizes to "no" exits with
    [no_further_help]; otherwise the loop continues.  The strings
    yes/no/true/false are normalized whatever their case, booleans stand for
    themselves, and [None] means that help is assumed possible. *)
Theorem should_exit_microloop_priority (st : RoutingHelpers.MicroloopState) :
  let succ := RoutingHelpers.status_in_success_values upper st in
  let cur := RoutingHelpers.current_iteration st in
  let mx := RoutingHelpers.max_iterations st in
  let help :=
    RoutingHelpers._normalize_can_help lower
      (RoutingHelpers.can_further_iteration_help st) in
  (succ ->
     RoutingHelpers.should_exit_microloop upper lower st
     = (true, "status_verified")) /\
  (~ succ -> cur >= mx ->
     RoutingHelpers.should_exit_microloop upper lower st
     = (true, "max_iterations_reached")) /\
  (~ succ -> cur < mx -> help = false ->
     RoutingHelpers.should_exit_microloop upper lower st
     = (true, "no_further_help")) /\
  (~ succ -> cur < mx -> help = true ->
     RoutingHelpers.should_exit_microloop upper lower st = (false, "")) /\
  RoutingHelpers._normalize_can_help lower RoutingHelpers.CHNone = true /\
  (forall b, RoutingHelpers._normalize_can_help lower (RoutingHelpers.CHBool b) = b) /\
  (forall s, lower s = "yes" \/ lower s = "true" ->
     RoutingHelpers._normalize_can_help lower (RoutingHelpers.CHStr s) = true) /\
  (forall s, lower s = "no" \/ lower s = "false" ->
     RoutingHelpers._normalize_can_help lower (RoutingHelpers.CHStr s) = false).
Proof.
  intros succ cur mx help.
  assert (Hs : RoutingHelpers.is_status_success upper st = true <-> succ)
    by apply is_status_success_spec.
  assert (Hm : RoutingHelpers.is_at_max_iterations st = true <-> cur >= mx).
  { unfold RoutingHelpers.is_at_max_iterations. rewrite Z.leb_le. subst cur mx. lia. }
  unfold RoutingHelpers.should_exit_microloop, RoutingHelpers.can_help.
  fold help.
  assert (Hn : ~ succ -> RoutingHelpers.is_status_success upper st = false).
  { intros N. destruct (RoutingHelpers.is_status_success upper st); [|reflexivity].
    exfalso. apply N, Hs. reflexivity. }
  assert (Hlt : cur < mx -> RoutingHelpers.is_at_max_iterations st = false).
  { intros L. destruct (RoutingHelpers.is_at_max_iterations st); [|reflexivity].
    assert (cur >= mx) by (apply Hm; reflexivity). lia. }
  repeat split.
  - intros H. apply Hs in H. now rewrite H.
  - intros N G. rewrite (Hn N). apply Hm in G. now rewrite G.
  - intros N L F. now rewrite (Hn N), (Hlt L), F.
  - intros N L T. now rewrite (Hn N), (Hlt L), T.
  - intros s [E | E]; apply normalize_str_true; rewrite E; simpl; tauto.
  - intros s [E | E]; apply normalize_str_false; rewrite E; simpl;
      intuition discriminate.
Qed.

End ExitPredicate.

(** Doctest values of [should_exit_microloop] and [_normalize_can_help];
    the text is ASCII, where [Py.upper] and [Py.lower] are [str.upper] and
    [str.lower]. *)
Example should_exit_doctests :
  let d := RoutingHelpers.default_state in
  let should_exit := RoutingHelpers.should_exit_microloop Py.upper Py.lower in
  let normalize := RoutingHelpers._normalize_can_help Py.lower in
  should_exit (d 1 5 "VERIFIED" (RoutingHelpers.CHStr "yes"))
    = (true, "status_verified") /\
  should_exit (d 5 5 "UNVERIFIED" (RoutingHelpers.CHStr "yes"))
    = (true, "max_iterations_reached") /\
  should_exit (d 2 5 "UNVERIFIED" (RoutingHelpers.CHStr "no"))
    = (true, "no_further_help") /\
  should_exit (d 2 5 "UNVERIFIED" (RoutingHelpers.CHStr "yes")) = (false, "") /\
  should_exit (d 1 5 "PARTIAL" (RoutingHelpers.CHBool true)) = (false, "") /\
  should_exit (d 0 5 "verified" RoutingHelpers.CHNone)
    = (true, "status_verified") /\
  normalize (RoutingHelpers.CHStr "YES") = true /\
  normalize (RoutingHelpers.CHStr "0") = false.
Proof. repeat split; reflexivity. Qed.

Lemma should_exit_microloop_priority_witness :
  RoutingHelpers.should_exit_microloop Py.upper Py.lower
    (RoutingHelpers.default_state 2 5 "UNVERIFIED" (RoutingHelpers.CHStr "no"))
  = (true, "no_further_help").
Proof.
  destruct (should_exit_microloop_priority Py.upper Py.lower
              (RoutingHelpers.default_state 2 5 "UNVERIFIED"
                 (RoutingHelpers.CHStr "no"))) as (_ & _ & H & _).
  apply H.
  - intros [v [[<- | []] E]]. vm_compute in E. discriminate E.
  - simpl. lia.
  - reflexivity.
Defined.

(** ** Progress tracker *)

Lemma remove_dups_all_equal (l : list string) :
  length (remove_dups l) = 1%nat <-> l <> [] /\ ProgressTracker.all_equal l.
Proof.
  unfold ProgressTracker.all_equal. split.
  - intros H. destruct (remove_dups l) as [|x [|? ?]] eqn:E; try discriminate.
    split.
    + intros ->. simpl in E. discriminate E.
    + intros a b Ha Hb.
      apply (proj2 (list_elem_of_In _ _)) in Ha, Hb.
      apply (proj2 (elem_of_remove_dups _ _)) in Ha, Hb.
      rewrite E in Ha, Hb.
      apply list_elem_of_singleton in Ha, Hb. congruence.
  - intros [Hne Heq]. destruct l as [|a l]; [congruence|].
    assert (Hin : a ∈ remove_dups (a :: l))
      by (apply elem_of_remove_dups; left).
    assert (Hnd : NoDup (remove_dups (a :: l))) by apply NoDup_remove_dups.
    assert (Hall : forall y, y ∈ remove_dups (a :: l) -> y = a).
    { intros y Hy. apply (proj1 (elem_of_remove_dups _ _)) in Hy.
      apply (proj1 (list_elem_of_In _ _)) in Hy.
      apply Heq; [assumption | left; reflexivity]. }
    destruct (remove_dups (a :: l)) as [|x [|y r]].
    + inversion Hin.
    + reflexivity.
    + exfalso. inversion Hnd as [|? ? Hx _]; subst. apply Hx.
      rewrite (Hall x) by left. rewrite (Hall y) by (right; left). left.
Qed.

Lemma slice_from_lastn {A} (t : Z) (l : list A) :
  1 <= t <= Z.of_nat (length l) ->
  PySeq.slice_from (- t) l = PySeq.lastn (Z.to_nat t) l.
Proof.
  intros H. unfold PySeq.slice_from, PySeq.lastn, PySeq.clamp_start.
  f_equal. destruct (Z.ltb_spec (- t) 0); lia.
Qed.

Lemma lastn_length {A} (k : nat) (l : list A) :
  (k <= length l)%nat -> length (PySeq.lastn k l) = k.
Proof. intros H. unfold PySeq.lastn. rewrite length_drop. lia. Qed.

Lemma lastn_nonempty {A} (k : nat) (l : list A) :
  (1 <= k <= length l)%nat -> PySeq.lastn k l <> [].
Proof.
  intros H E. apply (f_equal length) in E.
  rewrite lastn_length in E by lia. simpl in E. lia.
Qed.

(** Doctest-style values: three equal signatures stall a threshold-3
    tracker, a differing one does not, and the velocity of [a; b; b; b] over
    the window of three is 1/3. *)
Example progress_tracker_values :
  let mk h := {| ProgressTracker.error_signatures := h;
                 ProgressTracker.stall_threshold := 3 |} in
  ProgressTracker.is_stalled (mk ["a"; "a"; "a"]) = true /\
  ProgressTracker.is_stalled (mk ["a"; "a"]) = false /\
  ProgressTracker.is_stalled (mk ["a"; "b"; "a"; "a"]) = false /\
  ProgressTracker.get_stall_count (mk ["a"; "b"; "b"]) = 2 /\
  ProgressTracker.get_velocity (mk ["a"; "b"; "b"; "b"])
    = Some (PrimFloat.div 1 3) /\
  ProgressTracker.get_velocity (mk ["a"; "b"; "c"]) = Some 1%float /\
  ProgressTracker.get_velocity (mk ["a"]) = Some 1%float.
Proof. repeat split; vm_compute; reflexivity. Qed.

(** C7 as stated fails at threshold 0: a fresh tracker has recorded at least
    zero signatures and its last zero signatures are (vacuously) all equal,
    yet [is_stalled] answers false. *)
Lemma is_stalled_threshold_zero :
  let tr := ProgressTracker.create_tracker 0 in
  let h := ProgressTracker.error_signatures tr in
  let t := ProgressTracker.stall_threshold tr in
  ProgressTracker.is_stalled tr = false /\
  (t <= Z.of_nat (length h) /\
   ProgressTracker.all_equal (PySeq.lastn (Z.to_nat t) h)).
Proof.
  repeat split; [vm_compute; discriminate|].
  intros x y Hx. inversion Hx.
Qed.

(** C7 (amended): for a tracker whose threshold [t] is at least 1,
    [is_stalled] is true exactly when at least [t] signatures were recorded
    and the last [t] of them are all equal; [get_velocity] is 1.0 for a
    history shorter than two, and otherwise the number of distinct
    signatures among the last [min(length, t)] divided by that window
    length. *)
Theorem progress_tracker_stall_velocity (tr : ProgressTracker.ProgressTracker) :
  1 <= ProgressTracker.stall_threshold tr ->
  let h := ProgressTracker.error_signatures tr in
  let t := Z.to_nat (ProgressTracker.stall_threshold tr) in
  let w := Nat.min (length h) t in
  (ProgressTracker.is_stalled tr = true <->
     (t <= length h)%nat /\ ProgressTracker.all_equal (PySeq.lastn t h)) /\
  length (PySeq.lastn w h) = w /\
  ProgressTracker.get_velocity tr =
    (if (length h <? 2)%nat then Some 1%float
     else Some (PrimFloat.div
                  (PyNum.float_of_Z (PySeq.len_set (PySeq.lastn w h)))
                  (PyNum.float_of_Z (Z.of_nat w)))).
Proof.
  intros Ht h t w. split; [|split].
  - unfold ProgressTracker.is_stalled. fold h.
    destruct (Z.ltb_spec (Z.of_nat (length h)) (ProgressTracker.stall_threshold tr))
      as [Hlt | Hge].
    + split; [discriminate | intros [Hle _]; subst t; lia].
    + rewrite slice_from_lastn by lia. fold t.
      unfold PySeq.len_set. rewrite Z.eqb_eq.
      change 1 with (Z.of_nat 1). rewrite Nat2Z.inj_iff.
      rewrite remove_dups_all_equal. split.
      * intros [_ Ha]. split; [subst t; lia | exact Ha].
      * intros [Hle Ha]. split; [apply lastn_nonempty; subst t; lia | exact Ha].
  - apply lastn_length. subst w. lia.
  - unfold ProgressTracker.get_velocity. fold h.
    destruct (Nat.ltb_spec (length h) 2) as [Hs | Hl].
    + destruct (Z.ltb_spec (Z.of_nat (length h)) 2); [reflexivity | lia].
    + destruct (Z.ltb_spec (Z.of_nat (length h)) 2); [lia|].
      assert (Ew : Z.min (Z.of_nat (length h)) (ProgressTracker.stall_threshold tr)
                   = Z.of_nat w) by (subst w t; lia).
      rewrite Ew, slice_from_lastn by (subst w; lia).
      rewrite Nat2Z.id, lastn_length by (subst w; lia).
      unfold PyNum.truediv.
      destruct (Z.eqb_spec (Z.of_nat w) 0); [subst w t; lia | reflexivity].
Qed.

Lemma progress_tracker_stall_velocity_witness :
  let tr := {| ProgressTracker.error_signatures := ["a"; "b"; "b"; "b"];
               ProgressTracker.stall_threshold := 3 |} in
  1 <= ProgressTracker.stall_threshold tr /\
  (ProgressTracker.is_stalled tr = true <->
     (3 <= 4)%nat /\ ProgressTracker.all_equal ["b"; "b"; "b"]) /\
  ProgressTracker.get_velocity tr = Some (PrimFloat.div 1 3).
Proof.
  intros tr. split; [simpl; lia|].
  pose proof (progress_tracker_stall_velocity tr ltac:(simpl; lia)) as [H1 [_ H3]].
  split; [exact H1 | exact H3].
Defined.

(** ** Checkpoints and the resume point *)

Section SortByKey.
Context {A : Type} (key : A -> Z).

Lemma insert_by_key_Permutation x l :
  Permutation (PySeq.insert_by_key key x l) (x :: l).
Proof.
  induction l as [|y r IH]; simpl; [reflexivity|].
  destruct (key x <=? key y); [reflexivity|].
  rewrite IH. apply perm_swap.
Qed.

Lemma sort_by_key_Permutation l :
  Permutation (PySeq.sort_by_key key l) l.
Proof.
  induction l as [|x r IH]; simpl; [reflexivity|].
  rewrite insert_by_key_Permutation. now rewrite IH.
Qed.

Lemma insert_by_key_sorted x l :
  StronglySorted (PySeq.key_le key) l ->
  StronglySorted (PySeq.key_le key) (PySeq.insert_by_key key x l).
Proof.
  induction 1 as [|y r Hs IH Hy]; simpl.
  - repeat constructor.
  - destruct (Z.leb_spec (key x) (key y)) as [Hle | Hgt].
    + constructor; [constructor; assumption|].
      constructor; [exact Hle|].
      eapply Forall_impl; [exact Hy|]. unfold PySeq.key_le. intros; lia.
    + constructor; [exact IH|].
      rewrite insert_by_key_Permutation.
      constructor; [unfold PySeq.key_le; lia | exact Hy].
Qed.

Lemma sort_by_key_sorted l :
  StronglySorted (PySeq.key_le key) (PySeq.sort_by_key key l).
Proof.
  induction l; simpl; [constructor | now apply insert_by_key_sorted].
Qed.

(** The sort is stable: elements of equal key keep their order. *)
Lemma insert_by_key_filter k x l :
  filter (fun a => key a = k) (PySeq.insert_by_key key x l)
  = filter (fun a => key a = k) (x :: l).
Proof.
  induction l as [|y r IH]; simpl; [reflexivity|].
  destruct (Z.leb_spec (key x) (key y)) as [Hle | Hgt]; [reflexivity|].
  rewrite !filter_cons in *. rewrite IH.
  destruct (decide (key x = k)), (decide (key y = k)); try reflexivity; lia.
Qed.

Lemma sort_by_key_stable k l :
  filter (fun a => key a = k) (PySeq.sort_by_key key l)
  = filter (fun a => key a = k) l.
Proof.
  induction l as [|x r IH]; simpl; [reflexivity|].
  rewrite insert_by_key_filter, !filter_cons, IH. reflexivity.
Qed.




End SortByKey.



Lemma load_checkpoint_well_formed d p content fk :
  CheckpointResume.well_formed content = true ->
  exists checkpoint,
    CheckpointResume._load_checkpoint_from_receipt d p content fk
    = CheckpointResume.Returned checkpoint /\
    (checkpoint = None <-> content = CheckpointResume.Unreadable) /\
    forall i, CheckpointResume.receipt_index content = Some i ->
      exists c, checkpoint = Some c /\ CheckpointResume.step_index c = i.
Proof.
  unfold CheckpointResume.well_formed, CheckpointResume.receipt_index,
    CheckpointResume._load_checkpoint_from_receipt.
  intros H. destruct content as [v| |]; try discriminate H.
  - destruct v as [ | | | | | |receipt]; try discriminate H.
    destruct (CheckpointResume.receipt_step_id receipt) as [ | | | |s| |];
      try discriminate H.
    cbv zeta. eexists. split; [reflexivity|]. split; [split; discriminate|].
    intros i [= <-]. eexists. split; reflexivity.
  - exists None. split; [reflexivity|]. split; [tauto | discriminate].
Qed.

Lemma load_checkpoint_malformed d p content fk :
  CheckpointResume.well_formed content = false ->
  exists e,
    CheckpointResume._load_checkpoint_from_receipt d p content fk
    = CheckpointResume.Raised e /\
    (e = CheckpointResume.LoadError -> content = CheckpointResume.Undecodable).
Proof.
  unfold CheckpointResume.well_formed,
    CheckpointResume._load_checkpoint_from_receipt.
  intros H. destruct content as [v| |]; try discriminate H.
  - exists CheckpointResume.AttributeError.
    split; [|discriminate].
    destruct v as [ | | | | | |receipt]; try reflexivity.
    destruct (CheckpointResume.receipt_step_id receipt); try reflexivity.
    discriminate H.
  - exists CheckpointResume.LoadError. split; reflexivity.
Qed.

Lemma load_receipts_cons d fk p content rest :
  CheckpointResume.load_receipts d fk ((p, content) :: rest)
  = CheckpointResume.bind
      (CheckpointResume._load_checkpoint_from_receipt d p content fk)
      (fun checkpoint =>
         CheckpointResume.bind (CheckpointResume.load_receipts d fk rest)
           (fun checkpoints =>
              CheckpointResume.Returned
                match checkpoint with
                | Some c => c :: checkpoints
                | None => checkpoints
                end)).
Proof. reflexivity. Qed.


(** A malformed receipt file makes the loop raise; the exception is an
    AttributeError unless some file fails to decode. *)
Lemma load_receipts_raises d fk files p content :
  In (p, content) files ->
  CheckpointResume.well_formed content = false ->
  exists e,
    CheckpointResume.load_receipts d fk files = CheckpointResume.Raised e /\
    (e = CheckpointResume.LoadError ->
     exists q, In (q, CheckpointResume.Undecodable) files).
Proof.
  intros Hin Hm. induction files as [|[q c] rest IH]; [inversion Hin|].
  rewrite load_receipts_cons.
  destruct (CheckpointResume.well_formed c) eqn:Hc.
  - destruct Hin as [[= -> ->] | Hin]; [congruence|].
    destruct (IH Hin) as (e & E & He).
    destruct (load_checkpoint_well_formed d q c fk Hc) as (ck & Ek & _).
    rewrite Ek, E. simpl. exists e. split; [reflexivity|].
    intros El. destruct (He El) as [q' Hq]. exists q'. right. exact Hq.
  - destruct (load_checkpoint_malformed d q c fk Hc) as (e & E & He).
    rewrite E. simpl. exists e. split; [reflexivity|].
    intros El. exists q. left. now rewrite (He El).
Qed.





(** Examples: one receipt for step "1" with status succeeded resumes with
    [continue] at step-2 (scenario 5 of the spec); a failed step-3 receipt
    listed before succeeded receipts for steps 1 and 2 retries step 3;
    unreadable receipts alone start fresh; a receipt that holds a JSON
    array, or a number for its step id, raises AttributeError. *)
Example find_resume_point_values :
  let rc s st :=
    CheckpointResume.Parsed
      (Json.JDict [("step_id", Json.JStr s); ("run_id", Json.JStr "run-1");
                   ("status", Json.JStr st)]) in
  let dir rs := {| CheckpointResume.receipts := fun _ => rs;
                   CheckpointResume.envelope := fun _ _ => None |} in
  let rp rs :=
    match CheckpointResume.find_resume_point (dir rs) "build" with
    | CheckpointResume.Returned rp =>
        inl (CheckpointResume.rp_action rp, CheckpointResume.rp_step_id rp,
             CheckpointResume.rp_step_index rp)
    | CheckpointResume.Raised e => inr e
    end in
  rp [("1-a.json", rc "1" "succeeded")] = inl ("continue", "step-2", 2) /\
  rp [("s3.json", rc "step-3" "failed"); ("s1.json", rc "step-1" "succeeded");
      ("s2.json", rc "step-2" "succeeded")] = inl ("retry", "step-3", 3) /\
  rp [("bad.json", CheckpointResume.Unreadable)] = inl ("start_fresh", "step-0", 0) /\
  rp [] = inl ("start_fresh", "step-0", 0) /\
  rp [("1-a.json", rc "1" "succeeded");
      ("2-b.json", CheckpointResume.Parsed (Json.JList []))]
    = inr CheckpointResume.AttributeError /\
  rp [("1-a.json", CheckpointResume.Parsed (Json.JDict [("step_id", Json.JInt 1)]))]
    = inr CheckpointResume.AttributeError /\
  CheckpointResume._extract_step_index "implement" = 0 /\
  CheckpointResume._extract_step_index "step-12" = 12 /\
  CheckpointResume._extract_step_index " 7 " = 7.
Proof. repeat split; vm_compute; reflexivity. Qed.

(** C2, the defect: a receipt file that holds JSON other than an object, or
    an object whose step id is not a string, is not skipped.  For every run
    directory and flow with such a receipt file, and with no file that fails
    to decode, [find_resume_point] raises AttributeError: it returns no
    resume point at all. *)
Theorem find_resume_point_raises_on_malformed_receipt
    (d : CheckpointResume.RunDir) (fk : string)
    (r_path : CheckpointResume.Path) (receipt : Json.json) :
  In (r_path, CheckpointResume.Parsed receipt) (CheckpointResume.receipts d fk) ->
  CheckpointResume.well_formed (CheckpointResume.Parsed receipt) = false ->
  (forall p, ~ In (p, CheckpointResume.Undecodable) (CheckpointResume.receipts d fk)) ->
  CheckpointResume.find_resume_point d fk
  = CheckpointResume.Raised CheckpointResume.AttributeError /\
  CheckpointResume.list_checkpoints d fk
  = CheckpointResume.Raised CheckpointResume.AttributeError.
Proof.
  intros Hin Hm Hu.
  destruct (load_receipts_raises d fk _ _ _ Hin Hm) as (e & E & He).
  assert (e = CheckpointResume.AttributeError) as ->.
  { destruct e; [reflexivity|]. destruct (He eq_refl) as [q Hq].
    exfalso. exact (Hu q Hq). }
  unfold CheckpointResume.find_resume_point, CheckpointResume.get_last_checkpoint,
    CheckpointResume.list_checkpoints.
  rewrite E. split; reflexivity.
Qed.

Lemma find_resume_point_raises_on_malformed_receipt_witness :
  CheckpointResume.find_resume_point array_receipt_dir "build"
  = CheckpointResume.Raised CheckpointResume.AttributeError /\
  CheckpointResume.list_checkpoints array_receipt_dir "build"
  = CheckpointResume.Raised CheckpointResume.AttributeError.
Proof.
  apply (find_resume_point_raises_on_malformed_receipt array_receipt_dir "build"
           "runs/run-1/build/receipts/2-critic.json" (Json.JList [])).
  - vm_compute. right. left. reflexivity.
  - reflexivity.
  - intros p H. vm_compute in H. destruct H as [H | [H | []]]; discriminate H.
Defined.



(** ** Utility-flow candidates *)

(** C4 as stated fails on the target node: with the reset flow of the tests
    (first node "diagnose") and a diverged git status, the one candidate
    emitted targets the flow id "reset", not the flow's first node. *)
Lemma inject_candidate_targets_flow_id :
  exists c,
    UtilityCandidates.get_utility_flow_candidates
      UtilityCandidates.test_env
      (UtilityCandidates.SRDict [("status", UtilityCandidates.VStr "VERIFIED")])
      tt (Some UtilityCandidates.diverged_status) (Some "/repo")
    = UtilityCandidates.Return [c] /\
    UtilityCandidates.candidate_id c = "inject_flow:reset" /\
    UtilityCandidates.target_node c = Some "reset" /\
    UtilityCandidates.first_node_of UtilityCandidates.divergence_detector "reset"
    = Some "diagnose" /\
    UtilityCandidates.target_node c
    <> UtilityCandidates.first_node_of UtilityCandidates.divergence_detector "reset".
Proof.
  eexists. split; [vm_compute; reflexivity|].
  repeat split; vm_compute; congruence.
Qed.

Lemma utility_candidates_never_default {RunState} (env : @UtilityCandidates.Env RunState)
    sr rs gs root cs c :
  UtilityCandidates.get_utility_flow_candidates env sr rs gs root
  = UtilityCandidates.Return cs ->
  In c cs -> UtilityCandidates.is_default c = false.
Proof.
  unfold UtilityCandidates.get_utility_flow_candidates.
  destruct root as [root|].
  - destruct (UtilityCandidates.tr_flow_id _) as [fid|].
    + destruct (_ && _)%bool; intros [= <-] Hc; [|inversion Hc].
      destruct Hc as [<- | []]. reflexivity.
    + intros [= <-] Hc. inversion Hc.
  - destruct (UtilityCandidates.strict_mode env); [discriminate|].
    intros [= <-] Hc. inversion Hc.
Qed.

(** C4 (amended): when a repository root is given and the detection is
    triggered with a non-empty flow id, [get_utility_flow_candidates]
    returns exactly one candidate: id "inject_flow:<id>", action
    inject_flow, target node the flow id itself, source
    "utility_flow_detector", evidence pointers "trigger:<type>" followed by
    one "key:value" per evidence entry, and [is_default] false.  No
    candidate this function ever returns is a default. *)
Theorem utility_candidate_shape (RunState : Type)
    (env : @UtilityCandidates.Env RunState)
    (sr : UtilityCandidates.StepResult) (rs : RunState)
    (gs : option UtilityCandidates.GitStatus) (root fid : string) :
  let tr :=
    UtilityCandidates.check_triggers
      (UtilityCandidates.get_utility_flow_detector env root)
      (UtilityCandidates._step_result_to_dict sr) rs gs in
  UtilityCandidates.triggered tr = true ->
  UtilityCandidates.tr_flow_id tr = Some fid ->
  fid <> "" ->
  (exists c,
     UtilityCandidates.get_utility_flow_candidates env sr rs gs (Some root)
     = UtilityCandidates.Return [c] /\
     UtilityCandidates.candidate_id c = "inject_flow:" +:+ fid /\
     UtilityCandidates.action c = "inject_flow" /\
     UtilityCandidates.target_node c = Some fid /\
     UtilityCandidates.source c = "utility_flow_detector" /\
     UtilityCandidates.evidence_pointers c =
       ("trigger:" +:+ default "None" (UtilityCandidates.trigger_type tr))
       :: map (fun kv => fst kv +:+ ":" +:+ UtilityCandidates.py_str (snd kv))
              (UtilityCandidates.evidence tr) /\
     UtilityCandidates.is_default c = false) /\
  (forall sr' rs' gs' root' cs c,
     UtilityCandidates.get_utility_flow_candidates env sr' rs' gs' root'
     = UtilityCandidates.Return cs ->
     In c cs -> UtilityCandidates.is_default c = false).
Proof.
  intros tr Ht Hf Hne. split.
  - unfold UtilityCandidates.get_utility_flow_candidates. fold tr.
    rewrite Hf, Ht.
    destruct (String.eqb_spec fid "") as [E | _]; [contradiction|]. simpl.
    eexists. split; [reflexivity|]. simpl.
    repeat split.
  - intros. eapply utility_candidates_never_default; eassumption.
Qed.

Lemma utility_candidate_shape_witness :
  let tr :=
    UtilityCandidates.check_triggers UtilityCandidates.divergence_detector
      [("status", UtilityCandidates.VStr "VERIFIED")] tt
      (Some UtilityCandidates.diverged_status) in
  (UtilityCandidates.triggered tr = true /\
   UtilityCandidates.tr_flow_id tr = Some "reset" /\ "reset" <> "") /\
  exists c,
    UtilityCandidates.get_utility_flow_candidates UtilityCandidates.test_env
      (UtilityCandidates.SRDict [("status", UtilityCandidates.VStr "VERIFIED")])
      tt (Some UtilityCandidates.diverged_status) (Some "/repo")
    = UtilityCandidates.Return [c] /\
    UtilityCandidates.target_node c = Some "reset" /\
    UtilityCandidates.evidence_pointers c =
      ["trigger:upstream_diverged"; "behind_count:5"; "diverged:True"] /\
    UtilityCandidates.is_default c = false.
Proof.
  intros tr.
  assert (H1 : UtilityCandidates.triggered tr = true) by reflexivity.
  assert (H2 : UtilityCandidates.tr_flow_id tr = Some "reset") by reflexivity.
  assert (H3 : "reset" <> "") by discriminate.
  split; [auto|].
  destruct (utility_candidate_shape unit UtilityCandidates.test_env
              (UtilityCandidates.SRDict [("status", UtilityCandidates.VStr "VERIFIED")])
              tt (Some UtilityCandidates.diverged_status) "/repo" "reset"
              H1 H2 H3) as [[c (E & _ & _ & T & _ & P & D)] _].
  exists c. repeat split; assumption.
Defined.

(** ** Tool-call round trip *)

(** C9 as stated fails on [blocked_reason]: a call that is not blocked but
    carries a reason loses the reason, because [to_dict] writes
    "blocked_reason" only under [if self.blocked]. *)
Lemma tool_call_roundtrip_drops_reason :
  let c : ToolCall.NormalizedToolCall string :=
    ToolCall.new "2026-01-01T00:00:00+00:00" "Bash" [("command", "ls")]
      None true 150 false (Some "policy") "sdk" None in
  ToolCall.blocked_reason (ToolCall.from_dict "2026-01-02T00:00:00+00:00"
                             (ToolCall.to_dict c)) = None /\
  ToolCall.blocked_reason c = Some "policy" /\
  ToolCall.from_dict "2026-01-02T00:00:00+00:00" (ToolCall.to_dict c) <> c.
Proof. repeat split; vm_compute; congruence. Qed.

(** C9 (amended): for every tool call built by the constructor,
    [from_dict (to_dict c)] equals [c] in [tool_name], [tool_input],
    [tool_output], [success], [duration_ms], [blocked], [source] and
    [timestamp]; [blocked_reason] comes back as the original when the call
    is blocked and the reason is non-empty, and as [None] otherwise.  So the
    round trip is the identity whenever the reason is [None], or the call is
    blocked with a non-empty reason. *)
Theorem tool_call_roundtrip {Any : Type} (now0 now1 : string)
    (name : string) (input : list (string * Any)) (output : option string)
    (succ : bool) (dur : Z) (blk : bool) (reason : option string)
    (src : string) (ts : option string) :
  let c := ToolCall.new now0 name input output succ dur blk reason src ts in
  let c' := ToolCall.from_dict now1 (ToolCall.to_dict c) in
  c' = ToolCall.with_blocked_reason (ToolCall.kept_blocked_reason c) c /\
  ToolCall.tool_name c' = ToolCall.tool_name c /\
  ToolCall.tool_input c' = ToolCall.tool_input c /\
  ToolCall.tool_output c' = ToolCall.tool_output c /\
  ToolCall.success c' = ToolCall.success c /\
  ToolCall.duration_ms c' = ToolCall.duration_ms c /\
  ToolCall.blocked c' = ToolCall.blocked c /\
  ToolCall.source c' = ToolCall.source c /\
  ToolCall.timestamp c' = ToolCall.timestamp c /\
  ((reason = None \/ (blk = true /\ reason <> Some "")) -> c' = c).
Proof.
  intros c c'.
  assert (E : c' = ToolCall.with_blocked_reason (ToolCall.kept_blocked_reason c) c).
  { subst c c'. unfold ToolCall.from_dict, ToolCall.to_dict, ToolCall.new,
      ToolCall.with_blocked_reason, ToolCall.kept_blocked_reason. simpl.
    destruct blk, ts; reflexivity. }
  split; [exact E|]. rewrite E.
  repeat (split; [reflexivity|]).
  intros H. subst c. unfold ToolCall.with_blocked_reason,
    ToolCall.kept_blocked_reason, ToolCall.new. simpl.
  destruct H as [-> | [-> Hr]].
  - destruct blk; reflexivity.
  - destruct reason as [r|]; [|reflexivity].
    destruct (String.eqb_spec r "") as [-> | _]; [congruence | reflexivity].
Qed.

(** ** Boundary scanner *)

Lemma scan_kinds self current v :
  In v (BoundaryEnforcement.scan self current) -> scan_kind v.
Proof.
  unfold BoundaryEnforcement.scan, scan_kind.
  rewrite !in_app_iff. intros [H | [H | [H | H]]].
  - unfold BoundaryEnforcement._check_write_violations in H.
    apply in_flat_map in H as [f [_ H]].
    destruct (BoundaryEnforcement.is_relative_to _ _); [inversion H|].
    destruct H as [<- | []]. simpl. tauto.
  - destruct (BoundaryEnforcement.is_shadow self); [|inversion H].
    unfold BoundaryEnforcement._check_shadow_violations in H.
    destruct (BoundaryEnforcement._baseline self); [|inversion H].
    destruct (_ && _)%bool; [|inversion H].
    destruct H as [<- | []]. simpl. tauto.
  - unfold BoundaryEnforcement._check_protected_paths in H.
    apply in_flat_map in H as [f [_ H]].
    apply in_flat_map in H as [p [_ H]].
    destruct (BoundaryEnforcement.contains p f); [|inversion H].
    destruct H as [<- | []]. simpl. tauto.
  - unfold BoundaryEnforcement._check_secret_exposure in H.
    apply in_flat_map in H as [f [_ H]].
    destruct (List.find _ _); [|inversion H].
    destruct H as [<- | []]. simpl. tauto.
Qed.

(** C8, the defect: the detection of force operations is declared and never
    performed.  The class holds [FORCE_PATTERNS] ("Patterns that indicate
    force operations") and [ViolationType] has [FORCE_OPERATION], but
    [BoundaryScanner.scan] has no commands among its inputs and consults
    neither: for every scanner and every state, each violation it returns is
    WRITE_OUTSIDE_WORKSPACE (ERROR), REAL_REPO_MODIFICATION (CRITICAL),
    MAIN_BRANCH_MUTATION (WARNING) or SECRET_EXPOSURE (WARNING), and none is
    a FORCE_OPERATION. *)
Theorem scan_never_reports_force_operation
    (self : BoundaryEnforcement.BoundaryScanner)
    (current : option BoundaryEnforcement.WorkspaceState) :
  Forall (fun v =>
            scan_kind v /\
            BoundaryEnforcement.v_type v <> BoundaryEnforcement.FORCE_OPERATION)
         (BoundaryEnforcement.scan self current).
Proof.
  apply List.Forall_forall. intros v Hv.
  pose proof (scan_kinds self current v Hv) as K. split; [exact K|].
  destruct K as [[E _] | [[E _] | [[E _] | [E _]]]]; rewrite E; discriminate.
Qed.

(** A step that pushed with force and changed one file inside the
    workspace: the scan reports nothing. *)
Example scan_of_unchanged_workspace :
  BoundaryEnforcement.scan quiet_scanner (Some quiet_state) = [] /\
  BoundaryEnforcement.scan quiet_scanner None = [].
Proof. split; vm_compute; reflexivity. Qed.

(** ** Replay reducer: step_completed *)

Section StepCompleted.
Context {HandoffEnvelope : Type}.
Variable parse : Json.json -> option HandoffEnvelope.
Variable other :
  string -> @StateBuilder.RunState HandoffEnvelope ->
  StateBuilder.RunEvent -> StateBuilder.Payload ->
  @StateBuilder.RunState HandoffEnvelope.

Lemma apply_event_step_completed state event :
  StateBuilder.kind event = "step_completed" ->
  StateBuilder._apply_event parse other state event =
  StateBuilder._apply_step_completed parse
    (StateBuilder.set_timestamp (StateBuilder.ts event) state) event
    (default StateBuilder.empty_payload (StateBuilder.payload event)).
Proof.
  intros E. unfold StateBuilder._apply_event. now rewrite E.
Qed.

Lemma apply_step_completed_fields state event p sid :
  StateBuilder.resolve_step_id event p = Some sid ->
  let s' := StateBuilder._apply_step_completed parse state event p in
  StateBuilder.completed_nodes s' = {[ sid ]} ∪ StateBuilder.completed_nodes state /\
  StateBuilder.handoff_envelopes s' =
    match StateBuilder.stored_envelope parse p with
    | Some e => <[ sid := e ]> (StateBuilder.handoff_envelopes state)
    | None => StateBuilder.handoff_envelopes state
    end /\
  StateBuilder.step_index s' =
    default (StateBuilder.step_index state) (StateBuilder.p_next_step_index p).
Proof.
  intros E. unfold StateBuilder._apply_step_completed, StateBuilder.stored_envelope.
  rewrite E.
  destruct (StateBuilder.p_envelope p) as [data|];
    [destruct (Json.truthy data); [destruct (parse data)|]|];
    destruct (StateBuilder.p_next_step_index p); simpl; auto.
Qed.

(** C1 (amended): applying a [step_completed] event that carries a step id
    adds the id to [completed_nodes], stores the payload's envelope under
    that id when one is present, truthy and parseable (and leaves
    [handoff_envelopes] alone otherwise), and sets [step_index] to the
    payload's [next_step_index] when the payload has one, leaving it
    unchanged when it has none. *)
Theorem apply_step_completed_event state event sid :
  StateBuilder.kind event = "step_completed" ->
  let p := default StateBuilder.empty_payload (StateBuilder.payload event) in
  StateBuilder.resolve_step_id event p = Some sid ->
  let s' := StateBuilder._apply_event parse other state event in
  sid ∈ StateBuilder.completed_nodes s' /\
  StateBuilder.completed_nodes s' = {[ sid ]} ∪ StateBuilder.completed_nodes state /\
  (forall e, StateBuilder.stored_envelope parse p = Some e ->
     StateBuilder.handoff_envelopes s' !! sid = Some e) /\
  (StateBuilder.stored_envelope parse p = None ->
     StateBuilder.handoff_envelopes s' = StateBuilder.handoff_envelopes state) /\
  (forall i, StateBuilder.p_next_step_index p = Some i ->
     StateBuilder.step_index s' = i) /\
  (StateBuilder.p_next_step_index p = None ->
     StateBuilder.step_index s' = StateBuilder.step_index state).
Proof.
  intros Ek p Es s'. subst s'. rewrite apply_event_step_completed by exact Ek.
  fold p.
  destruct (apply_step_completed_fields
              (StateBuilder.set_timestamp (StateBuilder.ts event) state)
              event p sid Es) as (Hc & He & Hi).
  simpl in Hc, He, Hi.
  split; [rewrite Hc; apply elem_of_union_l, elem_of_singleton; reflexivity|].
split; [exact Hc|].
  split; [intros e E; rewrite He, E; apply lookup_insert_eq|].
  split; [intros E; now rewrite He, E|].
  split; [intros i E | intros E]; rewrite Hi, E; reflexivity.
Qed.

End StepCompleted.

(** C1 as stated fails on [step_index]: a [step_completed] event for step
    "1" whose payload has no [next_step_index] completes the node and leaves
    [step_index] where it was. *)
Lemma step_completed_keeps_step_index :
  let s := initial_state "run-1" in
  let s' := StateBuilder._apply_event summary_of_dict ignore_other s
              (step_completed_event "1" None) in
  "1" ∈ StateBuilder.completed_nodes s' /\
  StateBuilder.step_index s' = StateBuilder.step_index s /\
  ~ (StateBuilder.step_index s < StateBuilder.step_index s').
Proof.
  simpl. split; [apply elem_of_union_l, elem_of_singleton; reflexivity|].
  split; [reflexivity | lia].
Qed.

Lemma apply_step_completed_event_witness :
  let s := initial_state "run-1" in
  let e := step_completed_event "1" (Some envelope_payload) in
  let s' := StateBuilder._apply_event summary_of_dict ignore_other s e in
  (StateBuilder.kind e = "step_completed" /\
   StateBuilder.resolve_step_id e envelope_payload = Some "1") /\
  "1" ∈ StateBuilder.completed_nodes s' /\
  StateBuilder.handoff_envelopes s' !! "1" = Some "Step 1 completed successfully" /\
  StateBuilder.step_index s' = 1.
Proof.
  intros s e s'.
  assert (Hk : StateBuilder.kind e = "step_completed") by reflexivity.
  assert (Hr : StateBuilder.resolve_step_id e
                 (default StateBuilder.empty_payload (StateBuilder.payload e))
               = Some "1") by reflexivity.
  split; [split; [exact Hk | exact Hr]|].
  destruct (apply_step_completed_event summary_of_dict ignore_other s e "1" Hk Hr)
    as (H1 & _ & H3 & _ & H5 & _).
  split; [exact H1|]. split; [apply H3; reflexivity | apply H5; reflexivity].
Defined.

(** ** Context budget *)

Lemma sum_tokens_app l1 l2 :
  ContextBudget.sum_tokens (l1 ++ l2)
  = ContextBudget.sum_tokens l1 + ContextBudget.sum_tokens l2.
Proof.
  unfold ContextBudget.sum_tokens.
  induction l1 as [|x l1 IH]; simpl; [reflexivity | rewrite IH; lia].
Qed.

Lemma load_step_loaded_grows self st item x :
  In x (ContextBudget.loaded st) ->
  In x (ContextBudget.loaded (ContextBudget.load_step self st item)).
Proof.
  intros H. unfold ContextBudget.load_step.
  destruct (ContextBudget.priority item);
    repeat match goal with |- context [if ?b then _ else _] => destruct b end;
    simpl; try apply in_or_app; auto.
Qed.

Lemma fold_load_loaded_grows self items st x :
  In x (ContextBudget.loaded st) ->
  In x (ContextBudget.loaded (fold_left (ContextBudget.load_step self) items st)).
Proof.
  revert st. induction items as [|i items IH]; intros st H; simpl; [exact H|].
  apply IH, load_step_loaded_grows, H.
Qed.

Lemma fold_load_keeps_critical self items st x :
  In x items -> ContextBudget.priority x = ContextBudget.CRITICAL ->
  In x (ContextBudget.loaded (fold_left (ContextBudget.load_step self) items st)).
Proof.
  revert st. induction items as [|i items IH]; intros st H C; [inversion H|].
  simpl. destruct H as [-> | H]; [|now apply IH].
  apply fold_load_loaded_grows. unfold ContextBudget.load_step. rewrite C.
  simpl. apply in_or_app. right. left. reflexivity.
Qed.

(** CRITICAL items are always in the loaded set, whatever the budget. *)
Lemma critical_items_always_loaded self items x :
  In x items -> ContextBudget.priority x = ContextBudget.CRITICAL ->
  In x (fst (ContextBudget._load_by_priority self items)).
Proof.
  intros H C. unfold ContextBudget._load_by_priority. simpl.
  apply fold_load_keeps_critical; [|exact C].
  unfold ContextBudget.sort_items.
  eapply Permutation_in; [symmetry; apply sort_by_key_Permutation | exact H].
Qed.

Lemma load_inv_noncritical self st item :
  load_inv self st ->
  ContextBudget.tokens item <= ContextBudget.budget self - ContextBudget.used_tokens st ->
  load_inv self (ContextBudget.load item st).
Proof.
  intros [Hu _] Hle. split; simpl.
  - rewrite sum_tokens_app, Hu. unfold ContextBudget.sum_tokens. simpl. lia.
  - right. lia.
Qed.

Lemma load_inv_critical self st item :
  load_inv self st -> all_critical (ContextBudget.loaded st) ->
  ContextBudget.priority item = ContextBudget.CRITICAL ->
  load_inv self (ContextBudget.load item st).
Proof.
  intros [Hu _] Hall C. split; simpl.
  - rewrite sum_tokens_app, Hu. unfold ContextBudget.sum_tokens. simpl. lia.
  - left. apply Forall_app. split; [exact Hall | repeat constructor; exact C].
Qed.

Lemma load_inv_drop self st item :
  load_inv self st -> load_inv self (ContextBudget.drop_item item st).
Proof. intros H. exact H. Qed.

Lemma load_step_inv self items st item :
  truncation_fits self items -> In item items ->
  load_inv self st ->
  (ContextBudget.priority item = ContextBudget.CRITICAL ->
   all_critical (ContextBudget.loaded st)) ->
  load_inv self (ContextBudget.load_step self st item).
Proof.
  intros Hfit Hin Hinv Hc. unfold ContextBudget.load_step.
  destruct (ContextBudget.priority item) eqn:P.
  - destruct (Z.leb_spec (ContextBudget.tokens item)
                (ContextBudget.budget self - ContextBudget.used_tokens st));
      simpl; [destruct (ContextBudget.ge_scaled _ _ _); simpl|];
      auto using load_inv_noncritical, load_inv_drop.
  - destruct (Z.leb_spec (ContextBudget.tokens item)
                (ContextBudget.budget self - ContextBudget.used_tokens st));
      auto using load_inv_noncritical, load_inv_drop.
  - destruct (Z.leb_spec (ContextBudget.tokens item)
                (ContextBudget.budget self - ContextBudget.used_tokens st));
      [auto using load_inv_noncritical|].
    destruct (Z.leb_spec 100
                (ContextBudget.budget self - ContextBudget.used_tokens st));
      [|auto using load_inv_drop].
    apply load_inv_noncritical; [exact Hinv|]. now apply Hfit.
  - apply load_inv_critical; auto.
Qed.

Lemma fold_load_inv self items l st :
  truncation_fits self items ->
  (forall x, In x l -> In x items) ->
  StronglySorted
    (PySeq.key_le (fun item => - ContextBudget.value (ContextBudget.priority item))) l ->
  load_inv self st ->
  ((exists c, In c l /\ ContextBudget.priority c = ContextBudget.CRITICAL) ->
   all_critical (ContextBudget.loaded st)) ->
  load_inv self (fold_left (ContextBudget.load_step self) l st).
Proof.
  intros Hfit. revert st.
  induction l as [|x l IH]; intros st Hsub Hs Hinv Hc; simpl; [exact Hinv|].
  apply StronglySorted_inv in Hs as [Hs Hx].
  assert (Hxc : (exists c, In c l /\ ContextBudget.priority c = ContextBudget.CRITICAL) ->
                ContextBudget.priority x = ContextBudget.CRITICAL).
  { intros [c [Hcl Cc]]. rewrite List.Forall_forall in Hx.
    specialize (Hx c Hcl). unfold PySeq.key_le in Hx. rewrite Cc in Hx.
    destruct (ContextBudget.priority x); simpl in Hx; try lia. reflexivity. }
  apply IH.
  - intros y Hy. apply Hsub. now right.
  - exact Hs.
  - eapply load_step_inv; [exact Hfit | apply Hsub; now left | exact Hinv |].
    intros C. apply Hc. exists x. split; [now left | exact C].
  - intros Hex. pose proof (Hxc Hex) as C.
    assert (Hall : all_critical (ContextBudget.loaded st)).
    { apply Hc. exists x. split; [now left | exact C]. }
    unfold ContextBudget.load_step. rewrite C. simpl.
    apply Forall_app. split; [exact Hall | repeat constructor; exact C].
Qed.

(** When every truncation fits the room it was given, the loaded total stays
    within the budget unless only CRITICAL items were loaded. *)
Lemma budget_respected_when_truncation_fits self items :
  truncation_fits self items ->
  let loaded := fst (ContextBudget._load_by_priority self items) in
  all_critical loaded \/ ContextBudget.sum_tokens loaded <= ContextBudget.budget self.
Proof.
  intros Hfit loaded. subst loaded. unfold ContextBudget._load_by_priority. simpl.
  destruct (fold_load_inv self items (ContextBudget.sort_items items)
              {| ContextBudget.loaded := []; ContextBudget.dropped_acc := [];
                 ContextBudget.used_tokens := 0 |} Hfit) as [Hu Hd].
  - intros x Hx. eapply Permutation_in; [apply sort_by_key_Permutation | exact Hx].
  - apply sort_by_key_sorted.
  - split; simpl; [reflexivity | left; constructor].
  - intros _. constructor.
  - destruct Hd as [Hd | Hd]; [left; exact Hd | right]. rewrite <- Hu. exact Hd.
Qed.

(** The truncation of the long-tail item, number by number. *)
Example truncation_overshoot_values :
  ContextBudget.tokens long_tail_item = 201 /\
  Py.len (ContextBudget.content long_tail_item) = 4001 /\
  ContextBudget.tokens
    (ContextBudget._truncate_item word_enforcer long_tail_item 100) = 203 /\
  Py.len (ContextBudget.content
            (ContextBudget._truncate_item word_enforcer long_tail_item 100)) = 1967.
Proof. repeat split; vm_compute; reflexivity. Qed.

(** C3, the failing input: budget 100, one HIGH item of 201 tokens and no
    CRITICAL item.  The item is truncated to an estimated 1950 characters,
    which still hold 203 tokens, and is loaded: the total is 203, above the
    budget, with a non-CRITICAL item in the loaded set. *)
Theorem truncation_overshoots_budget :
  let r := ContextBudget.enforce word_enforcer [long_tail_item] in
  ContextBudget.total_tokens r = 203 /\
  ContextBudget.result_budget r = 100 /\
  ContextBudget.result_budget r < ContextBudget.total_tokens r /\
  map ContextBudget.priority (ContextBudget.loaded_items r) = [ContextBudget.HIGH] /\
  map ContextBudget.truncated (ContextBudget.loaded_items r) = [true] /\
  ContextBudget.dropped_items r = [].
Proof. repeat split; vm_compute; reflexivity. Qed.

(** ** JSON extraction *)

Section ExtractionFacts.
Variable json_loads : string -> StructuredOutput.Loads.

Lemma first_object_is_dict cands d :
  StructuredOutput.first_object json_loads cands = Some d -> Json.is_dict d = true.
Proof.
  induction cands as [|c cands IH]; simpl; [discriminate|].
  destruct (json_loads c) as [v|]; [|exact IH].
  destruct (Json.is_dict v) eqn:E; [|exact IH].
  now intros [= <-].
Qed.

Lemma extract_raw_shape text :
  object_or_error (StructuredOutput.extract_raw json_loads text).
Proof.
  unfold StructuredOutput.extract_raw.
  destruct (_ || _)%bool; [|exact I].
  destruct (json_loads text) as [v|]; [|exact I].
  destruct (Json.is_dict v) eqn:E; [exact E | exact I].
Qed.

Lemma extract_braces_shape text :
  object_or_error (StructuredOutput.extract_braces json_loads text).
Proof.
  unfold StructuredOutput.extract_braces.
  destruct (StructuredOutput.first_object _ _) eqn:E;
    [eapply first_object_is_dict, E | apply extract_raw_shape].
Qed.

Lemma extract_generic_shape text :
  object_or_error (StructuredOutput.extract_generic json_loads text).
Proof.
  unfold StructuredOutput.extract_generic.
  destruct (StructuredOutput.search_fence _ _) as [s|];
    [|apply extract_braces_shape].
  destruct (StructuredOutput.looks_like_code s); [apply extract_braces_shape|].
  destruct (json_loads s) as [v|]; [|apply extract_braces_shape].
  destruct (Json.is_dict v) eqn:E; [exact E | apply extract_braces_shape].
Qed.

Lemma extract_json_shape text :
  object_or_error (StructuredOutput.extract_json_from_text json_loads text).
Proof.
  unfold StructuredOutput.extract_json_from_text.
  destruct (String.eqb _ _); [exact I|].
  destruct (StructuredOutput.search_fence _ _) as [s|];
    [|apply extract_generic_shape].
  destruct (json_loads s) as [v|]; [|apply extract_generic_shape].
  destruct (Json.is_dict v) eqn:E; [exact E | exact I].
Qed.

Lemma prefix_app_l a b s :
  String.prefix (a +:+ b) s = true -> String.prefix a s = true.
Proof.
  revert s. induction a as [|c a IH]; intros s.
  - destruct s; reflexivity.
  - destruct s as [|c' s]; [discriminate|].
    change (String c a +:+ b) with (String c (a +:+ b)). simpl.
    destruct (Ascii.ascii_dec c c'); [apply IH | discriminate].
Qed.

Lemma split_first_unfold needle hay :
  StructuredOutput.split_first needle hay =
  if String.prefix needle hay
  then Some (EmptyString,
             String.substring (String.length needle) (String.length hay) hay)
  else match hay with
       | EmptyString => None
       | String c rest =>
           match StructuredOutput.split_first needle rest with
           | Some (before, after) => Some (String c before, after)
           | None => None
           end
       end.
Proof. destruct hay; reflexivity. Qed.

Lemma split_first_none_app a b s :
  StructuredOutput.split_first a s = None ->
  StructuredOutput.split_first (a +:+ b) s = None.
Proof.
  induction s as [|c s IH]; intros H; rewrite split_first_unfold in H |- *.
  - destruct (String.prefix a "") eqn:Ea; [discriminate|].
    destruct (String.prefix (a +:+ b) "") eqn:E; [|reflexivity].
    apply prefix_app_l in E. congruence.
  - destruct (String.prefix a (String c s)) eqn:Ea; [discriminate|].
    destruct (String.prefix (a +:+ b) (String c s)) eqn:E;
      [apply prefix_app_l in E; congruence|].
    destruct (StructuredOutput.split_first a s) as [[? ?]|] eqn:Es;
      [discriminate|].
    now rewrite IH.
Qed.

(** C10: [extract_json_from_text] returns a parsed value only when that
    value is a JSON object, and then without an error; whenever it returns
    no value it returns an error message.  In particular, for a text that
    holds no code fence and no brace-balanced candidate that parses to an
    object, and that begins with '[' and parses as an array, the result is
    no value and the message "Expected JSON object, got list". *)
Theorem extract_json_only_objects (text : string) :
  let r := StructuredOutput.extract_json_from_text json_loads text in
  let t := Py.strip text in
  (forall d, fst r = Some d -> Json.is_dict d = true /\ snd r = None) /\
  (fst r = None -> exists msg, snd r = Some msg) /\
  (forall items,
     String.prefix "[" t = true ->
     json_loads t = StructuredOutput.Loaded (Json.JList items) ->
     StructuredOutput.split_first StructuredOutput.fence t = None ->
     StructuredOutput.first_object json_loads
       (StructuredOutput._find_json_candidates t) = None ->
     r = (None, Some "Expected JSON object, got list")).
Proof.
  intros r t. pose proof (extract_json_shape text) as H. fold r in H.
  split; [|split].
  - intros d E. destruct r as [[d'|] [m|]]; simpl in *; try contradiction;
      try discriminate. injection E as <-. split; [exact H | reflexivity].
  - intros E. destruct r as [[d'|] [m|]]; simpl in *; try contradiction;
      try discriminate. now exists m.
  - intros items Hp Hl Hf Hc. subst r.
    unfold StructuredOutput.extract_json_from_text. fold t.
    destruct (String.eqb_spec t "") as [E | _].
    { rewrite E in Hp. discriminate. }
    assert (Hj : StructuredOutput.search_fence "```json" t = None).
    { unfold StructuredOutput.search_fence.
      change "```json" with (StructuredOutput.fence +:+ "json").
      now rewrite split_first_none_app. }
    rewrite Hj. unfold StructuredOutput.extract_generic,
      StructuredOutput.search_fence. rewrite Hf.
    unfold StructuredOutput.extract_braces. rewrite Hc.
    unfold StructuredOutput.extract_raw. rewrite Hp, Hl.
    rewrite orb_true_r. reflexivity.
Qed.

End ExtractionFacts.

Lemma extract_json_only_objects_witness :
  StructuredOutput.extract_json_from_text JsonText.loads "[1, 2, 3]"
  = (None, Some "Expected JSON object, got list").
Proof.
  destruct (extract_json_only_objects JsonText.loads "[1, 2, 3]") as (_ & _ & H).
  apply (H [Json.JInt 1; Json.JInt 2; Json.JInt 3]); vm_compute; reflexivity.
Defined.

(** The array case of C10 on the text "[1, 2, 3]", and three neighbours: an
    object in prose, an array in a json fence that hides a later object, and
    an array in prose. *)
Example extract_json_values :
  let ex := StructuredOutput.extract_json_from_text JsonText.loads in
  ex "[1, 2, 3]" = (None, Some "Expected JSON object, got list") /\
  ex (JsonText.dq "Result: {'status': 'VERIFIED'} as asked")
    = (Some (Json.JDict [("status", Json.JStr "VERIFIED")]), None) /\
  ex (JsonText.dq "```json [1] ``` then {'a': 1}")
    = (None, Some "Expected JSON object, got list") /\
  ex "The list [1, 2] is all" = (None, Some "No valid JSON found in response") /\
  ex "   " = (None, Some "Empty response received").
Proof. repeat split; vm_compute; reflexivity. Qed.

(** ** Schema validation and the extraction microloop *)

Lemma json_nested_ind (P : Json.json -> Prop) :
  P Json.JNull -> (forall b, P (Json.JBool b)) -> (forall z, P (Json.JInt z)) ->
  (forall f, P (Json.JFloat f)) -> (forall s, P (Json.JStr s)) ->
  (forall l, Forall P l -> P (Json.JList l)) ->
  (forall d, Forall (fun kv => P (snd kv)) d -> P (Json.JDict d)) ->
  forall j, P j.
Proof.
  intros HN HB HI HF HS HL HD.
  fix IH 1. intros [ | b | z | f | s | l | d].
  - exact HN.
  - apply HB.
  - apply HI.
  - apply HF.
  - apply HS.
  - apply HL. revert l. fix IHl 1. intros [|x l]; constructor; [apply IH | apply IHl].
  - apply HD. revert d. fix IHd 1.
    intros [|[k v] d]; constructor; [apply IH | apply IHd].
Qed.

Section ValidationFacts.
Variable re_match : string -> string -> bool.
Variable str_len : string -> Z.

Lemma enum_errors_nil path ps v :
  StructuredOutput.enum_errors path ps v = [] -> StructuredOutput.in_enum ps v.
Proof.
  unfold StructuredOutput.enum_errors, StructuredOutput.in_enum.
  intros H allowed E. rewrite E in H.
  destruct (Json.py_in v allowed); [reflexivity | discriminate].
Qed.

Lemma type_errors_nil path ps v :
  StructuredOutput.type_errors path ps v = [] ->
  StructuredOutput.has_declared_type ps v.
Proof.
  unfold StructuredOutput.type_errors, StructuredOutput.has_declared_type.
  intros H t Et Ei. rewrite Et, Ei in H.
  destruct v; simpl in H; try discriminate H.
  destruct (String.eqb t "integer") eqn:Eq; simpl in H; [|discriminate H].
  destruct (Json.float_is_integer f) eqn:Ef; [|discriminate H].
  apply String.eqb_eq in Eq. split; [exact Eq | eauto].
Qed.

Lemma null_errors_nil path ps :
  StructuredOutput.null_errors path ps = [] ->
  StructuredOutput.s_type ps = Some "null" \/
  StructuredOutput.s_nullable ps = true \/ StructuredOutput.s_type ps = None.
Proof.
  unfold StructuredOutput.null_errors, StructuredOutput.type_is.
  destruct (StructuredOutput.s_type ps) as [t|]; [|tauto].
  destruct (String.eqb_spec t "null") as [-> | _]; [tauto|].
  destruct (StructuredOutput.s_nullable ps); simpl; [tauto | discriminate].
Qed.

Lemma if_nil {A} (b : bool) (x : A) :
  (if b then [x] else []) = [] -> b = false.
Proof. destruct b; [discriminate | reflexivity]. Qed.

Lemma string_errors_nil path ps v :
  StructuredOutput.string_errors re_match str_len path ps v = [] ->
  StructuredOutput.string_constraints_hold re_match str_len ps v.
Proof.
  unfold StructuredOutput.string_errors, StructuredOutput.string_constraints_hold,
    StructuredOutput.type_is.
  intros H s -> Et. rewrite Et in H. simpl in H.
  apply app_eq_nil in H as [H1 H2]. apply app_eq_nil in H2 as [H2 H3].
  repeat split.
  - intros m Em. rewrite Em in H1. eapply if_nil, H1.
  - intros m Em. rewrite Em in H2. eapply if_nil, H2.
  - intros p Ep. rewrite Ep in H3.
    destruct (re_match p s); [reflexivity | discriminate].
Qed.

Lemma numeric_errors_nil path ps v :
  StructuredOutput.numeric_errors path ps v = [] ->
  StructuredOutput.numeric_constraints_hold ps v.
Proof.
  unfold StructuredOutput.numeric_errors, StructuredOutput.numeric_constraints_hold,
    StructuredOutput.type_is.
  intros H n En Et. rewrite En in H.
  assert (Hb : ((match StructuredOutput.s_type ps with
                 | Some t' => String.eqb t' "number" | None => false end)
                || (match StructuredOutput.s_type ps with
                    | Some t' => String.eqb t' "integer" | None => false end))%bool
               = true).
  { destruct Et as [-> | ->]; reflexivity. }
  rewrite Hb in H.
  apply app_eq_nil in H as [H1 H]. apply app_eq_nil in H as [H2 H].
  apply app_eq_nil in H as [H3 H4].
  repeat split; intros m Em.
  - rewrite Em in H1. eapply if_nil, H1.
  - rewrite Em in H2. eapply if_nil, H2.
  - rewrite Em in H3. eapply if_nil, H3.
  - rewrite Em in H4. eapply if_nil, H4.
Qed.

Lemma required_errors_nil path schema d field_name :
  StructuredOutput.required_errors path schema d = [] ->
  In field_name (default [] (StructuredOutput.s_required schema)) ->
  Json.mem field_name d = true.
Proof.
  unfold StructuredOutput.required_errors. intros H Hin.
  induction (default [] (StructuredOutput.s_required schema)) as [|f fs IH];
    [inversion Hin|].
  simpl in H. apply app_eq_nil in H as [H1 H2].
  destruct Hin as [-> | Hin]; [|now apply IH].
  destruct (Json.mem field_name d); [reflexivity | discriminate].
Qed.

Lemma type_is_spec ps t :
  StructuredOutput.type_is ps t = true <-> StructuredOutput.s_type ps = Some t.
Proof.
  unfold StructuredOutput.type_is.
  destruct (StructuredOutput.s_type ps) as [t'|]; [|split; discriminate].
  rewrite String.eqb_eq. split; congruence.
Qed.

Lemma item_type_errors_nil path items_schema item :
  StructuredOutput.item_type_errors path items_schema item = [] ->
  StructuredOutput.item_has_type items_schema item.
Proof.
  unfold StructuredOutput.item_type_errors, StructuredOutput.item_has_type.
  intros H t Et Ei. rewrite Et, Ei in H. discriminate H.
Qed.

Lemma item_enum_errors_nil path items_schema item :
  StructuredOutput.item_enum_errors path items_schema item = [] ->
  StructuredOutput.item_in_enum items_schema item.
Proof.
  unfold StructuredOutput.item_enum_errors, StructuredOutput.item_in_enum.
  intros H allowed E. rewrite E in H.
  destruct (Json.py_in item allowed); [reflexivity | discriminate].
Qed.

Lemma validate_nil_step d :
  Forall (fun kv =>
            StructuredOutput.nil_conforms re_match str_len (snd kv) /\
            match snd kv with
            | Json.JList l => Forall (StructuredOutput.nil_conforms re_match str_len) l
            | _ => True
            end) d ->
  StructuredOutput.nil_conforms re_match str_len (Json.JDict d).
Proof.
  intros F schema path H. simpl in H. apply app_eq_nil in H as [Hreq Hfields].
  constructor.
  - intros f Hf. eapply required_errors_nil; eassumption.
  - clear Hreq.
    induction F as [|[k v] d [Hv Hitems] F IH]; intros f v' ps Hin Hfind;
      [inversion Hin|].
    apply app_eq_nil in Hfields as [Hhead Htail].
    destruct Hin as [[= <- <-] | Hin]; [|eapply IH; eassumption].
    clear IH Htail F. simpl in Hv, Hitems. rewrite Hfind in Hhead.
    assert (Dn : v = Json.JNull \/ v <> Json.JNull)
      by (destruct v; (left; reflexivity) || (right; discriminate)).
    destruct Dn as [-> | Hnull].
    { constructor. eapply null_errors_nil. exact Hhead. }
    assert (Hall :
      StructuredOutput.enum_errors (path +:+ "." +:+ k) ps v = [] /\
      StructuredOutput.type_errors (path +:+ "." +:+ k) ps v = [] /\
      (StructuredOutput.s_type ps = Some "object" -> Json.is_dict v = true ->
       StructuredOutput.conforms re_match str_len v ps) /\
      (forall items items_schema,
         v = Json.JList items -> StructuredOutput.s_type ps = Some "array" ->
         StructuredOutput.s_items ps = Some items_schema ->
         forall item, In item items ->
           StructuredOutput.item_conforms re_match str_len items_schema item) /\
      StructuredOutput.string_errors re_match str_len (path +:+ "." +:+ k) ps v = [] /\
      StructuredOutput.numeric_errors (path +:+ "." +:+ k) ps v = []).
    { assert (Hsplit : exists nested array,
                StructuredOutput.enum_errors (path +:+ "." +:+ k) ps v
                ++ StructuredOutput.type_errors (path +:+ "." +:+ k) ps v
                ++ nested ++ array
                ++ StructuredOutput.string_errors re_match str_len
                     (path +:+ "." +:+ k) ps v
                ++ StructuredOutput.numeric_errors (path +:+ "." +:+ k) ps v = [] /\
                (forall d', v = Json.JDict d' ->
                   StructuredOutput.type_is ps "object" = true ->
                   nested = StructuredOutput.validate_against_schema re_match
                              str_len v ps (path +:+ "." +:+ k)) /\
                (forall items items_schema, v = Json.JList items ->
                   StructuredOutput.type_is ps "array" = true ->
                   StructuredOutput.s_items ps = Some items_schema ->
                   array = [] ->
                   forall item, In item items ->
                     StructuredOutput.item_conforms re_match str_len
                       items_schema item)).
      { destruct v; try (exfalso; apply Hnull; reflexivity);
          (eexists; eexists; split; [exact Hhead|]);
          (split; [intros d' E Ht; try discriminate E
                  |intros items items_schema E Ht Hi Harr; try discriminate E]).
        - injection E as <-. rewrite Hi, Ht in Harr. clear Hhead Hv Hnull.
          revert Harr. generalize 0 as idx.
          induction Hitems as [|item more Hitem _ IHm]; intros idx Harr it Hit;
            [inversion Hit|].
          apply app_eq_nil in Harr as [H1 Harr].
          apply app_eq_nil in Harr as [H2 Harr].
          destruct Hit as [<- | Hit]; [|eapply IHm; eassumption].
          clear IHm Harr. constructor.
          + intros Hto Hd. destruct item; try discriminate Hd.
            apply type_is_spec in Hto. rewrite Hto in H1.
            exact (Hitem _ _ H1).
          + intros Hn. eapply item_type_errors_nil.
            destruct item; try exact H1.
            destruct (StructuredOutput.type_is items_schema "object") eqn:Eo;
              [|exact H1].
            exfalso. apply Hn. split; [now apply type_is_spec | reflexivity].
          + eapply item_enum_errors_nil. exact H2.
        - rewrite Ht. reflexivity. }
      destruct Hsplit as (nested & array & Happ & Hnested & Harray).
      apply app_eq_nil in Happ as [He Happ]. apply app_eq_nil in Happ as [Ht Happ].
      apply app_eq_nil in Happ as [Hn Happ]. apply app_eq_nil in Happ as [Ha Happ].
      apply app_eq_nil in Happ as [Hs Hnum].
      split; [exact He|]. split; [exact Ht|]. split; [|split; [|split; assumption]].
      - intros Hto Hd. destruct v; try discriminate Hd.
        apply type_is_spec in Hto.
        apply (Hv ps (path +:+ "." +:+ k)).
        rewrite <- (Hnested _ eq_refl Hto). exact Hn.
      - intros items items_schema E Hta Hi.
        apply type_is_spec in Hta. exact (Harray _ _ E Hta Hi Ha). }
    destruct Hall as (He & Ht & Hn & Ha & Hs & Hnum).
    apply StructuredOutput.conforms_value;
      [exact Hnull | eapply type_errors_nil; exact Ht
      | eapply enum_errors_nil; exact He
      | eapply string_errors_nil; exact Hs
      | eapply numeric_errors_nil; exact Hnum | exact Hn | exact Ha].
Qed.

(** Zero validation errors mean conformance at every depth. *)
Lemma validate_nil_conforms data schema path :
  StructuredOutput.validate_against_schema re_match str_len data schema path = [] ->
  StructuredOutput.conforms re_match str_len data schema.
Proof.
  revert schema path. change (StructuredOutput.nil_conforms re_match str_len data).
  assert (G : StructuredOutput.nil_conforms re_match str_len data /\
              match data with
              | Json.JList l => Forall (StructuredOutput.nil_conforms re_match str_len) l
              | _ => True
              end); [|exact (proj1 G)].
  induction data as [ | b | z | f | s | l IH | d IH] using json_nested_ind;
    try (split; [|exact I]; intros schema path H; discriminate H).
  - split.
    + intros schema path H. discriminate H.
    + eapply Forall_impl; [exact IH|]. intros item H. exact (proj1 H).
  - split; [|exact I]. apply validate_nil_step.
    eapply Forall_impl; [exact IH|]. intros kv Hkv. exact Hkv.
Qed.

End ValidationFacts.

Section MicroloopFacts.
Variable json_loads : string -> StructuredOutput.Loads.
Variable re_match : string -> string -> bool.
Variable str_len : string -> Z.
Variable build_reprompt :
  string -> StructuredOutput.Schema -> list StructuredOutput.ValidationError ->
  string -> string.
Context {World : Type}.
Variable query_fn : World -> string -> World * StructuredOutput.QueryOutcome.

Lemma attempts_from_validated remaining :
  forall attempt max_attempts prompt schema w current_prompt result,
    StructuredOutput.success result = false ->
    StructuredOutput.validated re_match str_len schema
      (snd (StructuredOutput.attempts_from json_loads re_match str_len build_reprompt
              query_fn remaining attempt max_attempts prompt schema w
              current_prompt result)).
Proof.
  induction remaining as [|n IH]; intros attempt mx prompt schema w cp result Hs.
  - simpl. intros E. congruence.
  - simpl. destruct (query_fn w cp) as [w' [response | e]].
    + pose proof (extract_json_shape json_loads response) as Hshape.
      destruct (StructuredOutput.extract_json_from_text json_loads response)
        as [[d|] perr].
      * destruct (StructuredOutput.validate_against_schema re_match str_len d schema "$")
          as [|err errs] eqn:Ev.
        -- simpl. intros _. destruct perr; [contradiction|].
           simpl in Hshape. destruct d; try discriminate.
           eexists. repeat split. exact Ev.
        -- apply IH. exact Hs.
      * apply IH. exact Hs.
    + apply IH. exact Hs.
Qed.

(** C6: if the result of [extract_with_microloop] has [success] true, then
    its [data] is not [None]: it is a JSON object on which
    [validate_against_schema] reports zero errors, the result's error list is
    empty, and the object conforms to the schema at every depth: every
    required field is present; each field the schema describes has the
    declared type, is in the enum, and meets the string and numeric
    constraints (or is null where null is allowed); an object under a
    property of type "object" conforms in turn, and so does every item of an
    array whose property gives an items schema.  This holds whatever
    [re.match] and [len] answer, and whatever the model replies. *)
Theorem extract_with_microloop_success
    (prompt : string) (schema : StructuredOutput.Schema) (max_attempts : Z)
    (w : World) :
  let r := snd (StructuredOutput.extract_with_microloop json_loads re_match str_len
                  build_reprompt query_fn prompt schema max_attempts w) in
  StructuredOutput.success r = true ->
  exists fields,
    StructuredOutput.data r = Some (Json.JDict fields) /\
    StructuredOutput.validate_against_schema re_match str_len (Json.JDict fields) schema "$"
    = [] /\
    StructuredOutput.errors r = [] /\
    StructuredOutput.conforms re_match str_len (Json.JDict fields) schema.
Proof.
  intros r Hs.
  destruct (attempts_from_validated (Z.to_nat max_attempts) 0 max_attempts prompt
              schema w prompt
              {| StructuredOutput.success := false; StructuredOutput.data := None;
                 StructuredOutput.errors := []; StructuredOutput.attempts := 0;
                 StructuredOutput.raw_responses := [] |} eq_refl Hs)
    as (fields & Hd & Hv & He).
  exists fields. split; [exact Hd|]. split; [exact Hv|]. split; [exact He|].
  eapply validate_nil_conforms. exact Hv.
Qed.

End MicroloopFacts.

(** Numbers are compared by value: an int and a float exactly, also beyond
    2^53, and a nan with nothing. *)
Example numbers_compare_by_value :
  let big := 9007199254740992%float in
  Json.num_ltb (Json.NFloat big) (Json.NInt (2 ^ 53 + 1)) = true /\
  Json.num_eqb (Json.NInt (2 ^ 53 + 1)) (Json.NFloat big) = false /\
  Json.num_eqb (Json.NInt (2 ^ 53)) (Json.NFloat big) = true /\
  Json.num_ltb (Json.NInt 1) (Json.NFloat 1.5%float) = true /\
  Json.num_ltb (Json.NInt (2 ^ 70)) (Json.NFloat infinity) = true /\
  Json.num_leb (Json.NInt 1) (Json.NFloat nan) = false /\
  Json.py_eqb (Json.JBool true) (Json.JFloat 1%float) = true.
Proof. repeat split; vm_compute; reflexivity. Qed.

(** A run of three attempts on ASCII replies, where [Py.len] is [len]. *)
Lemma extract_with_microloop_success_witness :
  let r := snd (StructuredOutput.extract_with_microloop JsonText.loads any_pattern Py.len
                  same_prompt scripted_model "Assess the change." step_result_schema
                  3 0%nat) in
  StructuredOutput.success r = true /\
  StructuredOutput.attempts r = 3 /\
  exists fields,
    StructuredOutput.data r = Some (Json.JDict fields) /\
    StructuredOutput.validate_against_schema any_pattern Py.len (Json.JDict fields)
      step_result_schema "$" = [] /\
    StructuredOutput.errors r = [] /\
    StructuredOutput.conforms any_pattern Py.len (Json.JDict fields)
      step_result_schema.
Proof.
  intros r.
  assert (Hs : StructuredOutput.success r = true) by (vm_compute; reflexivity).
  split; [exact Hs|]. split; [vm_compute; reflexivity|].
  exact (extract_with_microloop_success JsonText.loads any_pattern Py.len same_prompt
           scripted_model "Assess the change." step_result_schema 3 0%nat Hs).
Defined.

(** ** Microloop termination wrapper and exit reasons *)

#[local] Set Warnings "-inexact-float".

Section TerminationFacts.
Variable upper lower : string -> string.

Lemma should_exit_reason_cases st :
  RoutingHelpers.should_exit_microloop upper lower st = (true, "status_verified") /\
    RoutingHelpers.is_status_success upper st = true \/
  RoutingHelpers.should_exit_microloop upper lower st = (true, "max_iterations_reached") /\
    RoutingHelpers.is_status_success upper st = false /\
    RoutingHelpers.max_iterations st <= RoutingHelpers.current_iteration st \/
  RoutingHelpers.should_exit_microloop upper lower st = (true, "no_further_help") /\
    RoutingHelpers.is_status_success upper st = false /\
    RoutingHelpers.current_iteration st < RoutingHelpers.max_iterations st /\
    RoutingHelpers.can_help lower st = false \/
  RoutingHelpers.should_exit_microloop upper lower st = (false, "") /\
    RoutingHelpers.is_status_success upper st = false /\
    RoutingHelpers.current_iteration st < RoutingHelpers.max_iterations st /\
    RoutingHelpers.can_help lower st = true.
Proof.
  unfold RoutingHelpers.should_exit_microloop, RoutingHelpers.is_at_max_iterations.
  destruct (RoutingHelpers.is_status_success upper st); [left; split; reflexivity|].
  destruct (Z.leb_spec (RoutingHelpers.max_iterations st)
              (RoutingHelpers.current_iteration st)).
  - right; left. repeat split; assumption.
  - destruct (RoutingHelpers.can_help lower st); simpl.
    + right; right; right. repeat split; assumption.
    + right; right; left. repeat split; assumption.
Qed.

(** The state [check_microloop_termination] builds once the status is known
    to be a string (or falsy, which counts as the empty string). *)
Lemma check_termination_returned handoff config iteration r :
  MicroloopTermination.check_microloop_termination upper lower handoff config iteration
  = MicroloopTermination.Returned r ->
  exists st,
    RoutingHelpers.current_iteration st = iteration /\
    RoutingHelpers.max_iterations st
    = default 3 (MicroloopTermination.max_iterations config) /\
    r = (if fst (RoutingHelpers.should_exit_microloop upper lower st)
         then Some (snd (RoutingHelpers.should_exit_microloop upper lower st)) else None).
Proof.
  unfold MicroloopTermination.check_microloop_termination.
  destruct (default (Json.JStr "") _) as [|b|z|f|s|l|d];
    try (destruct (Json.truthy _); [discriminate|]);
    match goal with
    | |- context [RoutingHelpers.should_exit_microloop upper lower ?st] =>
        destruct (RoutingHelpers.should_exit_microloop upper lower st) as [e rs] eqn:E;
        intros [= <-]; exists st; rewrite E; repeat split
    end.
Qed.

(** X1: whenever [check_microloop_termination] returns (it raises only for a
    status that is truthy and not a string, and returns for every handoff
    whose status is absent, a string, or falsy), its result is [None] or one
    of the three reason codes; it is never [None] once the iteration count
    has reached [max_iterations] (3 when the configuration has none), and it
    is "max_iterations_reached" only then. *)
Theorem check_microloop_termination_fuse
    (handoff : list (string * Json.json))
    (config : MicroloopTermination.RoutingConfig) (iteration : Z) :
  let mx := default 3 (MicroloopTermination.max_iterations config) in
  let field := default "status" (MicroloopTermination.loop_condition_field config) in
  ((Json.get field handoff = None \/
    (exists s, Json.get field handoff = Some (Json.JStr s)) \/
    (exists v, Json.get field handoff = Some v /\ Json.truthy v = false)) ->
   exists r,
     MicroloopTermination.check_microloop_termination upper lower handoff config iteration
     = MicroloopTermination.Returned r) /\
  (forall r,
     MicroloopTermination.check_microloop_termination upper lower handoff config iteration
     = MicroloopTermination.Returned r ->
     (r = None \/ r = Some "status_verified" \/
      r = Some "max_iterations_reached" \/ r = Some "no_further_help") /\
     (mx <= iteration -> r <> None) /\
     (r = Some "max_iterations_reached" -> mx <= iteration) /\
     (r = None -> iteration < mx)).
Proof.
  intros mx field. split.
  - intros H. unfold MicroloopTermination.check_microloop_termination. fold field.
    destruct H as [-> | [[s ->] | [v [-> Hv]]]]; simpl.
    + destruct (RoutingHelpers.should_exit_microloop upper lower _); eexists; reflexivity.
    + destruct (RoutingHelpers.should_exit_microloop upper lower _); eexists; reflexivity.
    + destruct v; try rewrite Hv;
        destruct (RoutingHelpers.should_exit_microloop upper lower _);
          eexists; reflexivity.
  - intros r H. apply check_termination_returned in H as (st & Hi & Hm & ->).
    fold mx in Hm.
    destruct (should_exit_reason_cases st)
      as [[-> _] | [[-> [_ L]] | [[-> [_ [L _]]] | [-> [_ [L _]]]]]]; simpl;
      try rewrite Hi, Hm in L;
      (split; [tauto|]); repeat split; intros; try congruence; try lia.
Qed.

(** X2: the three exit-reason tables cover every reason the exit predicate
    can produce.  For every microloop state, the reason returned by
    [should_exit_microloop] is rendered by [exit_reason_to_human_readable]
    through its table (never through the "Unknown exit reason" fallback), is
    mapped by [exit_reason_to_confidence] to 1.0, 0.8 or 0.7 (never to the
    fallback 0.5), and needs human review exactly when the loop exits for a
    reason other than a successful status. *)
Theorem exit_reason_tables_cover_predicate (st : RoutingHelpers.MicroloopState) :
  let should_exit := fst (RoutingHelpers.should_exit_microloop upper lower st) in
  let reason := snd (RoutingHelpers.should_exit_microloop upper lower st) in
  In (MicroloopTermination.exit_reason_to_human_readable reason)
     ["Status is VERIFIED"; "Maximum iterations reached";
      "Critic indicated no further iteration can help"; ""] /\
  In (MicroloopTermination.exit_reason_to_confidence reason)
     [1.0%float; 0.8%float; 0.7%float] /\
  MicroloopTermination.exit_reason_needs_human_review reason
  = (should_exit && negb (RoutingHelpers.is_status_success upper st))%bool /\
  (MicroloopTermination.exit_reason_to_confidence reason = 1.0%float <->
   MicroloopTermination.exit_reason_needs_human_review reason = false).
Proof.
  intros should_exit reason. subst should_exit reason.
  destruct (should_exit_reason_cases st)
    as [[-> E] | [[-> [E _]] | [[-> [E _]] | [-> [E _]]]]]; rewrite E; simpl;
    (split; [tauto|]); (split; [tauto|]);
    (split; [reflexivity|]); vm_compute; split; congruence.
Qed.

(** X3: the exit decision is monotone in the iteration count.  If the
    predicate exits at some iteration, it exits at every later iteration of
    the same state, and from [max_iterations] on it exits whatever the status
    and the critic's guidance are. *)
Theorem should_exit_monotone (st : RoutingHelpers.MicroloopState) (j : Z) :
  (RoutingHelpers.current_iteration st <= j ->
   fst (RoutingHelpers.should_exit_microloop upper lower st) = true ->
   fst (RoutingHelpers.should_exit_microloop upper lower
          (MicroloopTermination.at_iteration j st)) = true) /\
  (RoutingHelpers.max_iterations st <= j ->
   fst (RoutingHelpers.should_exit_microloop upper lower
          (MicroloopTermination.at_iteration j st)) = true).
Proof.
  assert (Hs : RoutingHelpers.is_status_success upper (MicroloopTermination.at_iteration j st)
               = RoutingHelpers.is_status_success upper st) by reflexivity.
  assert (Hc : RoutingHelpers.can_help lower (MicroloopTermination.at_iteration j st)
               = RoutingHelpers.can_help lower st) by reflexivity.
  assert (Hfuse : RoutingHelpers.max_iterations st <= j ->
            fst (RoutingHelpers.should_exit_microloop upper lower
                   (MicroloopTermination.at_iteration j st)) = true).
  { intros L.
    destruct (should_exit_reason_cases (MicroloopTermination.at_iteration j st))
      as [[-> _] | [[-> _] | [[-> _] | [_ [_ [L' _]]]]]]; try reflexivity.
    simpl in L'. lia. }
  split; [|exact Hfuse].
  intros L H.
  destruct (Z.le_gt_cases (RoutingHelpers.max_iterations st) j) as [G | G];
    [now apply Hfuse|].
  destruct (should_exit_reason_cases st)
    as [[E S] | [[E [_ M]] | [[E [S [_ C]]] | [E _]]]]; rewrite E in H; simpl in H.
  - unfold RoutingHelpers.should_exit_microloop. now rewrite Hs, S.
  - lia.
  - unfold RoutingHelpers.should_exit_microloop. rewrite Hs, S, Hc, C.
    destruct (RoutingHelpers.is_at_max_iterations _); reflexivity.
  - discriminate.
Qed.

End TerminationFacts.

Lemma check_microloop_termination_fuse_witness :
  MicroloopTermination.check_microloop_termination Py.upper Py.lower
    [("status", Json.JStr "unverified")]
    {| MicroloopTermination.max_iterations := None;
       MicroloopTermination.loop_success_values := None;
       MicroloopTermination.loop_condition_field := None |} 3
  = MicroloopTermination.Returned (Some "max_iterations_reached").
Proof.
  pose (h := [("status", Json.JStr "unverified")]).
  pose (c := {| MicroloopTermination.max_iterations := None;
                MicroloopTermination.loop_success_values := None;
                MicroloopTermination.loop_condition_field := None |}).
  destruct (check_microloop_termination_fuse Py.upper Py.lower h c 3) as [H1 H2].
  destruct H1 as [r Hr].
  { right; left. exists "unverified". reflexivity. }
  destruct (H2 r Hr) as (_ & Hn & _ & _).
  assert (Hr' := Hr). vm_compute in Hr'. injection Hr' as <-. exact Hr.
Defined.

Lemma should_exit_monotone_witness :
  fst (RoutingHelpers.should_exit_microloop Py.upper Py.lower
         (MicroloopTermination.at_iteration 4
            (RoutingHelpers.default_state 2 5 "UNVERIFIED"
               (RoutingHelpers.CHStr "no")))) = true /\
  fst (RoutingHelpers.should_exit_microloop Py.upper Py.lower
         (MicroloopTermination.at_iteration 5
            (RoutingHelpers.default_state 2 5 "UNVERIFIED"
               (RoutingHelpers.CHStr "yes")))) = true.
Proof.
  split.
  - apply (proj1 (should_exit_monotone Py.upper Py.lower
                    (RoutingHelpers.default_state 2 5 "UNVERIFIED"
                       (RoutingHelpers.CHStr "no")) 4));
      [simpl; lia | reflexivity].
  - apply (proj2 (should_exit_monotone Py.upper Py.lower
                    (RoutingHelpers.default_state 2 5 "UNVERIFIED"
                       (RoutingHelpers.CHStr "yes")) 5)).
    simpl. lia.
Defined.

(** ** Stall tracking: stall count, recommendations, recording, round trip *)

Lemma count_prefix_eq_bounds x l :
  0 <= ProgressTracker.count_prefix_eq x l <= Z.of_nat (length l).
Proof.
  induction l as [|y l IH]; simpl; [lia|].
  destruct (String.eqb y x); lia.
Qed.

Lemma count_prefix_eq_ge x l (k : nat) :
  Z.of_nat k <= ProgressTracker.count_prefix_eq x l <->
  (k <= length l)%nat /\ Forall (eq x) (take k l).
Proof.
  revert k. induction l as [|y l IH]; intros k.
  - destruct k; simpl.
    + split; [intros _; split; [lia | constructor] | lia].
    + split; [lia | intros [H _]; lia].
  - destruct k as [|k].
    { pose proof (count_prefix_eq_bounds x (y :: l)).
      split; [intros _; split; [simpl; lia | constructor] | simpl (Z.of_nat 0); lia]. }
    simpl. destruct (String.eqb_spec y x) as [-> | N].
    + assert (E : Z.pos (Pos.of_succ_nat k) <= 1 + ProgressTracker.count_prefix_eq x l
                  <-> Z.of_nat k <= ProgressTracker.count_prefix_eq x l) by lia.
      rewrite E, IH. split; intros [H1 H2]; split; try lia.
      * constructor; [reflexivity | exact H2].
      * now inversion H2.
    + split; [lia|]. intros [_ H]. inversion H; subst. congruence.
Qed.

Lemma all_equal_last (h : list string) (x : string) (k : nat) :
  last h = Some x -> (1 <= k <= length h)%nat ->
  ProgressTracker.all_equal (PySeq.lastn k h) <-> Forall (eq x) (PySeq.lastn k h).
Proof.
  intros Hl Hk.
  assert (Hin : In x (PySeq.lastn k h)).
  { apply last_Some in Hl as [h' ->]. unfold PySeq.lastn.
    rewrite length_app in *. simpl in *.
    rewrite drop_app_le by lia. apply in_or_app. right. left. reflexivity. }
  unfold ProgressTracker.all_equal. rewrite List.Forall_forall. split.
  - intros H y Hy. now apply H.
  - intros H a b Ha Hb. rewrite <- (H a Ha), <- (H b Hb). reflexivity.
Qed.

Lemma stall_count_bounds (tr : ProgressTracker.ProgressTracker) :
  0 <= ProgressTracker.get_stall_count tr
  <= Z.of_nat (length (ProgressTracker.error_signatures tr)) /\
  (ProgressTracker.get_stall_count tr = 0 <-> ProgressTracker.error_signatures tr = []).
Proof.
  unfold ProgressTracker.get_stall_count.
  set (h := ProgressTracker.error_signatures tr).
  destruct (reverse h) as [|x r] eqn:Er.
  - assert (Eh : h = []).
    { apply (f_equal reverse) in Er. now rewrite reverse_involutive in Er. }
    split; [simpl; lia | tauto].
  - assert (Hlen : length h = S (length r)).
    { rewrite <- length_reverse, Er. reflexivity. }
    pose proof (count_prefix_eq_bounds x (x :: r)) as Hb.
    assert (H1 : 1 <= ProgressTracker.count_prefix_eq x (x :: r)).
    { simpl. rewrite String.eqb_refl. pose proof (count_prefix_eq_bounds x r). lia. }
    split.
    + simpl length in Hb. rewrite Hlen. lia.
    + split; [lia|]. intros Eh. rewrite Eh in Hlen. discriminate.
Qed.

Lemma stalled_iff_count_ge (tr : ProgressTracker.ProgressTracker) :
  1 <= ProgressTracker.stall_threshold tr ->
  ProgressTracker.is_stalled tr = true <->
  ProgressTracker.stall_threshold tr <= ProgressTracker.get_stall_count tr.
Proof.
  intros Ht. unfold ProgressTracker.get_stall_count.
  set (h := ProgressTracker.error_signatures tr).
  destruct (reverse h) as [|x r] eqn:Er.
  - assert (Eh : h = []).
    { apply (f_equal reverse) in Er. now rewrite reverse_involutive in Er. }
    unfold ProgressTracker.is_stalled. fold h. rewrite Eh.
    change (Z.of_nat (length (@nil string))) with 0.
    destruct (Z.ltb_spec 0 (ProgressTracker.stall_threshold tr)); [|lia].
    split; [discriminate | lia].
  - assert (Hlen : length h = S (length r)).
    { rewrite <- length_reverse, Er. reflexivity. }
    assert (Hlast : last h = Some x).
    { rewrite <- head_reverse, Er. reflexivity. }
    set (t := Z.to_nat (ProgressTracker.stall_threshold tr)).
    assert (Et : ProgressTracker.stall_threshold tr = Z.of_nat t) by (subst t; lia).
    assert (Hc : ProgressTracker.stall_threshold tr
                 <= ProgressTracker.count_prefix_eq x (x :: r)
                 <-> (t <= length h)%nat /\ Forall (eq x) (take t (reverse h))).
    { rewrite Et at 1. rewrite count_prefix_eq_ge, <- Er, length_reverse.
      reflexivity. }
    rewrite Hc. clear Hc.
    unfold ProgressTracker.is_stalled. fold h.
    destruct (Z.ltb_spec (Z.of_nat (length h)) (ProgressTracker.stall_threshold tr))
      as [Hlt | Hge].
    + split; [discriminate | intros [Hle _]; lia].
    + rewrite slice_from_lastn by lia. fold t.
      unfold PySeq.len_set. rewrite Z.eqb_eq.
      change 1 with (Z.of_nat 1). rewrite Nat2Z.inj_iff.
      rewrite remove_dups_all_equal.
      rewrite (all_equal_last h x t Hlast) by lia.
      rewrite take_reverse. fold (PySeq.lastn t h).
      rewrite Forall_reverse.
      split; [intros [_ H]; split; [lia | exact H]|].
      intros [_ H]. split; [apply lastn_nonempty; lia | exact H].
Qed.

(** X4: [get_stall_count] and [is_stalled] agree.  For a tracker whose
    threshold is at least 1, [is_stalled] is true exactly when the count of
    consecutive identical signatures at the end of the history has reached
    the threshold; the count is never negative, never exceeds the number of
    recorded iterations, and is zero only for an empty history. *)
Theorem stalled_iff_stall_count (tr : ProgressTracker.ProgressTracker) :
  let h := ProgressTracker.error_signatures tr in
  (1 <= ProgressTracker.stall_threshold tr ->
   (ProgressTracker.is_stalled tr = true <->
    ProgressTracker.stall_threshold tr <= ProgressTracker.get_stall_count tr)) /\
  0 <= ProgressTracker.get_stall_count tr <= Z.of_nat (length h) /\
  (ProgressTracker.get_stall_count tr = 0 <-> h = []).
Proof.
  intros h. split; [apply stalled_iff_count_ge | apply stall_count_bounds].
Qed.

Lemma stalled_iff_stall_count_witness :
  let tr := {| ProgressTracker.error_signatures := ["a"; "b"; "b"; "b"];
               ProgressTracker.stall_threshold := 3 |} in
  ProgressTracker.is_stalled tr = true /\ ProgressTracker.get_stall_count tr = 3.
Proof.
  intros tr. split; [|reflexivity].
  apply (proj1 (stalled_iff_stall_count tr)); [simpl; lia|].
  vm_compute. discriminate.
Defined.

Lemma get_velocity_defined (tr : ProgressTracker.ProgressTracker) :
  1 <= ProgressTracker.stall_threshold tr ->
  exists v, ProgressTracker.get_velocity tr = Some v.
Proof.
  intros Ht. unfold ProgressTracker.get_velocity.
  set (h := ProgressTracker.error_signatures tr).
  destruct (Z.ltb_spec (Z.of_nat (length h)) 2); [eexists; reflexivity|].
  set (w := Z.min (Z.of_nat (length h)) (ProgressTracker.stall_threshold tr)).
  rewrite slice_from_lastn by (subst w; lia).
  rewrite lastn_length by (subst w; lia).
  unfold PyNum.truediv. rewrite Z2Nat.id by (subst w; lia).
  destruct (Z.eqb_spec w 0); [subst w; lia | eexists; reflexivity].
Qed.

Section TrackerFacts.
Context {datetime : Type}.
Variable sha256_hex : string -> string.
Variable noise_sub : string -> string.

(** X5: a sidequest is suggested exactly when the tracker is stalled.  For a
    tracker with threshold at least 1, [get_stall_info] always returns (the
    velocity never divides by zero); its recommendation is "continue" when
    the tracker is not stalled, "escalate" when it is stalled and the stall
    count has reached twice the threshold, and "investigate" otherwise; and
    [should_suggest_sidequest] answers with [is_stalled] itself, so its last
    branch ("No sidequest needed") is never taken. *)
Theorem sidequest_suggested_iff_stalled (tracker : @StallTracking.Tracker datetime) :
  1 <= ProgressTracker.stall_threshold (StallTracking.signatures tracker) ->
  let tr := StallTracking.signatures tracker in
  exists info msg,
    StallTracking.get_stall_info tracker = Some info /\
    StallTracking.should_suggest_sidequest tracker
    = Some (ProgressTracker.is_stalled tr, msg) /\
    msg <> "No sidequest needed" /\
    StallTracking.recommendation info =
      (if negb (ProgressTracker.is_stalled tr) then "continue"
       else if 2 * ProgressTracker.stall_threshold tr
               <=? ProgressTracker.get_stall_count tr
            then "escalate" else "investigate") /\
    (StallTracking.recommendation info = "continue" <->
     ProgressTracker.get_stall_count tr < ProgressTracker.stall_threshold tr).
Proof.
  intros Ht tr.
  destruct (get_velocity_defined tr Ht) as [v Hv].
  unfold StallTracking.should_suggest_sidequest, StallTracking.get_stall_info.
  fold tr. rewrite Hv.
  pose proof (stalled_iff_count_ge tr Ht) as Hs.
  replace (ProgressTracker.stall_threshold tr * 2)
    with (2 * ProgressTracker.stall_threshold tr) by lia.
  destruct (ProgressTracker.is_stalled tr) eqn:Es; simpl.
  - assert (Hge : ProgressTracker.stall_threshold tr
                  <= ProgressTracker.get_stall_count tr) by (apply Hs; reflexivity).
    destruct (2 * ProgressTracker.stall_threshold tr
              <=? ProgressTracker.get_stall_count tr); simpl;
      eexists; eexists; (split; [reflexivity|]); simpl;
      (split; [reflexivity|]); (split; [discriminate|]);
      (split; [reflexivity|]); split; [discriminate | lia | discriminate | lia].
  - eexists; eexists. split; [reflexivity|]. simpl.
    split; [reflexivity|]. split; [discriminate|]. split; [reflexivity|].
    split; [intros _|reflexivity].
    destruct (Z.lt_ge_cases (ProgressTracker.get_stall_count tr)
                (ProgressTracker.stall_threshold tr)) as [L | G]; [exact L|].
    apply Hs in G. discriminate.
Qed.

Lemma index_from_end {A} (k : Z) (l : list A) :
  1 <= k <= Z.of_nat (length l) ->
  StallTracking.index (- k) l = l !! (length l - Z.to_nat k)%nat /\
  exists x, StallTracking.index (- k) l = Some x.
Proof.
  intros H. unfold StallTracking.index.
  destruct (Z.ltb_spec (- k) 0); [|lia].
  destruct (Z.leb_spec 0 (Z.of_nat (length l) + - k)); [|lia].
  replace (Z.to_nat (Z.of_nat (length l) + - k)) with (length l - Z.to_nat k)%nat by lia.
  split; [reflexivity|]. apply lookup_lt_is_Some_2. lia.
Qed.

(** X6: [record_iteration] keeps the stall start in step with the stall.
    On a tracker with threshold at least 1 whose lists are aligned (as they
    are when it was only changed through its methods), [record_iteration]
    never raises, appends exactly one signature and keeps the lists aligned;
    afterwards [_stall_started_at] is [None] when the tracker is not stalled,
    and when it is stalled it is the value it had before or, if it had none,
    the timestamp of the first iteration of the current run of identical
    signatures. *)
Theorem record_iteration_tracks_stall (error_output : string) (now : datetime)
    (self : @StallTracking.Tracker datetime) :
  1 <= ProgressTracker.stall_threshold (StallTracking.signatures self) ->
  StallTracking.aligned self ->
  exists self',
    StallTracking.record_iteration sha256_hex noise_sub error_output now self
    = Some self' /\
    StallTracking.aligned self' /\
    ProgressTracker.error_signatures (StallTracking.signatures self')
    = ProgressTracker.error_signatures (StallTracking.signatures self)
      ++ [StallTracking.compute_error_signature sha256_hex noise_sub error_output] /\
    StallTracking._timestamps self' = StallTracking._timestamps self ++ [now] /\
    (ProgressTracker.is_stalled (StallTracking.signatures self') = false ->
     StallTracking._stall_started_at self' = None) /\
    (ProgressTracker.is_stalled (StallTracking.signatures self') = true ->
     exists t,
       StallTracking._stall_started_at self' = Some t /\
       match StallTracking._stall_started_at self with
       | Some t0 => t = t0
       | None =>
           StallTracking._timestamps self'
           !! (length (StallTracking._timestamps self')
               - Z.to_nat (ProgressTracker.get_stall_count
                             (StallTracking.signatures self')))%nat
           = Some t
       end).
Proof.
  intros Ht [Ha1 Ha2]. unfold StallTracking.record_iteration.
  set (sig := StallTracking.compute_error_signature sha256_hex noise_sub error_output).
  set (s1 := StallTracking.appended sig now
               (StallTracking.extract_error_category error_output) self).
  assert (Hal : StallTracking.aligned s1).
  { split; simpl; rewrite !length_app; simpl; lia. }
  assert (Hth : 1 <= ProgressTracker.stall_threshold (StallTracking.signatures s1))
    by exact Ht.
  pose proof (stalled_iff_count_ge _ Hth) as Hs.
  pose proof (stall_count_bounds (StallTracking.signatures s1)) as [Hb _].
  destruct (ProgressTracker.is_stalled (StallTracking.signatures s1)) eqn:Es.
  - assert (Hge : ProgressTracker.stall_threshold (StallTracking.signatures s1)
                  <= ProgressTracker.get_stall_count (StallTracking.signatures s1))
      by (apply Hs; reflexivity).
    change (StallTracking._stall_started_at s1)
      with (StallTracking._stall_started_at self).
    destruct (StallTracking._stall_started_at self) as [t0|] eqn:E0.
    + simpl. exists s1. rewrite Es. repeat split; try apply Hal.
      * discriminate.
      * intros _. exists t0. split; [exact E0 | reflexivity].
    + destruct Hal as [Hl1 Hl2].
      destruct (Z.leb_spec (ProgressTracker.stall_threshold (StallTracking.signatures s1))
                  (ProgressTracker.get_stall_count (StallTracking.signatures s1)));
        [|lia].
      destruct (Z.leb_spec (ProgressTracker.get_stall_count (StallTracking.signatures s1))
                  (Z.of_nat (length (StallTracking._timestamps s1)))); [|lia].
      simpl andb. cbv iota.
      destruct (index_from_end
                  (ProgressTracker.get_stall_count (StallTracking.signatures s1))
                  (StallTracking._timestamps s1)) as [Ei [t Et]]; [lia|].
      rewrite Et. exists (StallTracking.with_stall_started_at (Some t) s1).
      split; [reflexivity|]. split; [exact (conj Hl1 Hl2)|].
      split; [reflexivity|]. split; [reflexivity|].
      change (ProgressTracker.is_stalled
                (StallTracking.signatures
                   (StallTracking.with_stall_started_at (Some t) s1)))
        with (ProgressTracker.is_stalled (StallTracking.signatures s1)).
      rewrite Es. split; [discriminate|].
      intros _. exists t. split; [reflexivity|].
      change (StallTracking._timestamps
                (StallTracking.with_stall_started_at (Some t) s1))
        with (StallTracking._timestamps s1).
      change (StallTracking.signatures
                (StallTracking.with_stall_started_at (Some t) s1))
        with (StallTracking.signatures s1).
      rewrite <- Ei. exact Et.
  - simpl negb. cbv iota.
    exists (StallTracking.with_stall_started_at None s1).
    split; [reflexivity|]. split; [exact Hal|].
    split; [reflexivity|]. split; [reflexivity|].
    change (ProgressTracker.is_stalled
              (StallTracking.signatures
                 (StallTracking.with_stall_started_at None s1)))
      with (ProgressTracker.is_stalled (StallTracking.signatures s1)).
    rewrite Es. split; [reflexivity | discriminate].
Qed.

Lemma count_prefix_eq_replicate x (n : nat) l :
  ProgressTracker.count_prefix_eq x (replicate n x ++ l)
  = Z.of_nat n + ProgressTracker.count_prefix_eq x l.
Proof.
  induction n as [|n IH]; [reflexivity|].
  cbn [replicate app ProgressTracker.count_prefix_eq].
  rewrite String.eqb_refl, IH. lia.
Qed.

Lemma record_successes_signatures nows (self : @StallTracking.Tracker datetime) :
  ProgressTracker.error_signatures
    (StallTracking.signatures (StallTracking.record_successes sha256_hex nows self))
  = ProgressTracker.error_signatures (StallTracking.signatures self)
    ++ replicate (length nows) (StallTracking.success_signature sha256_hex) /\
  ProgressTracker.stall_threshold
    (StallTracking.signatures (StallTracking.record_successes sha256_hex nows self))
  = ProgressTracker.stall_threshold (StallTracking.signatures self).
Proof.
  revert self. induction nows as [|n nows IH]; intros self.
  - simpl. now rewrite app_nil_r.
  - unfold StallTracking.record_successes in *. simpl fold_left.
    destruct (IH (StallTracking.record_success sha256_hex n self)) as [E1 E2].
    rewrite E1, E2. simpl. split; [now rewrite <- app_assoc | reflexivity].
Qed.

(** X7: what [record_success] does to a stall.  On a tracker with threshold
    at least 2 whose last signature is not the success signature, recording
    a success leaves the tracker not stalled; but successes are signatures
    like any other, so after as many consecutive [record_success] calls as
    the threshold, [is_stalled] is true. *)
Theorem record_success_and_stall (self : @StallTracking.Tracker datetime)
    (now : datetime) (nows : list datetime) :
  let tr := StallTracking.signatures self in
  let succ := StallTracking.success_signature sha256_hex in
  (2 <= ProgressTracker.stall_threshold tr ->
   last (ProgressTracker.error_signatures tr) <> Some succ ->
   ProgressTracker.is_stalled
     (StallTracking.signatures (StallTracking.record_success sha256_hex now self))
   = false) /\
  (1 <= ProgressTracker.stall_threshold tr ->
   ProgressTracker.stall_threshold tr <= Z.of_nat (length nows) ->
   ProgressTracker.is_stalled
     (StallTracking.signatures (StallTracking.record_successes sha256_hex nows self))
   = true).
Proof.
  intros tr succ. split.
  - intros Ht Hl.
    set (tr' := StallTracking.signatures
                  (StallTracking.record_success sha256_hex now self)).
    assert (Hth : 1 <= ProgressTracker.stall_threshold tr') by (simpl; fold tr; lia).
    destruct (ProgressTracker.is_stalled tr') eqn:Es; [|reflexivity].
    apply (stalled_iff_count_ge tr' Hth) in Es.
    assert (Hc : ProgressTracker.get_stall_count tr' = 1).
    { unfold ProgressTracker.get_stall_count. subst tr'. simpl. fold tr succ.
      rewrite reverse_snoc. simpl. rewrite String.eqb_refl.
      destruct (reverse (ProgressTracker.error_signatures tr)) as [|x r] eqn:Er;
        [reflexivity|].
      simpl. destruct (String.eqb_spec x succ) as [-> | _]; [|reflexivity].
      exfalso. apply Hl. rewrite <- head_reverse, Er. reflexivity. }
    change (ProgressTracker.stall_threshold tr')
      with (ProgressTracker.stall_threshold tr) in Es. lia.
  - intros Ht Hn.
    set (tr' := StallTracking.signatures
                  (StallTracking.record_successes sha256_hex nows self)).
    destruct (record_successes_signatures nows self) as [E1 E2].
    fold tr' tr succ in E1, E2.
    apply stalled_iff_count_ge; [lia|].
    unfold ProgressTracker.get_stall_count. rewrite E1, E2.
    rewrite reverse_app, reverse_replicate.
    destruct nows as [|n nows]; [simpl in Hn; lia|].
    cbn [length replicate app].
    change (succ :: replicate (length nows) succ ++ reverse (ProgressTracker.error_signatures tr))
      with (replicate (S (length nows)) succ ++ reverse (ProgressTracker.error_signatures tr)).
    rewrite count_prefix_eq_replicate.
    pose proof (count_prefix_eq_bounds succ (reverse (ProgressTracker.error_signatures tr))).
    simpl length in Hn. lia.
Qed.

End TrackerFacts.

Lemma sidequest_suggested_iff_stalled_witness :
  let tracker : @StallTracking.Tracker Z :=
    {| StallTracking.signatures :=
         {| ProgressTracker.error_signatures := ["a"; "a"; "a"; "a"; "a"; "a"];
            ProgressTracker.stall_threshold := 3 |};
       StallTracking._timestamps := [1; 2; 3; 4; 5; 6];
       StallTracking._categories := ["x"; "x"; "x"; "x"; "x"; "x"];
       StallTracking._stall_started_at := Some 1 |} in
  StallTracking.should_suggest_sidequest tracker
  = Some (true, "Stalled for 6 iterations with same error, escalation recommended").
Proof.
  intros tracker.
  destruct (sidequest_suggested_iff_stalled tracker ltac:(simpl; lia))
    as (info & msg & _ & H & _).
  rewrite H. vm_compute in H. injection H as <-. reflexivity.
Defined.

Lemma record_iteration_tracks_stall_witness :
  let self : @StallTracking.Tracker Z :=
    {| StallTracking.signatures :=
         {| ProgressTracker.error_signatures := ["n"; "e"; "e"];
            ProgressTracker.stall_threshold := 3 |};
       StallTracking._timestamps := [10; 20; 30];
       StallTracking._categories := ["unknown"; "type_error"; "type_error"];
       StallTracking._stall_started_at := None |} in
  exists self',
    StallTracking.record_iteration (fun _ => "e") (fun s => s) "TypeError: x" 40 self
    = Some self' /\
    StallTracking._stall_started_at self' = Some 20.
Proof.
  intros self.
  destruct (record_iteration_tracks_stall (fun _ => "e") (fun s => s)
              "TypeError: x" 40 self ltac:(simpl; lia) ltac:(split; reflexivity))
    as (self' & E & _ & _ & _ & _ & H).
  exists self'. split; [exact E|].
  vm_compute in E. injection E as <-. reflexivity.
Defined.

Lemma record_success_and_stall_witness :
  let self : @StallTracking.Tracker Z :=
    {| StallTracking.signatures :=
         {| ProgressTracker.error_signatures := ["e"; "e"];
            ProgressTracker.stall_threshold := 2 |};
       StallTracking._timestamps := [10; 20];
       StallTracking._categories := ["type_error"; "type_error"];
       StallTracking._stall_started_at := Some 10 |} in
  ProgressTracker.is_stalled (StallTracking.signatures self) = true /\
  ProgressTracker.is_stalled
    (StallTracking.signatures
       (StallTracking.record_success (fun _ => "aee40884") 30 self)) = false /\
  ProgressTracker.is_stalled
    (StallTracking.signatures
       (StallTracking.record_successes (fun _ => "aee40884") [30; 40] self)) = true.
Proof.
  intros self. split; [reflexivity|].
  destruct (record_success_and_stall (fun _ => "aee40884") self 30 [30; 40])
    as [H1 H2].
  split.
  - apply H1; [simpl; lia | vm_compute; discriminate].
  - apply H2; simpl; lia.
Defined.

Section TrackerRoundTrip.
Context {datetime : Type}.
Variable isoformat : datetime -> string.
Variable fromisoformat : string -> option datetime.

Lemma parse_all_isoformat (l : list datetime) :
  (forall d, fromisoformat (isoformat d) = Some d) ->
  StallTracking.parse_all fromisoformat (map isoformat l) = Some l.
Proof.
  intros H. induction l as [|d l IH]; simpl; [reflexivity|].
  now rewrite H, IH.
Qed.

(** X8: [tracker_from_dict] undoes [tracker_to_dict].  Provided
    [fromisoformat] reads back what [isoformat] writes and [isoformat] never
    writes the empty string, deserializing the dictionary of a tracker gives
    the tracker back, internal timestamps, categories and stall start
    included; and a dictionary without any key gives the empty tracker with
    the default threshold 3. *)
Theorem tracker_roundtrip (tracker : @StallTracking.Tracker datetime) :
  (forall d, fromisoformat (isoformat d) = Some d) ->
  (forall d, isoformat d <> "") ->
  StallTracking.tracker_from_dict fromisoformat
    (StallTracking.tracker_to_dict isoformat tracker) = Some tracker /\
  StallTracking.tracker_from_dict fromisoformat
    {| StallTracking.k_error_signatures := None;
       StallTracking.k_stall_threshold := None;
       StallTracking.k_timestamps := None;
       StallTracking.k_categories := None;
       StallTracking.k_stall_started_at := None |}
  = Some (StallTracking.create_tracker 3).
Proof.
  intros Hrt Hne. split; [|reflexivity].
  unfold StallTracking.tracker_from_dict, StallTracking.tracker_to_dict. simpl.
  rewrite parse_all_isoformat by exact Hrt.
  destruct tracker as [[sigs th] ts cats st]. simpl.
  destruct st as [t|]; simpl; [|reflexivity].
  destruct (String.eqb_spec (isoformat t) "") as [E | _]; [now apply Hne in E|].
  now rewrite Hrt.
Qed.

End TrackerRoundTrip.

Lemma tracker_roundtrip_witness :
  let tracker :=
    {| StallTracking.signatures :=
         {| ProgressTracker.error_signatures := ["e"; "e"];
            ProgressTracker.stall_threshold := 2 |};
       StallTracking._timestamps := [StallTracking.Morning; StallTracking.Evening];
       StallTracking._categories := ["type_error"; "type_error"];
       StallTracking._stall_started_at := Some StallTracking.Morning |} in
  StallTracking.tracker_from_dict StallTracking.instant_fromisoformat
    (StallTracking.tracker_to_dict StallTracking.instant_isoformat tracker)
  = Some tracker.
Proof.
  intros tracker.
  apply (tracker_roundtrip StallTracking.instant_isoformat
           StallTracking.instant_fromisoformat tracker).
  - intros []; reflexivity.
  - intros []; discriminate.
Defined.

(** *** Letter case and surrounding whitespace *)

Lemma lower_upper_ascii c : Py.lower_ascii (Py.upper_ascii c) = Py.lower_ascii c.
Proof. destruct c as [[] [] [] [] [] [] [] []]; reflexivity. Qed.

Lemma is_space_lower_ascii c : Py.is_space (Py.lower_ascii c) = Py.is_space c.
Proof. destruct c as [[] [] [] [] [] [] [] []]; reflexivity. Qed.

Lemma lower_upper s : Py.lower (Py.upper s) = Py.lower s.
Proof.
  induction s as [|c s IH]; simpl; [reflexivity|].
  now rewrite lower_upper_ascii, IH.
Qed.

Lemma lower_lower s : Py.lower (Py.lower s) = Py.lower s.
Proof.
  induction s as [|c s IH]; simpl; [reflexivity|]. rewrite IH. f_equal.
  destruct c as [[] [] [] [] [] [] [] []]; reflexivity.
Qed.

Lemma lower_app a b : Py.lower (a +:+ b) = Py.lower a +:+ Py.lower b.
Proof.
  induction a as [|c a IH]; [reflexivity|].
  change (String c a +:+ b) with (String c (a +:+ b)). simpl.
  rewrite IH. reflexivity.
Qed.

Lemma all_space_lower s :
  StallTracking.all_space (Py.lower s) = StallTracking.all_space s.
Proof.
  induction s as [|c s IH]; simpl; [reflexivity|].
  now rewrite is_space_lower_ascii, IH.
Qed.

Lemma lstrip_all_space w s :
  StallTracking.all_space w = true -> Py.lstrip (w +:+ s) = Py.lstrip s.
Proof.
  induction w as [|c w IH]; intros H; [reflexivity|].
  simpl in H. apply andb_prop in H as [Hc Hw].
  change (String c w +:+ s) with (String c (w +:+ s)). simpl.
  rewrite Hc. now apply IH.
Qed.

Lemma lstrip_only_space w :
  StallTracking.all_space w = true -> Py.lstrip w = "".
Proof.
  induction w as [|c w IH]; intros H; [reflexivity|].
  simpl in H. apply andb_prop in H as [Hc Hw]. simpl. rewrite Hc. now apply IH.
Qed.

Lemma rstrip_all_space w :
  StallTracking.all_space w = true -> Py.rstrip w = "".
Proof.
  induction w as [|c w IH]; intros H; [reflexivity|].
  simpl in H. apply andb_prop in H as [Hc Hw].
  simpl. rewrite (IH Hw), Hc. reflexivity.
Qed.

Lemma rstrip_app_all_space s w :
  StallTracking.all_space w = true -> Py.rstrip (s +:+ w) = Py.rstrip s.
Proof.
  intros H. induction s as [|c s IH].
  - simpl. now apply rstrip_all_space.
  - change (String c s +:+ w) with (String c (s +:+ w)). simpl. now rewrite IH.
Qed.

Lemma strip_padding w1 s w2 :
  StallTracking.all_space w1 = true -> StallTracking.all_space w2 = true ->
  Py.strip (w1 +:+ s +:+ w2) = Py.strip s.
Proof.
  intros H1 H2. unfold Py.strip. rewrite lstrip_all_space by exact H1.
  induction s as [|c s IH].
  - change ("" +:+ w2) with w2. now rewrite lstrip_only_space.
  - change (String c s +:+ w2) with (String c (s +:+ w2)). simpl.
    destruct (Py.is_space c); [exact IH|].
    change (String c (s +:+ w2)) with (String c s +:+ w2).
    now apply rstrip_app_all_space.
Qed.

(** X9: on ASCII output, error signatures and categories ignore letter case,
    and signatures ignore surrounding whitespace.  For an error output of
    ASCII characters, whatever the hash and the noise patterns are,
    [compute_error_signature] gives the same signature to the output, to its
    upper-cased form and to either of them padded with ASCII whitespace on
    both sides; [extract_error_category] gives the same category to the
    output and to its upper-cased and lower-cased forms.  (Beyond ASCII the
    case mappings of [str] are not inverse to each other, and the property
    is not claimed.) *)
Theorem error_signature_ignores_case_and_padding
    (sha256_hex noise_sub : string -> string) (error_output pad1 pad2 : string) :
  Py.isascii error_output = true ->
  StallTracking.all_space pad1 = true ->
  StallTracking.all_space pad2 = true ->
  StallTracking.compute_error_signature sha256_hex noise_sub
    (pad1 +:+ Py.upper error_output +:+ pad2)
  = StallTracking.compute_error_signature sha256_hex noise_sub error_output /\
  StallTracking.compute_error_signature sha256_hex noise_sub
    (pad1 +:+ error_output +:+ pad2)
  = StallTracking.compute_error_signature sha256_hex noise_sub error_output /\
  StallTracking.extract_error_category (Py.upper error_output)
  = StallTracking.extract_error_category error_output /\
  StallTracking.extract_error_category (Py.lower error_output)
  = StallTracking.extract_error_category error_output.
Proof.
  intros _ H1 H2.
  assert (Hn : forall e,
             Py.strip (Py.lower (pad1 +:+ e +:+ pad2)) = Py.strip (Py.lower e)).
  { intros e. rewrite !lower_app.
    apply strip_padding; rewrite all_space_lower; assumption. }
  unfold StallTracking.compute_error_signature, StallTracking.normalize_error_output,
    StallTracking.extract_error_category.
  rewrite !Hn, lower_upper, lower_lower. repeat split.
Qed.

Lemma error_signature_ignores_case_and_padding_witness :
  let nl := String (ascii_of_nat 10) EmptyString in
  StallTracking.compute_error_signature (fun s => s) (fun s => s)
    ("  " +:+ Py.upper "TypeError: foo" +:+ nl)
  = StallTracking.compute_error_signature (fun s => s) (fun s => s) "TypeError: foo" /\
  StallTracking.compute_error_signature (fun s => s) (fun s => s) "TypeError: foo"
  = "typeerror: foo" /\
  StallTracking.extract_error_category "TYPEERROR: FOO" = "type_error".
Proof.
  intros nl.
  destruct (error_signature_ignores_case_and_padding (fun s => s) (fun s => s)
              "TypeError: foo" "  " nl eq_refl eq_refl eq_refl) as (H & _ & _ & _).
  split; [exact H|]. split; reflexivity.
Defined.

(** ** Tool calls: truncation, factories, serialization *)

Lemma string_length_app a b :
  String.length (a +:+ b) = (String.length a + String.length b)%nat.
Proof.
  induction a as [|c a IH]; [reflexivity|].
  change (String c a +:+ b) with (String c (a +:+ b)). simpl. now rewrite IH.
Qed.

Lemma string_length_substring_0 n s :
  String.length (String.substring 0 n s) = Nat.min n (String.length s).
Proof.
  revert n. induction s as [|c s IH]; intros [|n]; simpl; try reflexivity.
  now rewrite IH.
Qed.

Lemma len_app a b : Py.len (a +:+ b) = Py.len a + Py.len b.
Proof. unfold Py.len. rewrite string_length_app. lia. Qed.

Lemma len_str_slice_to stop text :
  0 <= stop <= Py.len text ->
  Py.len (ContextBudget.str_slice_to stop text) = stop.
Proof.
  intros H. unfold ContextBudget.str_slice_to, PySeq.clamp_start, Py.len in *.
  rewrite string_length_substring_0.
  destruct (Z.ltb_spec stop 0); lia.
Qed.

(** X10: on ASCII output, [truncate_output] keeps outputs within
    [max_chars] whenever the indicator itself fits.  For an output of ASCII
    characters (where the length in bytes used here is [len(output)]): an
    output of at most [max_chars] characters is returned unchanged.  A longer one is cut to its first
    [max_chars - len(indicator)] characters followed by the indicator
    "... [truncated, N chars total]", so the result has exactly [max_chars]
    characters; but when [max_chars] does not exceed the indicator's length
    the result of truncating a non-empty output is the indicator alone,
    which is then as long as or longer than [max_chars]. *)
Theorem truncate_output_length (output : string) (max_chars : Z) :
  Py.isascii output = true ->
  let r := ToolCallFactories.truncate_output output max_chars in
  let indicator := ToolCallFactories.truncation_indicator (Py.len output) in
  (Py.len output <= max_chars -> r = output) /\
  (max_chars < Py.len output -> Py.len indicator < max_chars ->
   r = ContextBudget.str_slice_to (max_chars - Py.len indicator) output +:+ indicator /\
   Py.len r = max_chars) /\
  (output <> "" -> max_chars < Py.len output -> max_chars <= Py.len indicator ->
   r = indicator /\ max_chars <= Py.len r).
Proof.
  intros _ r indicator. subst r.
  unfold ToolCallFactories.truncate_output.
  fold (ToolCallFactories.truncation_indicator (Py.len output)). fold indicator.
  destruct (String.eqb_spec output "") as [-> | Hne].
  - split; [reflexivity|]. split; [|congruence].
    intros H1 H2. exfalso. unfold Py.len in H1, H2. simpl in H1. lia.
  - destruct (Z.leb_spec (Py.len output) max_chars) as [Hle | Hgt].
    + split; [reflexivity|]. split; intros; lia.
    + split; [lia|].
      destruct (Z.leb_spec (max_chars - Py.len indicator) 0) as [Hz | Hp].
      * split; [lia|]. intros _ _ _. split; [reflexivity | lia].
      * split; [|lia]. intros _ _. split; [reflexivity|].
        rewrite len_app, len_str_slice_to; [lia|].
        unfold Py.len in *. lia.
Qed.

Lemma truncate_output_length_witness :
  let output := ContextBudget.str_repeat "x" 5000 in
  ToolCallFactories.truncate_output output 100
  = ContextBudget.str_repeat "x" 67 +:+ "... [truncated, 5000 chars total]" /\
  Py.len (ToolCallFactories.truncate_output output 100) = 100.
Proof.
  intros output.
  assert (A : Py.isascii output = true) by (vm_compute; reflexivity).
  destruct (truncate_output_length output 100 A) as (_ & H & _).
  destruct H as [E L]; [vm_compute; reflexivity | vm_compute; reflexivity|].
  split; [|exact L]. rewrite E. vm_compute. reflexivity.
Defined.

(** X11: the dictionary form is stable, and the kernel's own factories give
    calls that survive the round trip.  For every constructed call,
    serializing, parsing and serializing again gives the first dictionary;
    and a call made by [from_stub] or [from_kernel_execution] (never
    blocked, no reason, timestamp set at construction) comes back from
    [from_dict (to_dict c)] unchanged, with its source label. *)
Theorem tool_call_dict_stable {Any : Type} (now0 now1 : string)
    (name : string) (input : list (string * Any)) (output : option string)
    (succ : bool) (dur : Z) (blk : bool) (reason : option string)
    (src : string) (ts : option string) :
  let c := ToolCall.new now0 name input output succ dur blk reason src ts in
  let stub := ToolCallFactories.from_stub now0 name input output succ in
  let kernel := ToolCallFactories.from_kernel_execution now0 name input output succ dur in
  ToolCall.to_dict (ToolCall.from_dict now1 (ToolCall.to_dict c)) = ToolCall.to_dict c /\
  ToolCall.from_dict now1 (ToolCall.to_dict stub) = stub /\
  ToolCall.from_dict now1 (ToolCall.to_dict kernel) = kernel /\
  ToolCall.source stub = "stub" /\ ToolCall.source kernel = "kernel-executed" /\
  ToolCall.timestamp stub = Some (now0 +:+ "Z").
Proof.
  intros c stub kernel. split; [|repeat split].
  subst c. unfold ToolCall.from_dict, ToolCall.to_dict, ToolCall.new. simpl.
  destruct blk; simpl; [|destruct ts; reflexivity].
  destruct reason as [r|]; [|destruct ts; reflexivity].
  destruct (String.eqb r "") eqn:E; simpl; [destruct ts; reflexivity|].
  rewrite E. destruct ts; reflexivity.
Qed.

(** ** Boundary scanner: what a scan reports, and what a capture records *)

Lemma filter_all_false {A} (f : A -> bool) (l : list A) :
  (forall x, In x l -> f x = false) -> List.filter f l = [].
Proof.
  induction l as [|a l IH]; intros H; simpl; [reflexivity|].
  rewrite (H a) by now left. apply IH. intros x Hx. apply H. now right.
Qed.

Lemma filter_all_true {A} (f : A -> bool) (l : list A) :
  (forall x, In x l -> f x = true) -> List.filter f l = l.
Proof.
  induction l as [|a l IH]; intros H; simpl; [reflexivity|].
  rewrite (H a) by now left. f_equal. apply IH. intros x Hx. apply H. now right.
Qed.

Lemma existsb_filter {A} (f : A -> bool) (l : list A) :
  existsb f l = match List.filter f l with [] => false | _ => true end.
Proof.
  induction l as [|a l IH]; simpl; [reflexivity|].
  destruct (f a); simpl; [reflexivity | exact IH].
Qed.

Lemma write_violation_kind self current v :
  In v (BoundaryEnforcement._check_write_violations self current) ->
  BoundaryEnforcement.v_type v = BoundaryEnforcement.WRITE_OUTSIDE_WORKSPACE /\
  BoundaryEnforcement.severity v = BoundaryEnforcement.ERROR.
Proof.
  unfold BoundaryEnforcement._check_write_violations. intros H.
  apply in_flat_map in H as [f [_ H]].
  destruct (BoundaryEnforcement.is_relative_to _ _); [inversion H|].
  destruct H as [<- | []]. split; reflexivity.
Qed.

Lemma shadow_violation_kind self current v :
  In v (BoundaryEnforcement._check_shadow_violations self current) ->
  BoundaryEnforcement.v_type v = BoundaryEnforcement.REAL_REPO_MODIFICATION /\
  BoundaryEnforcement.severity v = BoundaryEnforcement.CRITICAL.
Proof.
  unfold BoundaryEnforcement._check_shadow_violations. intros H.
  destruct (BoundaryEnforcement._baseline self); [|inversion H].
  destruct (_ && _)%bool; [|inversion H].
  destruct H as [<- | []]. split; reflexivity.
Qed.

Lemma protected_violation_kind self current v :
  In v (BoundaryEnforcement._check_protected_paths self current) ->
  BoundaryEnforcement.v_type v = BoundaryEnforcement.MAIN_BRANCH_MUTATION /\
  BoundaryEnforcement.severity v = BoundaryEnforcement.WARNING.
Proof.
  unfold BoundaryEnforcement._check_protected_paths. intros H.
  apply in_flat_map in H as [f [_ H]].
  apply in_flat_map in H as [p [_ H]].
  destruct (BoundaryEnforcement.contains p f); [|inversion H].
  destruct H as [<- | []]. split; reflexivity.
Qed.

Lemma secret_violation_kind self current v :
  In v (BoundaryEnforcement._check_secret_exposure self current) ->
  BoundaryEnforcement.v_type v = BoundaryEnforcement.SECRET_EXPOSURE /\
  BoundaryEnforcement.severity v = BoundaryEnforcement.WARNING.
Proof.
  unfold BoundaryEnforcement._check_secret_exposure. intros H.
  apply in_flat_map in H as [f [_ H]].
  destruct (List.find _ _); [|inversion H].
  destruct H as [<- | []]. split; reflexivity.
Qed.

(** X12: a scan calls for a halt exactly when the real repository's HEAD
    moved under a shadow workspace.  The CRITICAL violations of a scan are
    the findings of the shadow check when the workspace is a shadow, and
    none otherwise: there is at most one, and there is one exactly when the
    scanner has a baseline, both the baseline's and the current
    [real_repo_ref] are non-empty, and they differ.  Writes outside the
    workspace, protected paths and secret-looking files never halt a run. *)
Theorem scan_critical_iff_head_moved
    (self : BoundaryEnforcement.BoundaryScanner)
    (current : BoundaryEnforcement.WorkspaceState) :
  let violations := BoundaryEnforcement.scan self (Some current) in
  let critical := List.filter BoundaryCapture.is_critical violations in
  critical =
    (if BoundaryEnforcement.is_shadow self
     then BoundaryEnforcement._check_shadow_violations self current else []) /\
  (length critical <= 1)%nat /\
  existsb BoundaryCapture.is_critical violations
  = (BoundaryEnforcement.is_shadow self && BoundaryCapture.head_moved self current)%bool.
Proof.
  intros violations critical.
  assert (E : critical =
              if BoundaryEnforcement.is_shadow self
              then BoundaryEnforcement._check_shadow_violations self current else []).
  { subst critical violations. unfold BoundaryEnforcement.scan. simpl default.
    rewrite !List.filter_app.
    rewrite (filter_all_false _ (BoundaryEnforcement._check_write_violations _ _)).
    2:{ intros v Hv. apply write_violation_kind in Hv as [_ Hs].
        unfold BoundaryCapture.is_critical. now rewrite Hs. }
    rewrite (filter_all_false _ (BoundaryEnforcement._check_protected_paths _ _)).
    2:{ intros v Hv. apply protected_violation_kind in Hv as [_ Hs].
        unfold BoundaryCapture.is_critical. now rewrite Hs. }
    rewrite (filter_all_false _ (BoundaryEnforcement._check_secret_exposure _ _)).
    2:{ intros v Hv. apply secret_violation_kind in Hv as [_ Hs].
        unfold BoundaryCapture.is_critical. now rewrite Hs. }
    simpl. rewrite app_nil_r.
    destruct (BoundaryEnforcement.is_shadow self); [|reflexivity].
    apply filter_all_true. intros v Hv.
    apply shadow_violation_kind in Hv as [_ Hs].
    unfold BoundaryCapture.is_critical. now rewrite Hs. }
  split; [exact E|].
  rewrite existsb_filter. fold critical. rewrite E. unfold BoundaryEnforcement._check_shadow_violations,
    BoundaryCapture.head_moved.
  destruct (BoundaryEnforcement.is_shadow self); simpl; [|split; [lia | reflexivity]].
  destruct (BoundaryEnforcement._baseline self); simpl; [|split; [lia | reflexivity]].
  destruct (_ && _)%bool; simpl; split; try lia; reflexivity.
Qed.






(** *** Capturing the state from [git status --porcelain] *)

Lemma string_app_assoc a b c : (a +:+ b) +:+ c = a +:+ (b +:+ c).
Proof.
  induction a as [|x a IH]; [reflexivity|].
  change (String x a +:+ b) with (String x (a +:+ b)).
  change (String x (a +:+ b) +:+ c) with (String x ((a +:+ b) +:+ c)).
  now rewrite IH.
Qed.

Lemma string_app_nil_r a : a +:+ "" = a.
Proof.
  induction a as [|x a IH]; [reflexivity|].
  change (String x a +:+ "") with (String x (a +:+ "")). now rewrite IH.
Qed.




Lemma substring_0_all m s :
  (String.length s <= m)%nat -> String.substring 0 m s = s.
Proof.
  revert m. induction s as [|c s IH]; intros [|m] H; simpl in *;
    try reflexivity; try lia.
  rewrite IH by lia. reflexivity.
Qed.





(** ** Checkpoints: step ids and indices, interrupt states *)

From Stdlib Require DecimalPos.

Lemma digits_uint_acc (d : Decimal.uint) (acc : positive) :
  PyInt.digits (Zpos acc) true (NilEmpty.string_of_uint d)
  = Some (Zpos (Pos.of_uint_acc d acc)).
Proof.
  revert acc. induction d; intros acc; simpl; [reflexivity|..];
    rewrite <- IHd; f_equal; try reflexivity;
    match goal with
    | |- context [PyInt.digit_val ?c] =>
        let v := eval vm_compute in (PyInt.digit_val c) in
        change (PyInt.digit_val c) with v
    end; lia.
Qed.

Lemma digits_uint (d : Decimal.uint) :
  d <> Decimal.Nil ->
  PyInt.digits 0 true (NilEmpty.string_of_uint d) = Some (Z.of_N (Pos.of_uint d)) /\
  PyInt.digits 0 false (NilEmpty.string_of_uint d) = Some (Z.of_N (Pos.of_uint d)).
Proof.
  induction d; intros Hne; [congruence | |..].
  - assert (E : PyInt.digits 0 true (NilEmpty.string_of_uint d)
                = Some (Z.of_N (Pos.of_uint d))).
    { destruct d; try (apply IHd; discriminate). reflexivity. }
    split; exact E.
  - split; exact (digits_uint_acc d 1).
  - split; exact (digits_uint_acc d 2).
  - split; exact (digits_uint_acc d 3).
  - split; exact (digits_uint_acc d 4).
  - split; exact (digits_uint_acc d 5).
  - split; exact (digits_uint_acc d 6).
  - split; exact (digits_uint_acc d 7).
  - split; exact (digits_uint_acc d 8).
  - split; exact (digits_uint_acc d 9).
Qed.

Lemma rstrip_uint (d : Decimal.uint) :
  Py.rstrip (NilEmpty.string_of_uint d) = NilEmpty.string_of_uint d.
Proof.
  induction d; simpl; [reflexivity|..]; rewrite IHd;
    destruct (NilEmpty.string_of_uint d); reflexivity.
Qed.

Lemma uint_string_head (d : Decimal.uint) :
  d <> Decimal.Nil ->
  exists c r, NilEmpty.string_of_uint d = String c r /\ PyInt.is_digit c = true.
Proof.
  destruct d; intros H; [congruence|..]; simpl; eexists; eexists;
    split; reflexivity.
Qed.

Lemma to_str_pos (p : positive) :
  exists c r,
    PyInt.to_str (Zpos p) = String c r /\ PyInt.is_digit c = true /\
    Py.strip (String c r) = String c r /\
    PyInt.digits 0 false (String c r) = Some (Zpos p) /\
    Py.strip (String "-" (String c r)) = String "-" (String c r) /\
    PyInt.to_str (Zneg p) = String "-" (String c r).
Proof.
  pose proof (Stdlib.Numbers.DecimalPos.Unsigned.to_uint_nonnil p) as Hn.
  destruct (uint_string_head _ Hn) as (c & r & E & Hc).
  assert (Es : NilZero.string_of_uint (Pos.to_uint p) = String c r).
  { unfold NilZero.string_of_uint. destruct (Pos.to_uint p); [congruence | exact E..]. }
  assert (Hsp : Py.is_space c = false).
  { destruct c as [[] [] [] [] [] [] [] []]; try discriminate Hc; reflexivity. }
  assert (Hr : Py.rstrip (String c r) = String c r).
  { rewrite <- E. apply rstrip_uint. }
  assert (Ep : PyInt.to_str (Zpos p) = String c r) by exact Es.
  assert (En : PyInt.to_str (Zneg p) = String "-" (String c r)).
  { unfold PyInt.to_str. cbn [Z.to_int NilZero.string_of_int]. now rewrite Es. }
  exists c, r.
  split; [exact Ep|]. split; [exact Hc|].
  split; [unfold Py.strip; cbn [Py.lstrip]; now rewrite Hsp|].
  split.
  - rewrite <- E. rewrite (proj2 (digits_uint _ Hn)).
    now rewrite Stdlib.Numbers.DecimalPos.Unsigned.of_to.
  - split; [|exact En]. unfold Py.strip. cbn [Py.lstrip].
    change (Py.is_space "-") with false. cbv iota.
    cbn [Py.rstrip] in Hr |- *. rewrite Hr. reflexivity.
Qed.

(** [int(str(z))] is [z]. *)
Lemma of_str_to_str (z : Z) : PyInt.of_str (PyInt.to_str z) = Some z.
Proof.
  destruct z as [|p|p]; [reflexivity|..];
    destruct (to_str_pos p) as (c & r & E & Hc & Hs & Hd & Hsn & En).
  - rewrite E. unfold PyInt.of_str. rewrite Hs.
    destruct c as [[] [] [] [] [] [] [] []]; try discriminate Hc; exact Hd.
  - rewrite En. unfold PyInt.of_str. rewrite Hsn. rewrite Hd. reflexivity.
Qed.

Lemma to_str_not_step (z : Z) : String.prefix "step-" (PyInt.to_str z) = false.
Proof.
  destruct z as [|p|p]; [reflexivity|..];
    destruct (to_str_pos p) as (c & r & E & Hc & _ & _ & _ & En).
  - rewrite E. destruct c as [[] [] [] [] [] [] [] []]; try discriminate Hc;
      reflexivity.
  - rewrite En. reflexivity.
Qed.

Lemma extract_step_index_formats (n : Z) :
  CheckpointResume._extract_step_index ("step-" +:+ PyInt.to_str n) = n /\
  CheckpointResume._extract_step_index (PyInt.to_str n) = n.
Proof.
  unfold CheckpointResume._extract_step_index. split.
  - change ("step-" +:+ PyInt.to_str n)
      with (String "s" (String "t" (String "e" (String "p" (String "-" (PyInt.to_str n)))))).
    cbn [String.prefix String.length String.substring].
    repeat (destruct (Ascii.ascii_dec _ _) as [_ | N]; [|exfalso; apply N; reflexivity]).
    assert (Ep : String.prefix "" (PyInt.to_str n) = true)
      by (destruct (PyInt.to_str n); reflexivity).
    rewrite Ep, substring_0_all by lia. now rewrite of_str_to_str.
  - rewrite to_str_not_step, of_str_to_str. reflexivity.
Qed.

(** X15: step ids written as "step-N" or "N" parse back to N.  For every
    integer [n], negative ones included, [_extract_step_index] returns [n]
    on the text "step-" followed by [str(n)] and on [str(n)] itself; an id
    that is neither form, such as "implement", falls back to 0. *)
Theorem extract_step_index_roundtrip (n : Z) :
  CheckpointResume._extract_step_index ("step-" +:+ PyInt.to_str n) = n /\
  CheckpointResume._extract_step_index (PyInt.to_str n) = n /\
  PyInt.of_str (PyInt.to_str n) = Some n /\
  CheckpointResume._extract_step_index "implement" = 0.
Proof.
  destruct (extract_step_index_formats n) as [H1 H2].
  split; [exact H1|]. split; [exact H2|]. split; [apply of_str_to_str | reflexivity].
Qed.




Section InterruptFacts.
Variable interrupt_path : string -> string -> string.
Variable write_outcome : string -> InterruptStates.WriteOutcome.
Variable can_unlink : string -> bool.

Lemma load_after_save state run_base files :
  InterruptStates.load_interrupt_state interrupt_path run_base
    (InterruptStates.flow_key state)
    (<[ interrupt_path run_base (InterruptStates.flow_key state) :=
          InterruptStates.JsonObject
            {| InterruptStates.k_interrupted_at :=
                 Some (InterruptStates.interrupted_at state);
               InterruptStates.k_step_id := Some (InterruptStates.step_id state);
               InterruptStates.k_flow_key := Some (InterruptStates.flow_key state);
               InterruptStates.k_partial_work :=
                 Some (InterruptStates.partial_work state);
               InterruptStates.k_artifacts_flushed :=
                 Some (InterruptStates.artifacts_flushed state);
               InterruptStates.k_can_resume_cleanly :=
                 Some (InterruptStates.can_resume_cleanly state) |} ]> files)
  = InterruptStates.Returned (Some state).
Proof.
  unfold InterruptStates.load_interrupt_state.
  rewrite lookup_insert_eq. simpl. destruct state; reflexivity.
Qed.

(** A failed save touches no file but its own. *)
Lemma failed_save_elsewhere state run_base files left :
  write_outcome (interrupt_path run_base (InterruptStates.flow_key state))
  = InterruptStates.Fails left ->
  exists after,
    InterruptStates.save_interrupt_state interrupt_path write_outcome state
      run_base files = InterruptStates.OSError after /\
    (left = None -> after = files) /\
    forall other,
      interrupt_path run_base other
      <> interrupt_path run_base (InterruptStates.flow_key state) ->
      InterruptStates.load_interrupt_state interrupt_path run_base other after
      = InterruptStates.load_interrupt_state interrupt_path run_base other files.
Proof.
  intros E. unfold InterruptStates.save_interrupt_state. cbv zeta. rewrite E.
  destruct left as [content|]; eexists; (split; [reflexivity|]).
  - split; [discriminate|]. intros other Hne.
    unfold InterruptStates.load_interrupt_state.
    rewrite lookup_insert_ne by congruence. reflexivity.
  - split; reflexivity.
Qed.

(** X17: an interrupt state saved to disk is the one loaded back, until it
    is cleared.  When writing the file fails, [save_interrupt_state] raises
    [OSError], and [load_interrupt_state] returns what it returned before for
    every flow key that names another file.  When the file is written, then
    afterwards [load_interrupt_state] returns the saved state, field for
    field, for the state's flow key and for every flow key that names the
    same file, and returns what it returned before for every flow key that
    names another file; and when the file can be unlinked,
    [clear_interrupt_state] reports [True] and removes it, after which
    loading gives [None] and clearing again reports [False]. *)
Theorem interrupt_state_roundtrip
    (state : InterruptStates.InterruptState) (run_base : string)
    (files : gmap string InterruptStates.FileContent) :
  let fk := InterruptStates.flow_key state in
  let path := interrupt_path run_base fk in
  let load := InterruptStates.load_interrupt_state interrupt_path run_base in
  let clear := InterruptStates.clear_interrupt_state interrupt_path can_unlink
                 run_base in
  let save := InterruptStates.save_interrupt_state interrupt_path write_outcome
                state run_base files in
  (forall left, write_outcome path = InterruptStates.Fails left ->
   exists after,
     save = InterruptStates.OSError after /\
     (forall other, interrupt_path run_base other <> path ->
        load other after = load other files)) /\
  (write_outcome path = InterruptStates.Writes ->
   exists saved,
     save = InterruptStates.Written path saved /\
     (forall same, interrupt_path run_base same = path ->
        load same saved = InterruptStates.Returned (Some state)) /\
     (forall other, interrupt_path run_base other <> path ->
        load other saved = load other files) /\
     (can_unlink path = true ->
      snd (clear fk saved) = true /\
      load fk (fst (clear fk saved)) = InterruptStates.Returned None /\
      snd (clear fk (fst (clear fk saved))) = false)).
Proof.
  intros fk path load clear save. split.
  - intros left E.
    destruct (failed_save_elsewhere state run_base files left E)
      as (after & Es & _ & Ho).
    exists after. split; [exact Es | exact Ho].
  - subst save. unfold InterruptStates.save_interrupt_state. cbv zeta.
    fold fk. fold path. intros ->.
    eexists. split; [reflexivity|].
    split; [|split].
    + intros same E. subst load. unfold InterruptStates.load_interrupt_state.
      rewrite E, lookup_insert_eq. simpl. destruct state; reflexivity.
    + intros other Hne. subst load. unfold InterruptStates.load_interrupt_state.
      rewrite lookup_insert_ne by congruence. reflexivity.
    + intros Hu. subst clear load.
      unfold InterruptStates.clear_interrupt_state,
        InterruptStates.load_interrupt_state. cbv zeta. fold path.
      rewrite lookup_insert_eq, Hu. cbn [fst snd].
      rewrite lookup_delete_eq. repeat split.
Qed.

(** X18: what a signal leaves behind.  [_handle_signal] ends in
    [os._exit(128 + signum)] (130 for SIGINT, 143 for SIGTERM) unless the
    callback raises something that is not an [Exception]; a failed save and
    a failing callback do not prevent the exit.  When the state file is
    written, the state saved carries the handler's step, its partial work
    and its flushed artifacts, and is marked cleanly resumable exactly when
    at least one artifact was flushed or no partial work was recorded: with
    no callback, it is the state [load_interrupt_state] finds after the
    exit; with a callback, it is the state the callback receives, after it
    was saved.  When writing the file fails and there is no callback, the
    process still exits with that code, and the interrupt states of the
    flows that name another file are as they were. *)
Theorem handle_signal_saves_state
    (self : InterruptStates.InterruptHandler) (signum : Z) (now : string)
    (files : gmap string InterruptStates.FileContent) :
  let outcome := InterruptStates._handle_signal interrupt_path write_outcome self
                   signum now files in
  let path := interrupt_path (InterruptStates.h_run_base self)
                (InterruptStates.h_flow_key self) in
  let load := InterruptStates.load_interrupt_state interrupt_path
                (InterruptStates.h_run_base self) in
  let state := InterruptStates.interrupt_state_of self now in
  (forall code after, outcome = InterruptStates.Exited code after ->
     code = 128 + signum /\ (signum = 2 -> code = 130) /\
     (signum = 15 -> code = 143)) /\
  ((forall after, outcome <> InterruptStates.Exited (128 + signum) after) ->
   exists callback after,
     InterruptStates.on_interrupt self = Some callback /\
     outcome = InterruptStates.Escaped after) /\
  (InterruptStates.interrupted_at state = now /\
   InterruptStates.step_id state = InterruptStates.h_step_id self /\
   InterruptStates.flow_key state = InterruptStates.h_flow_key self /\
   InterruptStates.partial_work state = InterruptStates._partial_work self /\
   InterruptStates.artifacts_flushed state
   = InterruptStates._artifacts_flushed self /\
   (InterruptStates.can_resume_cleanly state = true <->
    InterruptStates._artifacts_flushed self <> [] \/
    InterruptStates._partial_work self = None)) /\
  (write_outcome path = InterruptStates.Writes ->
   exists saved,
     load (InterruptStates.h_flow_key self) saved
     = InterruptStates.Returned (Some state) /\
     match InterruptStates.on_interrupt self with
     | None => outcome = InterruptStates.Exited (128 + signum) saved
     | Some callback =>
         outcome =
           match callback state saved with
           | InterruptStates.CallbackReturned after
           | InterruptStates.CallbackFailed after =>
               InterruptStates.Exited (128 + signum) after
           | InterruptStates.CallbackEscaped after =>
               InterruptStates.Escaped after
           end
     end) /\
  (forall left, write_outcome path = InterruptStates.Fails left ->
   InterruptStates.on_interrupt self = None ->
   exists after,
     outcome = InterruptStates.Exited (128 + signum) after /\
     (left = None -> after = files) /\
     (forall other,
        interrupt_path (InterruptStates.h_run_base self) other <> path ->
        load other after = load other files)).
Proof.
  intros outcome path load state.
  assert (Eo : outcome =
            let files1 :=
              match InterruptStates.save_interrupt_state interrupt_path
                      write_outcome state (InterruptStates.h_run_base self)
                      files with
              | InterruptStates.Written _ files1 => files1
              | InterruptStates.OSError files1 => files1
              end in
            match InterruptStates.on_interrupt self with
            | Some callback =>
                match callback state files1 with
                | InterruptStates.CallbackReturned after =>
                    InterruptStates.Exited (128 + signum) after
                | InterruptStates.CallbackFailed after =>
                    InterruptStates.Exited (128 + signum) after
                | InterruptStates.CallbackEscaped after =>
                    InterruptStates.Escaped after
                end
            | None => InterruptStates.Exited (128 + signum) files1
            end) by reflexivity.
  cbv zeta in Eo.
  split; [|split; [|split; [|split]]].
  - intros code after E. rewrite Eo in E.
    assert (code = 128 + signum).
    { destruct (InterruptStates.on_interrupt self) as [cb|];
        [destruct (cb _ _)|]; congruence. }
    subst code. repeat split; intros ->; reflexivity.
  - intros Hno. rewrite Eo in Hno |- *.
    destruct (InterruptStates.on_interrupt self) as [cb|].
    + destruct (cb _ _) as [a | a | a].
      * exfalso. apply (Hno a). reflexivity.
      * exfalso. apply (Hno a). reflexivity.
      * exists cb, a. split; reflexivity.
    + exfalso. eapply Hno. reflexivity.
  - subst state. unfold InterruptStates.interrupt_state_of. cbv zeta.
    cbn [InterruptStates.interrupted_at InterruptStates.step_id
         InterruptStates.flow_key InterruptStates.partial_work
         InterruptStates.artifacts_flushed InterruptStates.can_resume_cleanly].
    repeat split; try reflexivity.
    + intros H. apply orb_prop in H as [H | H].
      * left. destruct (InterruptStates._artifacts_flushed self);
          [discriminate | discriminate].
      * right. destruct (InterruptStates._partial_work self);
          [discriminate | reflexivity].
    + intros [H | H].
      * destruct (InterruptStates._artifacts_flushed self); [congruence|].
        reflexivity.
      * rewrite H. apply orb_true_r.
  - intros Hw. rewrite Eo.
    unfold InterruptStates.save_interrupt_state. cbv zeta.
    change (InterruptStates.flow_key state) with (InterruptStates.h_flow_key self).
    fold path. rewrite Hw.
    eexists. split; [|destruct (InterruptStates.on_interrupt self); reflexivity].
    subst load path.
    change (InterruptStates.h_flow_key self) with (InterruptStates.flow_key state).
    apply load_after_save.
  - intros left Hw Hn. rewrite Eo, Hn.
    destruct (failed_save_elsewhere state (InterruptStates.h_run_base self) files
                left Hw) as (after & Es & Hsame & Ho).
    rewrite Es. exists after. split; [reflexivity|]. split; [exact Hsame | exact Ho].
Qed.

End InterruptFacts.

Lemma interrupt_state_roundtrip_witness :
  let build :=
    {| InterruptStates.interrupted_at := "2026-01-01T00:00:00Z";
       InterruptStates.step_id := "3";
       InterruptStates.flow_key := "build";
       InterruptStates.partial_work := Some "editing";
       InterruptStates.artifacts_flushed := ["build/receipts/2-critic.json"];
       InterruptStates.can_resume_cleanly := true |} in
  let load :=
    InterruptStates.load_interrupt_state InterruptStates.plain_interrupt_path
      "runs/r1" in
  exists saved,
    InterruptStates.save_interrupt_state InterruptStates.plain_interrupt_path
      (fun _ => InterruptStates.Writes) build "runs/r1" ∅
    = InterruptStates.Written "runs/r1/build/interrupt_state.json" saved /\
    load "build" saved = InterruptStates.Returned (Some build) /\
    load "plan" saved = InterruptStates.Returned None.
Proof.
  intros build load.
  destruct (interrupt_state_roundtrip InterruptStates.plain_interrupt_path
              (fun _ => InterruptStates.Writes) (fun _ => true) build "runs/r1" ∅)
    as (_ & H).
  destruct (H eq_refl) as (saved & Es & Hsame & Hother & _).
  exists saved. split; [exact Es|]. split.
  - apply Hsame. reflexivity.
  - subst load. rewrite (Hother "plan") by discriminate. reflexivity.
Defined.

Lemma handle_signal_saves_state_witness :
  let handler :=
    {| InterruptStates.h_run_base := "runs/r1";
       InterruptStates.h_flow_key := "build";
       InterruptStates.h_step_id := "3";
       InterruptStates.on_interrupt := None;
       InterruptStates._partial_work := Some "editing";
       InterruptStates._artifacts_flushed := [] |} in
  exists saved,
    InterruptStates._handle_signal InterruptStates.plain_interrupt_path
      (fun _ => InterruptStates.Writes) handler 15 "2026-01-01T00:00:00Z" ∅
    = InterruptStates.Exited 143 saved /\
    InterruptStates.load_interrupt_state InterruptStates.plain_interrupt_path
      "runs/r1" "build" saved
    = InterruptStates.Returned
        (Some {| InterruptStates.interrupted_at := "2026-01-01T00:00:00Z";
                 InterruptStates.step_id := "3";
                 InterruptStates.flow_key := "build";
                 InterruptStates.partial_work := Some "editing";
                 InterruptStates.artifacts_flushed := [];
                 InterruptStates.can_resume_cleanly := false |}).
Proof.
  intros handler.
  destruct (handle_signal_saves_state InterruptStates.plain_interrupt_path
              (fun _ => InterruptStates.Writes) handler 15
              "2026-01-01T00:00:00Z" ∅)
    as (_ & _ & _ & H & _).
  destruct (H eq_refl) as (saved & Hl & Ho).
  exists saved. split; [exact Ho | exact Hl].
Defined.

(** ** Context budget: what becomes of every item *)

Lemma truncate_item_shape self item room :
  ContextBudget.key (ContextBudget._truncate_item self item room)
  = ContextBudget.key item /\
  ContextBudget.priority (ContextBudget._truncate_item self item room)
  = ContextBudget.priority item /\
  ContextBudget.truncated (ContextBudget._truncate_item self item room) = true /\
  ContextBudget.dropped (ContextBudget._truncate_item self item room) = false /\
  (ContextBudget.original_tokens item <> 0 ->
   ContextBudget.original_tokens (ContextBudget._truncate_item self item room)
   = ContextBudget.original_tokens item).
Proof.
  unfold ContextBudget._truncate_item.
  destruct (room <=? 0); [|destruct (room - _ <=? 0)];
    unfold ContextBudget.new_item; cbv zeta;
    cbn [ContextBudget.key ContextBudget.priority ContextBudget.truncated
         ContextBudget.dropped ContextBudget.original_tokens];
    repeat split; intros H;
    destruct (Z.eqb_spec (ContextBudget.original_tokens item) 0); congruence.
Qed.

(** The three things one iteration of the loop can do with an item. *)
Lemma load_step_cases self st item :
  ContextBudget.load_step self st item = ContextBudget.load item st \/
  (ContextBudget.priority item = ContextBudget.HIGH /\
   ContextBudget.tokens item <> 0 /\
   ContextBudget.load_step self st item
   = ContextBudget.load
       (ContextBudget._truncate_item self item
          (ContextBudget.budget self - ContextBudget.used_tokens st)) st) \/
  (ContextBudget.priority item <> ContextBudget.CRITICAL /\
   ContextBudget.load_step self st item = ContextBudget.drop_item item st).
Proof.
  unfold ContextBudget.load_step. cbv zeta.
  destruct (ContextBudget.priority item) eqn:P.
  - destruct (_ && _)%bool; [left; reflexivity | right; right; split; congruence].
  - destruct (_ <=? _); [left; reflexivity | right; right; split; congruence].
  - destruct (Z.leb_spec (ContextBudget.tokens item)
                (ContextBudget.budget self - ContextBudget.used_tokens st));
      [left; reflexivity|].
    destruct (Z.leb_spec 100
                (ContextBudget.budget self - ContextBudget.used_tokens st)).
    + right; left. repeat split; lia.
    + right; right. split; congruence.
  - left; reflexivity.
Qed.

Lemma sum_original_tokens_app l1 l2 :
  BudgetReports.sum_original_tokens (l1 ++ l2)
  = BudgetReports.sum_original_tokens l1 + BudgetReports.sum_original_tokens l2.
Proof.
  unfold BudgetReports.sum_original_tokens.
  induction l1 as [|x l1 IH]; simpl; [reflexivity | rewrite IH; lia].
Qed.

Lemma sum_original_tokens_cons x l :
  BudgetReports.sum_original_tokens (x :: l)
  = ContextBudget.original_tokens x + BudgetReports.sum_original_tokens l.
Proof. reflexivity. Qed.

Lemma sum_original_tokens_Permutation l1 l2 :
  Permutation l1 l2 ->
  BudgetReports.sum_original_tokens l1 = BudgetReports.sum_original_tokens l2.
Proof.
  unfold BudgetReports.sum_original_tokens.
  induction 1; simpl; lia.
Qed.

(** What the loop of [_load_by_priority] appends to its two lists. *)
Lemma fold_load_shape self l : forall st,
  exists L D,
    ContextBudget.loaded (fold_left (ContextBudget.load_step self) l st)
    = ContextBudget.loaded st ++ L /\
    ContextBudget.dropped_acc (fold_left (ContextBudget.load_step self) l st)
    = ContextBudget.dropped_acc st ++ D /\
    Permutation (map ContextBudget.key (L ++ D)) (map ContextBudget.key l) /\
    (Forall BudgetReports.constructed l ->
     BudgetReports.sum_original_tokens (L ++ D)
     = BudgetReports.sum_original_tokens l) /\
    (forall d, In d D ->
       exists i, In i l /\ ContextBudget.priority i <> ContextBudget.CRITICAL /\
                 d = ContextBudget.set_dropped i) /\
    (forall x, In x L ->
       In x l \/
       (ContextBudget.truncated x = true /\
        ContextBudget.priority x = ContextBudget.HIGH /\
        exists i, In i l /\ ContextBudget.priority i = ContextBudget.HIGH /\
                  ContextBudget.key i = ContextBudget.key x)) /\
    (D = [] -> existsb ContextBudget.truncated L = false -> L = l).
Proof.
  induction l as [|i l IH]; intros st.
  - exists [], []. simpl. rewrite !app_nil_r.
    repeat split; try reflexivity; try (intros ? []); auto.
  - simpl fold_left.
    destruct (load_step_cases self st i) as [E | [(P & T & E) | (P & E)]];
      rewrite E; clear E.
    + destruct (IH (ContextBudget.load i st)) as (L & D & H1 & H2 & H3 & H4 & H5 & H6 & H7).
      exists (i :: L), D. simpl in H1, H2.
      rewrite <- app_assoc in H1. simpl in H1.
      split; [exact H1|]. split; [exact H2|].
      split; [simpl; now apply perm_skip|].
      split.
      { intros F. apply Forall_cons_iff in F as [_ F].
        change ((i :: L) ++ D) with (i :: (L ++ D)).
        rewrite !sum_original_tokens_cons, (H4 F). reflexivity. }
      split.
      { intros d Hd. destruct (H5 d Hd) as (j & Hj & Pj & Ej).
        exists j. split; [now right | split; assumption]. }
      split.
      { intros x [<- | Hx]; [left; now left|].
        destruct (H6 x Hx) as [Hl | (Tx & Px & j & Hj & Pj & Kj)].
        - left; now right.
        - right. split; [exact Tx|]. split; [exact Px|].
          exists j. split; [now right | split; assumption]. }
      { intros HD Hex. simpl in Hex. apply orb_false_elim in Hex as [_ Hex].
        f_equal. now apply H7. }
    + set (t := ContextBudget._truncate_item self i
                  (ContextBudget.budget self - ContextBudget.used_tokens st)).
      destruct (truncate_item_shape self i
                  (ContextBudget.budget self - ContextBudget.used_tokens st))
        as (Kt & Pt & Tt & _ & Ot). fold t in Kt, Pt, Tt, Ot.
      destruct (IH (ContextBudget.load t st)) as (L & D & H1 & H2 & H3 & H4 & H5 & H6 & H7).
      exists (t :: L), D. simpl in H1, H2.
      rewrite <- app_assoc in H1. simpl in H1.
      split; [exact H1|]. split; [exact H2|].
      split; [simpl; rewrite Kt; now apply perm_skip|].
      split.
      { intros F. apply Forall_cons_iff in F as [Fi F].
        change ((t :: L) ++ D) with (t :: (L ++ D)).
        rewrite !sum_original_tokens_cons, (H4 F), (Ot (Fi T)). reflexivity. }
      split.
      { intros d Hd. destruct (H5 d Hd) as (j & Hj & Pj & Ej).
        exists j. split; [now right | split; assumption]. }
      split.
      { intros x [<- | Hx].
        - right. split; [exact Tt|]. split; [congruence|].
          exists i. split; [now left | split; [exact P | now symmetry]].
        - destruct (H6 x Hx) as [Hl | (Tx & Px & j & Hj & Pj & Kj)].
          + left; now right.
          + right. split; [exact Tx|]. split; [exact Px|].
            exists j. split; [now right | split; assumption]. }
      { intros _ Hex. simpl in Hex. rewrite Tt in Hex. discriminate. }
    + destruct (IH (ContextBudget.drop_item i st)) as (L & D & H1 & H2 & H3 & H4 & H5 & H6 & H7).
      exists L, (ContextBudget.set_dropped i :: D). simpl in H1, H2.
      rewrite <- app_assoc in H2. simpl in H2.
      split; [exact H1|]. split; [exact H2|].
      split.
      { rewrite map_app. simpl. rewrite <- Permutation_middle.
        apply perm_skip. rewrite <- map_app. exact H3. }
      split.
      { intros F. apply Forall_cons_iff in F as [_ F].
        rewrite sum_original_tokens_app, !sum_original_tokens_cons.
        rewrite <- (H4 F), sum_original_tokens_app.
        cbn [ContextBudget.set_dropped ContextBudget.original_tokens]. lia. }
      split.
      { intros d [<- | Hd].
        - exists i. split; [now left | split; [exact P | reflexivity]].
        - destruct (H5 d Hd) as (j & Hj & Pj & Ej).
          exists j. split; [now right | split; assumption]. }
      split.
      { intros x Hx.
        destruct (H6 x Hx) as [Hl | (Tx & Px & j & Hj & Pj & Kj)].
        - left; now right.
        - right. split; [exact Tx|]. split; [exact Px|].
          exists j. split; [now right | split; assumption]. }
      { intros HD. discriminate. }
Qed.

Lemma sort_items_Permutation items :
  Permutation (ContextBudget.sort_items items) items.
Proof. apply sort_by_key_Permutation. Qed.

(** [_load_by_priority], list by list. *)
Lemma load_by_priority_shape self items :
  let loaded := fst (ContextBudget._load_by_priority self items) in
  let dropped := snd (ContextBudget._load_by_priority self items) in
  Permutation (map ContextBudget.key (loaded ++ dropped))
    (map ContextBudget.key items) /\
  (Forall BudgetReports.constructed items ->
   BudgetReports.sum_original_tokens (loaded ++ dropped)
   = BudgetReports.sum_original_tokens items) /\
  (forall d, In d dropped ->
     exists i, In i items /\ ContextBudget.priority i <> ContextBudget.CRITICAL /\
               d = ContextBudget.set_dropped i) /\
  (forall x, In x loaded ->
     In x items \/
     (ContextBudget.truncated x = true /\
      ContextBudget.priority x = ContextBudget.HIGH /\
      exists i, In i items /\ ContextBudget.priority i = ContextBudget.HIGH /\
                ContextBudget.key i = ContextBudget.key x)) /\
  (dropped = [] -> existsb ContextBudget.truncated loaded = false ->
   loaded = ContextBudget.sort_items items).
Proof.
  intros loaded dropped. subst loaded dropped.
  unfold ContextBudget._load_by_priority. cbv zeta.
  cbn [fst snd].
  destruct (fold_load_shape self (ContextBudget.sort_items items)
              {| ContextBudget.loaded := []; ContextBudget.dropped_acc := [];
                 ContextBudget.used_tokens := 0 |})
    as (L & D & -> & -> & H3 & H4 & H5 & H6 & H7).
  cbn [ContextBudget.loaded ContextBudget.dropped_acc app].
  pose proof (sort_items_Permutation items) as HP.
  split; [rewrite H3; now apply Permutation_map|].
  split.
  { intros F. rewrite H4.
    - now apply sum_original_tokens_Permutation.
    - eapply Permutation_Forall; [symmetry; exact HP | exact F]. }
  split.
  { intros d Hd. destruct (H5 d Hd) as (j & Hj & Pj & Ej).
    exists j. split; [eapply Permutation_in; eassumption | split; assumption]. }
  split; [|exact H7].
  intros x Hx. destruct (H6 x Hx) as [Hl | (Tx & Px & j & Hj & Pj & Kj)].
  - left. eapply Permutation_in; eassumption.
  - right. split; [exact Tx|]. split; [exact Px|].
    exists j. split; [eapply Permutation_in; eassumption | split; assumption].
Qed.

Lemma enforce_fields self items :
  ContextBudget.loaded_items (ContextBudget.enforce self items)
  = fst (ContextBudget._load_by_priority self (map (BudgetReports.counted self) items)) /\
  ContextBudget.dropped_items (ContextBudget.enforce self items)
  = snd (ContextBudget._load_by_priority self (map (BudgetReports.counted self) items)) /\
  ContextBudget.overflow (ContextBudget.enforce self items)
  = (match snd (ContextBudget._load_by_priority self
                  (map (BudgetReports.counted self) items)) with
     | [] => false
     | _ => true
     end
     || existsb ContextBudget.truncated
          (fst (ContextBudget._load_by_priority self
                  (map (BudgetReports.counted self) items))))%bool.
Proof. repeat split. Qed.

Lemma counted_shape self item :
  ContextBudget.key (BudgetReports.counted self item) = ContextBudget.key item /\
  ContextBudget.content (BudgetReports.counted self item) = ContextBudget.content item /\
  ContextBudget.priority (BudgetReports.counted self item) = ContextBudget.priority item /\
  (BudgetReports.constructed item ->
   BudgetReports.constructed (BudgetReports.counted self item)).
Proof.
  unfold BudgetReports.counted, BudgetReports.constructed.
  destruct (Z.eqb_spec (ContextBudget.tokens item) 0) as [E | E];
    repeat split; simpl; auto.
Qed.

(** X19: [_load_by_priority] neither loses nor invents an item.  The keys of
    the loaded and the dropped items together are the keys of the input, each
    as often as it was given.  A dropped item is an input item that is not
    CRITICAL, flagged [dropped]; a loaded item is an input item as it was
    given, or carries the [truncated] flag, has priority HIGH and the key of
    a HIGH input item. *)
Theorem load_by_priority_partition
    (self : ContextBudget.ContextBudgetEnforcer)
    (items : list ContextBudget.ContentItem) :
  let loaded := fst (ContextBudget._load_by_priority self items) in
  let dropped := snd (ContextBudget._load_by_priority self items) in
  Permutation (map ContextBudget.key (loaded ++ dropped))
    (map ContextBudget.key items) /\
  Z.of_nat (length loaded) + Z.of_nat (length dropped) = Z.of_nat (length items) /\
  (forall d, In d dropped ->
     ContextBudget.dropped d = true /\
     ContextBudget.priority d <> ContextBudget.CRITICAL /\
     exists i, In i items /\ d = ContextBudget.set_dropped i) /\
  (forall x, In x loaded ->
     In x items \/
     (ContextBudget.truncated x = true /\
      ContextBudget.priority x = ContextBudget.HIGH /\
      exists i, In i items /\ ContextBudget.priority i = ContextBudget.HIGH /\
                ContextBudget.key i = ContextBudget.key x)).
Proof.
  intros loaded dropped.
  destruct (load_by_priority_shape self items) as (H1 & _ & H3 & H4 & _).
  fold loaded dropped in H1, H3, H4.
  split; [exact H1|]. split.
  { apply Permutation_length in H1.
    rewrite !length_map, length_app in H1. lia. }
  split; [|exact H4].
  intros d Hd. destruct (H3 d Hd) as (i & Hi & Pi & ->).
  split; [reflexivity|]. split; [exact Pi|]. exists i. split; [exact Hi | reflexivity].
Qed.

(** X20: when [enforce] reports no overflow, nothing was held back.  The
    loaded items are then all the input items (each with its token count
    filled in where it was 0), none of them altered, in descending priority
    and in their given order within a priority; nothing is dropped and no
    overflow report is built. *)
Theorem no_overflow_loads_everything
    (self : ContextBudget.ContextBudgetEnforcer)
    (items : list ContextBudget.ContentItem) :
  ContextBudget.overflow (ContextBudget.enforce self items) = false ->
  ContextBudget.loaded_items (ContextBudget.enforce self items)
  = ContextBudget.sort_items (map (BudgetReports.counted self) items) /\
  ContextBudget.dropped_items (ContextBudget.enforce self items) = [] /\
  BudgetReports.overflow_report self items = None.
Proof.
  intros H. destruct (enforce_fields self items) as (El & Ed & Eo).
  pose proof H as H'. rewrite Eo in H'. apply orb_false_elim in H' as [Hd Ht].
  assert (D : snd (ContextBudget._load_by_priority self
                     (map (BudgetReports.counted self) items)) = []).
  { destruct (snd _); [reflexivity | discriminate]. }
  destruct (load_by_priority_shape self (map (BudgetReports.counted self) items))
    as (_ & _ & _ & _ & H7).
  rewrite El, Ed. split; [now apply H7|]. split; [exact D|].
  unfold BudgetReports.overflow_report. cbv zeta. now rewrite H.
Qed.

Lemma no_overflow_loads_everything_witness :
  let items :=
    [ContextBudget.create_content_item "history" "what happened before"
       ContextBudget.LOW ContextBudget.count_words;
     ContextBudget.create_content_item "teaching_notes" "implement the parser"
       ContextBudget.CRITICAL ContextBudget.count_words] in
  map ContextBudget.key
    (ContextBudget.loaded_items (ContextBudget.enforce word_enforcer items))
  = ["teaching_notes"; "history"].
Proof.
  intros items.
  destruct (no_overflow_loads_everything word_enforcer items) as (H & _);
    [vm_compute; reflexivity|].
  rewrite H. vm_compute. reflexivity.
Defined.

Lemma counted_constructed self items :
  Forall BudgetReports.constructed items ->
  Forall BudgetReports.constructed (map (BudgetReports.counted self) items).
Proof.
  induction 1 as [|x l Hx _ IH]; simpl; constructor; [|exact IH].
  now apply counted_shape.
Qed.

Lemma counted_keys self items :
  map ContextBudget.key (map (BudgetReports.counted self) items)
  = map ContextBudget.key items.
Proof.
  induction items as [|x l IH]; simpl; [reflexivity|].
  rewrite IH. f_equal. apply counted_shape.
Qed.

(** X21: the overflow report accounts for the whole request.  For items as
    the dataclass constructor leaves them, the report that [enforce]
    attaches on overflow gives as "requested" the sum of the original token
    counts of all the input items, whatever was truncated or dropped, as
    "allowed" the budget, and its "loaded" and "dropped" lists name every
    input key, each as often as it was given. *)
Theorem overflow_report_accounts_for_request
    (self : ContextBudget.ContextBudgetEnforcer)
    (items : list ContextBudget.ContentItem)
    (report : BudgetReports.OverflowReport) :
  Forall BudgetReports.constructed items ->
  BudgetReports.overflow_report self items = Some report ->
  BudgetReports.requested report
  = BudgetReports.sum_original_tokens (map (BudgetReports.counted self) items) /\
  BudgetReports.allowed report = ContextBudget.budget self /\
  Permutation
    (map BudgetReports.l_item (BudgetReports.report_loaded report)
     ++ map BudgetReports.d_item (BudgetReports.report_dropped report))
    (map ContextBudget.key items).
Proof.
  intros F E. unfold BudgetReports.overflow_report in E. cbv zeta in E.
  destruct (ContextBudget.overflow _); [|discriminate].
  assert (Er : report
               = BudgetReports._build_overflow_report self
                   (ContextBudget.loaded_items (ContextBudget.enforce self items))
                   (ContextBudget.dropped_items (ContextBudget.enforce self items)))
    by congruence.
  rewrite Er. clear E Er.
  destruct (enforce_fields self items) as (El & Ed & _). rewrite El, Ed.
  destruct (load_by_priority_shape self (map (BudgetReports.counted self) items))
    as (H1 & H2 & _).
  unfold BudgetReports._build_overflow_report. cbv zeta.
  cbn [BudgetReports.requested BudgetReports.allowed
       BudgetReports.report_loaded BudgetReports.report_dropped].
  split; [apply H2, counted_constructed, F|]. split; [reflexivity|].
  rewrite !map_map. cbn [BudgetReports.l_item BudgetReports.d_item].
  rewrite <- map_app, H1. now rewrite counted_keys.
Qed.

Lemma overflow_report_accounts_for_request_witness :
  option_map BudgetReports.requested
    (BudgetReports.overflow_report word_enforcer [long_tail_item])
  = Some 201.
Proof.
  destruct (BudgetReports.overflow_report word_enforcer [long_tail_item])
    as [report|] eqn:E; [|vm_compute in E; discriminate].
  destruct (overflow_report_accounts_for_request word_enforcer [long_tail_item]
              report) as (H & _).
  - repeat constructor. intros _. vm_compute. discriminate.
  - exact E.
  - simpl. rewrite H. vm_compute. reflexivity.
Defined.

Lemma loaded_content_lookup l k v : forall m : gmap string string,
  (forall x, In x l -> ContextBudget.key x = k -> ContextBudget.content x = v) ->
  (m !! k = Some v \/ exists x, In x l /\ ContextBudget.key x = k) ->
  fold_left (fun d item =>
               <[ ContextBudget.key item := ContextBudget.content item ]> d) l m
  !! k = Some v.
Proof.
  induction l as [|a l IH]; intros m Hall Hex; simpl.
  - destruct Hex as [H | (x & [] & _)]. exact H.
  - apply IH; [intros x Hx; apply Hall; now right|].
    destruct (decide (ContextBudget.key a = k)) as [E | N].
    + left. rewrite E, lookup_insert_eq. f_equal. apply Hall; [now left | exact E].
    + rewrite lookup_insert_ne by exact N.
      destruct Hex as [H | (x & [<- | Hx] & Kx)];
        [left; exact H | contradiction | right; exists x; split; assumption].
Qed.

Section EntryPointFacts.
Variable count_tokens_tiktoken : string -> string -> Z.

Lemma item_if_In key text priority x :
  In x (BudgetReports.item_if count_tokens_tiktoken key text priority) ->
  ContextBudget.key x = key /\ ContextBudget.content x = text /\
  ContextBudget.priority x = priority.
Proof.
  unfold BudgetReports.item_if. destruct (String.eqb text ""); [intros []|].
  intros [<- | []]. repeat split.
Qed.

Lemma context_items_teaching_notes notes prev arts hist x :
  In x (BudgetReports.context_items count_tokens_tiktoken notes prev arts hist) ->
  ContextBudget.key x = "teaching_notes" ->
  ContextBudget.content x = notes /\
  ContextBudget.priority x = ContextBudget.CRITICAL.
Proof.
  unfold BudgetReports.context_items. intros H K.
  apply in_app_or in H as [H | H];
    [apply item_if_In in H as (_ & C & P); split; assumption|].
  exfalso.
  apply in_app_or in H as [H | H].
  { destruct prev; [|destruct H].
    apply item_if_In in H as (K' & _). rewrite K in K'. discriminate. }
  apply in_app_or in H as [H | H].
  { apply in_flat_map in H as ([name content] & _ & H).
    apply item_if_In in H as (K' & _). rewrite K in K'. discriminate. }
  destruct hist; [|destruct H].
  apply item_if_In in H as (K' & _). rewrite K in K'. discriminate.
Qed.

(** X22: the teaching notes always reach the prompt, in full.  Whatever the
    budget (zero and negative budgets included) and whatever else is
    passed, the content map that [apply_budget_to_context_pack] returns for
    non-empty teaching notes holds them unshortened under "teaching_notes". *)
Theorem teaching_notes_always_delivered
    (teaching_notes_content : string)
    (previous_envelope_content : option string)
    (artifact_contents : list (string * string))
    (history_summary : option string) (budget : Z) :
  teaching_notes_content <> "" ->
  fst (BudgetReports.apply_budget_to_context_pack count_tokens_tiktoken
         teaching_notes_content previous_envelope_content artifact_contents
         history_summary budget)
  !! "teaching_notes" = Some teaching_notes_content.
Proof.
  intros Hne.
  unfold BudgetReports.apply_budget_to_context_pack,
    BudgetReports.enforce_context_budget. cbv zeta. cbn [fst].
  set (items := BudgetReports.context_items _ _ _ _ _).
  set (self := ContextBudget.Build_ContextBudgetEnforcer _ _).
  unfold BudgetReports.get_loaded_content.
  destruct (enforce_fields self items) as (El & _). rewrite El.
  destruct (load_by_priority_shape self (map (BudgetReports.counted self) items))
    as (_ & _ & _ & H6 & _).
  assert (Hitem : forall c, In c (map (BudgetReports.counted self) items) ->
            ContextBudget.key c = "teaching_notes" ->
            ContextBudget.content c = teaching_notes_content /\
            ContextBudget.priority c = ContextBudget.CRITICAL).
  { intros c Hc K. apply in_map_iff in Hc as (i & <- & Hi).
    destruct (counted_shape self i) as (Ek & Ec & Ep & _).
    rewrite Ec, Ep. rewrite Ek in K.
    exact (context_items_teaching_notes _ _ _ _ _ Hi K). }
  apply loaded_content_lookup.
  - intros x Hx K. destruct (H6 x Hx) as [Hin | (_ & _ & i & Hi & Pi & Ki)].
    + now apply Hitem.
    + rewrite K in Ki. destruct (Hitem i Hi Ki) as (_ & P). congruence.
  - right.
    set (note := ContextBudget.create_content_item "teaching_notes"
                   teaching_notes_content ContextBudget.CRITICAL
                   (fun text => count_tokens_tiktoken text "gpt-4")).
    assert (Hin : In note items).
    { subst items. unfold BudgetReports.context_items. apply in_or_app. left.
      unfold BudgetReports.item_if.
      destruct (String.eqb_spec teaching_notes_content ""); [contradiction|].
      now left. }
    exists (BudgetReports.counted self note). split.
    + apply critical_items_always_loaded.
      * apply in_map. exact Hin.
      * destruct (counted_shape self note) as (_ & _ & -> & _). reflexivity.
    + destruct (counted_shape self note) as (-> & _). reflexivity.
Qed.

End EntryPointFacts.

Lemma teaching_notes_always_delivered_witness :
  fst (BudgetReports.apply_budget_to_context_pack
         (fun text _ => ContextBudget.count_tokens_chars text)
         "Implement the parser." (Some "earlier output")
         [("adr.md", "decision record")] (Some "history") (-5))
  !! "teaching_notes" = Some "Implement the parser.".
Proof.
  apply (teaching_notes_always_delivered
           (fun text _ => ContextBudget.count_tokens_chars text)).
  discriminate.
Defined.

(** X23: on ASCII keys, [classify_content_priority] does not depend on the
    case of the key: a key of ASCII characters, its upper-case form and its
    lower-case form get the same priority. *)
Theorem classify_content_priority_ignores_case (key : string) :
  Py.isascii key = true ->
  BudgetReports.classify_content_priority (Py.upper key)
  = BudgetReports.classify_content_priority key /\
  BudgetReports.classify_content_priority (Py.lower key)
  = BudgetReports.classify_content_priority key.
Proof.
  intros _. unfold BudgetReports.classify_content_priority. cbv zeta.
  now rewrite lower_upper, lower_lower.
Qed.

Lemma classify_content_priority_ignores_case_witness :
  BudgetReports.classify_content_priority "PREVIOUS_OUTPUT" = ContextBudget.HIGH /\
  BudgetReports.classify_content_priority "Teaching_Notes.md"
  = ContextBudget.CRITICAL.
Proof.
  split.
  - change (BudgetReports.classify_content_priority (Py.upper "previous_output")
            = ContextBudget.HIGH).
    rewrite (proj1 (classify_content_priority_ignores_case "previous_output"
                      eq_refl)).
    reflexivity.
  - rewrite <- (proj2 (classify_content_priority_ignores_case "Teaching_Notes.md"
                         eq_refl)).
    reflexivity.
Defined.

(** ** The extraction microloop: how many attempts, and what a failure holds *)

Section MicroloopAccounting.
Variable json_loads : string -> StructuredOutput.Loads.
Variable re_match : string -> string -> bool.
Variable str_len : string -> Z.
Variable build_reprompt :
  string -> StructuredOutput.Schema -> list StructuredOutput.ValidationError ->
  string -> string.
Context {World : Type}.
Variable query_fn : World -> string -> World * StructuredOutput.QueryOutcome.

Lemma attempts_from_accounting remaining :
  forall attempt max_attempts prompt schema w current_prompt result,
    StructuredOutput.success result = false ->
    StructuredOutput.data result = None ->
    StructuredOutput.attempts result = attempt ->
    Z.of_nat (length (StructuredOutput.raw_responses result)) = attempt ->
    let r := snd (StructuredOutput.attempts_from json_loads re_match str_len build_reprompt
                    query_fn remaining attempt max_attempts prompt schema w
                    current_prompt result) in
    StructuredOutput.attempts r
    = Z.of_nat (length (StructuredOutput.raw_responses r)) /\
    attempt <= StructuredOutput.attempts r <= attempt + Z.of_nat remaining /\
    (StructuredOutput.success r = true -> attempt < StructuredOutput.attempts r) /\
    (StructuredOutput.success r = false ->
     StructuredOutput.attempts r = attempt + Z.of_nat remaining /\
     StructuredOutput.data r = None /\
     (remaining <> O -> StructuredOutput.errors r <> [])).
Proof.
  induction remaining as [|n IH];
    intros attempt mx prompt schema w cp result Hs Hd Ha Hl.
  - simpl. rewrite Ha, Hl. repeat split; try lia; try congruence.
  - assert (Hstep : forall w' cp' errs (raw : string),
              errs <> [] ->
              let r := snd (StructuredOutput.attempts_from json_loads re_match str_len
                              build_reprompt query_fn n (attempt + 1) mx prompt
                              schema w' cp'
                              {| StructuredOutput.success :=
                                   StructuredOutput.success result;
                                 StructuredOutput.data := StructuredOutput.data result;
                                 StructuredOutput.errors := errs;
                                 StructuredOutput.attempts := attempt + 1;
                                 StructuredOutput.raw_responses :=
                                   StructuredOutput.raw_responses result ++ [raw] |}) in
              StructuredOutput.attempts r
              = Z.of_nat (length (StructuredOutput.raw_responses r)) /\
              attempt <= StructuredOutput.attempts r <= attempt + Z.of_nat (S n) /\
              (StructuredOutput.success r = true ->
               attempt < StructuredOutput.attempts r) /\
              (StructuredOutput.success r = false ->
               StructuredOutput.attempts r = attempt + Z.of_nat (S n) /\
               StructuredOutput.data r = None /\
               (S n <> O -> StructuredOutput.errors r <> []))).
    { intros w' cp' errs raw Hne r. subst r.
      destruct n as [|m].
      - simpl. rewrite length_app. simpl.
        repeat split; try lia; try congruence.
      - match goal with
        | |- context [StructuredOutput.attempts_from _ _ _ _ _ _ _ _ _ _ _ _ ?res] =>
            destruct (IH (attempt + 1) mx prompt schema w' cp' res)
              as (H1 & H2 & H3 & H4)
        end; try assumption; try reflexivity.
        { simpl. rewrite length_app. simpl. lia. }
        split; [exact H1|]. split; [lia|]. split.
        + intros E. specialize (H3 E). lia.
        + intros E. destruct (H4 E) as (A & B & C).
          split; [lia|]. split; [exact B|]. intros _. apply C. discriminate. }
    simpl StructuredOutput.attempts_from.
    destruct (query_fn w cp) as [w' [response | e]].
    + destruct (StructuredOutput.extract_json_from_text json_loads response)
        as [[d|] perr].
      * destruct (StructuredOutput.validate_against_schema re_match str_len d schema "$")
          as [|err errs] eqn:Ev.
        -- simpl. rewrite length_app. simpl.
           repeat split; try lia; try discriminate.
        -- apply Hstep. discriminate.
      * apply Hstep. discriminate.
    + apply Hstep. discriminate.
Qed.

Lemma attempts_from_zero attempt max_attempts prompt schema w current_prompt result :
  StructuredOutput.attempts_from json_loads re_match str_len build_reprompt query_fn
    O attempt max_attempts prompt schema w current_prompt result
  = (w, result).
Proof. reflexivity. Qed.

(** X24: [extract_with_microloop] stops at the limit and accounts for every
    attempt.  The attempt count of the result is the number of recorded raw
    responses and lies between 0 and [max_attempts]; a successful result
    took at least one attempt; a failed result used all [max_attempts]
    attempts, holds no data and, when at least one attempt was allowed, holds
    at least one error.  With [max_attempts] at or below zero the model is
    not queried at all. *)
Theorem extract_with_microloop_accounting
    (prompt : string) (schema : StructuredOutput.Schema) (max_attempts : Z)
    (w : World) :
  let out := StructuredOutput.extract_with_microloop json_loads re_match str_len
               build_reprompt query_fn prompt schema max_attempts w in
  let r := snd out in
  StructuredOutput.attempts r
  = Z.of_nat (length (StructuredOutput.raw_responses r)) /\
  0 <= StructuredOutput.attempts r <= Z.max 0 max_attempts /\
  (StructuredOutput.success r = true -> 1 <= StructuredOutput.attempts r) /\
  (StructuredOutput.success r = false ->
   StructuredOutput.attempts r = Z.max 0 max_attempts /\
   StructuredOutput.data r = None /\
   (0 < max_attempts -> StructuredOutput.errors r <> [])) /\
  (max_attempts <= 0 ->
   fst out = w /\ StructuredOutput.success r = false /\
   StructuredOutput.errors r = []).
Proof.
  intros out r. subst r out. unfold StructuredOutput.extract_with_microloop.
  match goal with
  | |- context [StructuredOutput.attempts_from _ _ _ _ _ _ _ _ _ _ _ _ ?res] =>
      destruct (attempts_from_accounting (Z.to_nat max_attempts) 0 max_attempts
                  prompt schema w prompt res eq_refl eq_refl eq_refl eq_refl)
        as (H1 & H2 & H3 & H4)
  end.
  split; [exact H1|]. split; [lia|]. split; [intros E; specialize (H3 E); lia|].
  split.
  - intros E. destruct (H4 E) as (A & B & C).
    split; [lia|]. split; [exact B|]. intros Hpos. apply C. lia.
  - intros Hle. replace (Z.to_nat max_attempts) with O by lia.
    rewrite attempts_from_zero. repeat split.
Qed.

End MicroloopAccounting.

(** ** The registry and detector caches stay in step *)

Section CacheFacts.
Context {UtilityFlowRegistry : Type}.
Variable new_registry : string -> UtilityFlowRegistry.
Variable resolve : string -> string.

Lemma validate_repo_root_caches repo_root context
    (p p' : @UtilityCaches.Process UtilityFlowRegistry) validated_root :
  UtilityCaches._validate_repo_root repo_root context p
  = UtilityCaches.Returned validated_root p' ->
  UtilityCaches._utility_flow_registries p'
  = UtilityCaches._utility_flow_registries p /\
  UtilityCaches._utility_flow_detectors p'
  = UtilityCaches._utility_flow_detectors p /\
  UtilityCaches.cwd p' = UtilityCaches.cwd p /\
  (forall root, repo_root = Some root -> validated_root = Some root /\ p' = p).
Proof.
  unfold UtilityCaches._validate_repo_root. destruct repo_root as [root|].
  - intros [= <- <-].
    split; [reflexivity|]. split; [reflexivity|]. split; [reflexivity|].
    intros r [= ->]. split; reflexivity.
  - destruct (UtilityCaches._is_strict_mode _); [discriminate|].
    intros [= <- <-].
    split; [reflexivity|]. split; [reflexivity|]. split; [reflexivity|].
    intros r [=].
Qed.

Lemma coherent_same_caches (p p' : @UtilityCaches.Process UtilityFlowRegistry) :
  UtilityCaches._utility_flow_registries p'
  = UtilityCaches._utility_flow_registries p ->
  UtilityCaches._utility_flow_detectors p'
  = UtilityCaches._utility_flow_detectors p ->
  UtilityCaches.coherent p -> UtilityCaches.coherent p'.
Proof.
  unfold UtilityCaches.coherent. intros -> -> H. exact H.
Qed.

Lemma coherent_add_registry (p : @UtilityCaches.Process UtilityFlowRegistry)
    cache_key registry :
  UtilityCaches._utility_flow_detectors p !! cache_key = None ->
  UtilityCaches.coherent p ->
  UtilityCaches.coherent
    (UtilityCaches.with_registries
       (<[ cache_key := registry ]> (UtilityCaches._utility_flow_registries p)) p).
Proof.
  unfold UtilityCaches.coherent. simpl. intros Hnone H k d Hd.
  destruct (decide (k = cache_key)) as [-> | N]; [congruence|].
  rewrite lookup_insert_ne by congruence. now apply H.
Qed.

Lemma coherent_add_both (p : @UtilityCaches.Process UtilityFlowRegistry)
    cache_key registry :
  UtilityCaches._utility_flow_registries p !! cache_key = Some registry ->
  UtilityCaches.coherent p ->
  UtilityCaches.coherent
    (UtilityCaches.with_detectors
       (<[ cache_key := UtilityCaches.Detector registry ]>
          (UtilityCaches._utility_flow_detectors p)) p).
Proof.
  unfold UtilityCaches.coherent. simpl. intros Hr H k d Hd.
  destruct (decide (k = cache_key)) as [-> | N].
  - rewrite lookup_insert_eq in Hd. injection Hd as <-. eauto.
  - rewrite lookup_insert_ne in Hd by congruence. now apply H.
Qed.

Lemma get_registry_coherent repo_root p :
  UtilityCaches.coherent p ->
  UtilityCaches.coherent
    (UtilityCaches.state_after
       (UtilityCaches.get_utility_flow_registry new_registry resolve repo_root p) p).
Proof.
  intros H. unfold UtilityCaches.get_utility_flow_registry.
  destruct (UtilityCaches._validate_repo_root repo_root _ p)
    as [msg | validated p1] eqn:E; [exact H|].
  apply validate_repo_root_caches in E as (Er & Ed & _).
  assert (H1 : UtilityCaches.coherent p1) by (eapply coherent_same_caches; eauto).
  cbv zeta.
  destruct (UtilityCaches._utility_flow_registries p1 !! _) as [r|] eqn:L;
    [exact H1|].
  simpl. apply coherent_add_registry; [|exact H1].
  destruct (UtilityCaches._utility_flow_detectors p1 !! _) as [d|] eqn:Ld;
    [|reflexivity].
  destruct (H1 _ _ Ld) as (r & Hr & _). congruence.
Qed.

(** What [get_utility_flow_registry] returns is what the cache then holds. *)
Lemma get_registry_cached root p :
  exists registry p',
    UtilityCaches.get_utility_flow_registry new_registry resolve (Some root) p
    = UtilityCaches.Returned registry p' /\
    UtilityCaches._utility_flow_registries p' !! resolve root = Some registry /\
    UtilityCaches._utility_flow_detectors p'
    = UtilityCaches._utility_flow_detectors p /\
    (UtilityCaches.coherent p -> UtilityCaches.coherent p').
Proof.
  pose proof (get_registry_coherent (Some root) p) as Hc.
  unfold UtilityCaches.get_utility_flow_registry in *. simpl in *.
  unfold UtilityCaches._get_cache_key in *.
  destruct (UtilityCaches._utility_flow_registries p !! resolve root)
    as [r|] eqn:L.
  - exists r, p. repeat split; auto.
  - eexists _, _. split; [reflexivity|]. simpl.
    rewrite lookup_insert_eq. repeat split. exact Hc.
Qed.

Lemma get_detector_coherent repo_root p :
  UtilityCaches.coherent p ->
  UtilityCaches.coherent
    (UtilityCaches.state_after
       (UtilityCaches.get_utility_flow_detector new_registry resolve repo_root p) p).
Proof.
  intros H. unfold UtilityCaches.get_utility_flow_detector.
  destruct (UtilityCaches._validate_repo_root repo_root _ p)
    as [msg | validated p1] eqn:E; [exact H|].
  apply validate_repo_root_caches in E as (Er & Ed & _).
  assert (H1 : UtilityCaches.coherent p1) by (eapply coherent_same_caches; eauto).
  cbv zeta.
  destruct (UtilityCaches._utility_flow_detectors p1 !! _) as [d|] eqn:L;
    [exact H1|].
  destruct (get_registry_cached (default (UtilityCaches.cwd p1) validated) p1)
    as (r & p2 & -> & Hr & _ & Hc).
  simpl. apply coherent_add_both; [exact Hr | exact (Hc H1)].
Qed.

Lemma set_registry_coherent (registry : UtilityFlowRegistry) repo_root p :
  UtilityCaches.coherent p ->
  UtilityCaches.coherent
    (UtilityCaches.state_after
       (UtilityCaches.set_utility_flow_registry resolve registry repo_root p) p).
Proof.
  intros H. unfold UtilityCaches.set_utility_flow_registry.
  destruct (UtilityCaches._validate_repo_root repo_root _ p)
    as [msg | validated p1] eqn:E; [exact H|].
  apply validate_repo_root_caches in E as (Er & Ed & _).
  assert (H1 : UtilityCaches.coherent p1) by (eapply coherent_same_caches; eauto).
  cbv zeta. simpl. unfold UtilityCaches.coherent in *. simpl.
  intros k d Hd. destruct (decide (k = UtilityCaches._get_cache_key resolve
                                         (default (UtilityCaches.cwd p1) validated)))
    as [-> | N].
  - rewrite lookup_insert_eq in Hd. injection Hd as <-.
    rewrite lookup_insert_eq. eauto.
  - rewrite lookup_insert_ne in Hd by congruence.
    rewrite lookup_insert_ne by congruence. now apply H1.
Qed.

(** X25: the two caches never drift apart.  They are coherent (every cached
    detector is the detector built from the registry cached under the same
    key) when empty, and each of [get_utility_flow_registry],
    [get_utility_flow_detector], [set_utility_flow_registry] and
    [clear_utility_flow_caches] keeps them coherent, whether the call
    returns or raises; so a detector obtained for a repository is always the
    one that belongs to the registry obtained for it. *)
Theorem caches_stay_coherent :
  (forall p : @UtilityCaches.Process UtilityFlowRegistry,
     UtilityCaches.coherent (UtilityCaches.clear_utility_flow_caches p)) /\
  (forall p repo_root, UtilityCaches.coherent p ->
     UtilityCaches.coherent
       (UtilityCaches.state_after
          (UtilityCaches.get_utility_flow_registry new_registry resolve repo_root p) p)) /\
  (forall p repo_root, UtilityCaches.coherent p ->
     UtilityCaches.coherent
       (UtilityCaches.state_after
          (UtilityCaches.get_utility_flow_detector new_registry resolve repo_root p) p)) /\
  (forall p (registry : UtilityFlowRegistry) repo_root, UtilityCaches.coherent p ->
     UtilityCaches.coherent
       (UtilityCaches.state_after
          (UtilityCaches.set_utility_flow_registry resolve registry repo_root p) p)) /\
  (forall p root detector p', UtilityCaches.coherent p ->
     UtilityCaches.get_utility_flow_detector new_registry resolve (Some root) p
     = UtilityCaches.Returned detector p' ->
     exists registry,
       UtilityCaches.get_utility_flow_registry new_registry resolve (Some root) p'
       = UtilityCaches.Returned registry p' /\
       detector = UtilityCaches.Detector registry).
Proof.
  split; [|split; [|split; [|split]]].
  - intros p k d Hd. simpl in Hd. rewrite lookup_empty in Hd. discriminate.
  - intros p r H. now apply get_registry_coherent.
  - intros p r H. now apply get_detector_coherent.
  - intros p reg r H. now apply set_registry_coherent.
  - intros p root d p' H E.
    pose proof (get_detector_coherent (Some root) p H) as Hc. rewrite E in Hc.
    simpl in Hc.
    assert (Hd : UtilityCaches._utility_flow_detectors p' !! resolve root = Some d).
    { unfold UtilityCaches.get_utility_flow_detector in E. simpl in E.
      unfold UtilityCaches._get_cache_key in E.
      destruct (UtilityCaches._utility_flow_detectors p !! resolve root)
        as [d0|] eqn:L.
      - injection E as <- <-. exact L.
      - destruct (get_registry_cached root p) as (r & p2 & Eg & _).
        rewrite Eg in E. injection E as <- <-. simpl. apply lookup_insert_eq. }
    destruct (Hc _ _ Hd) as (r & Hr & ->). exists r. split; [|reflexivity].
    unfold UtilityCaches.get_utility_flow_registry. simpl.
    unfold UtilityCaches._get_cache_key. now rewrite Hr.
Qed.

(** X26: a registry set for a repository is the one served for it, under
    every spelling of its path, and for no other repository.  After
    [set_utility_flow_registry(registry, root)], both getters called with a
    path that resolves like [root] return [registry] and the detector built
    from it, without changing the caches; the entries of a repository whose
    path resolves differently are as they were before. *)
Theorem set_registry_then_get
    (p : @UtilityCaches.Process UtilityFlowRegistry)
    (registry : UtilityFlowRegistry) (root : string) :
  let p1 := UtilityCaches.state_after
              (UtilityCaches.set_utility_flow_registry resolve registry
                 (Some root) p) p in
  (forall same, resolve same = resolve root ->
     UtilityCaches.get_utility_flow_registry new_registry resolve (Some same) p1
     = UtilityCaches.Returned registry p1 /\
     UtilityCaches.get_utility_flow_detector new_registry resolve (Some same) p1
     = UtilityCaches.Returned (UtilityCaches.Detector registry) p1) /\
  (forall other, resolve other <> resolve root ->
     UtilityCaches._utility_flow_registries p1 !! resolve other
     = UtilityCaches._utility_flow_registries p !! resolve other /\
     UtilityCaches._utility_flow_detectors p1 !! resolve other
     = UtilityCaches._utility_flow_detectors p !! resolve other).
Proof.
  intros p1. subst p1. unfold UtilityCaches.set_utility_flow_registry. simpl.
  unfold UtilityCaches._get_cache_key. split.
  - intros same Es.
    unfold UtilityCaches.get_utility_flow_registry,
      UtilityCaches.get_utility_flow_detector. simpl.
    unfold UtilityCaches._get_cache_key. rewrite Es, !lookup_insert_eq.
    split; reflexivity.
  - intros other Hne. rewrite !lookup_insert_ne by congruence.
    split; reflexivity.
Qed.

End CacheFacts.

(** ** Brace-balanced candidates *)

Lemma scan_candidate_closes text :
  forall depth in_string escape_next consumed n,
    StructuredOutput.scan_candidate text depth in_string escape_next consumed
    = Some n ->
    exists k, n = (consumed + S k)%nat /\ String.get k text = Some "}"%char.
Proof.
  induction text as [|char rest IH]; intros depth in_string escape_next consumed n H;
    [discriminate|].
  assert (Hrec : forall d i e,
            StructuredOutput.scan_candidate rest d i e (S consumed) = Some n ->
            exists k, n = (consumed + S k)%nat /\
                      String.get k (String char rest) = Some "}"%char).
  { intros d i e Hr. destruct (IH _ _ _ _ _ Hr) as (k & -> & Hk).
    exists (S k). split; [lia | exact Hk]. }
  simpl in H.
  destruct escape_next; [eauto|].
  destruct (Ascii.eqb char StructuredOutput.backslash); [eauto|].
  destruct (Ascii.eqb char StructuredOutput.dquote); [eauto|].
  destruct in_string; [eauto|].
  destruct (Ascii.eqb char "{"); [eauto|].
  destruct (Ascii.eqb_spec char "}") as [-> | _]; [|eauto].
  destruct (depth - 1 =? 0); [|eauto].
  injection H as <-. exists O. split; [lia | reflexivity].
Qed.

Lemma substring_through k : forall s c,
  String.get k s = Some c ->
  String.substring 0 (S k) s = String.substring 0 k s +:+ String c EmptyString /\
  exists after, s = String.substring 0 (S k) s +:+ after.
Proof.
  induction k as [|k IH]; intros s c H; destruct s as [|a s]; try discriminate.
  - simpl in H. injection H as ->. split.
    + simpl. destruct s; reflexivity.
    + exists s. simpl. destruct s; reflexivity.
  - simpl in H. destruct (IH s c H) as (E & after & Ea). split.
    + change (String.substring 0 (S (S k)) (String a s))
        with (String a (String.substring 0 (S k) s)).
      rewrite E. reflexivity.
    + exists after.
      change (String.substring 0 (S (S k)) (String a s))
        with (String a (String.substring 0 (S k) s)).
      change (String a (String.substring 0 (S k) s) +:+ after)
        with (String a (String.substring 0 (S k) s +:+ after)).
      f_equal. exact Ea.
Qed.

Lemma candidates_from_cons char rest skip :
  StructuredOutput.candidates_from (String char rest) skip
  = match skip with
    | S k => StructuredOutput.candidates_from rest k
    | O =>
        if Ascii.eqb char "{" then
          match StructuredOutput.scan_candidate (String char rest) 0 false false 0 with
          | Some n =>
              String.substring 0 n (String char rest)
              :: StructuredOutput.candidates_from rest (n - 1)
          | None => StructuredOutput.candidates_from rest 0
          end
        else StructuredOutput.candidates_from rest 0
    end.
Proof. reflexivity. Qed.

Lemma candidates_from_shape text :
  forall skip candidate,
    In candidate (StructuredOutput.candidates_from text skip) ->
    (exists middle, candidate = String "{" (middle +:+ "}")) /\
    (exists before after, text = before +:+ candidate +:+ after).
Proof.
  induction text as [|char rest IH]; intros skip candidate H; [destruct H|].
  assert (Hrest : forall k,
            In candidate (StructuredOutput.candidates_from rest k) ->
            (exists middle, candidate = String "{" (middle +:+ "}")) /\
            (exists before after,
               String char rest = before +:+ candidate +:+ after)).
  { intros k Hk. destruct (IH k candidate Hk) as (Hm & before & after & E).
    split; [exact Hm|]. exists (String char before), after. simpl. now rewrite E. }
  rewrite candidates_from_cons in H. destruct skip as [|k]; [|eauto].
  destruct (Ascii.eqb_spec char "{") as [-> | _]; [|eauto].
  destruct (StructuredOutput.scan_candidate (String "{" rest) 0 false false 0)
    as [n|] eqn:Es; [|eauto].
  destruct H as [<- | H]; [|eauto].
  destruct (scan_candidate_closes _ _ _ _ _ _ Es) as (k & -> & Hk).
  destruct k as [|k]; [discriminate|].
  change (String.get k rest = Some "}"%char) in Hk.
  destruct (substring_through k rest "}"%char Hk) as (E & after & Ea).
  change (String.substring 0 (0 + S (S k)) (String "{" rest))
    with (String "{" (String.substring 0 (S k) rest)).
  split.
  - exists (String.substring 0 k rest). now rewrite E.
  - exists EmptyString, after.
    change (String "{" rest = String "{" (String.substring 0 (S k) rest +:+ after)).
    f_equal. exact Ea.
Qed.

(** X27: what [_find_json_candidates] offers to the parser.  Every candidate
    it returns is a piece of the text as it stands there, begins with an
    opening brace and ends with a closing brace; a text without an opening
    brace has no candidate. *)
Theorem find_json_candidates_are_braced (text : string) :
  (forall candidate,
     In candidate (StructuredOutput._find_json_candidates text) ->
     (exists middle, candidate = "{" +:+ middle +:+ "}") /\
     (exists before after, text = before +:+ candidate +:+ after)) /\
  (BoundaryEnforcement.contains "{" text = false ->
   StructuredOutput._find_json_candidates text = []).
Proof.
  split.
  - intros candidate H. apply (candidates_from_shape text 0 candidate H).
  - unfold StructuredOutput._find_json_candidates.
    assert (G : forall skip, BoundaryEnforcement.contains "{" text = false ->
                  StructuredOutput.candidates_from text skip = []).
    { induction text as [|char rest IH]; intros skip H; [reflexivity|].
      simpl in H. apply orb_false_elim in H as [Hc Hr].
      rewrite candidates_from_cons. destruct skip as [|k]; [|now apply IH].
      destruct (Ascii.eqb_spec char "{") as [-> | _]; [|now apply IH].
      simpl in Hc. destruct rest; discriminate. }
    apply G.
Qed.

(** ** Schema validation: where the errors point *)

Section PathFacts.
Variable re_match : string -> string -> bool.
Variable str_len : string -> Z.

Lemma rooted_here (p : string) (e : StructuredOutput.ValidationError) :
  StructuredOutput.path e = p -> exists rest, StructuredOutput.path e = p +:+ rest.
Proof. intros ->. exists EmptyString. now rewrite string_app_nil_r. Qed.

Lemma rooted_below (p x : string) (e : StructuredOutput.ValidationError) :
  (exists rest, StructuredOutput.path e = (p +:+ x) +:+ rest) ->
  exists rest, StructuredOutput.path e = p +:+ rest.
Proof. intros [rest ->]. exists (x +:+ rest). now rewrite string_app_assoc. Qed.

Ltac leaf_path H :=
  repeat match type of H with
         | In _ (_ ++ _) => apply in_app_or in H as [H | H]
         | In _ [] => destruct H
         | In _ [_] => destruct H as [<- | []]
         | In _ (match ?x with _ => _ end) => destruct x
         end;
  try reflexivity.

Lemma null_errors_path fp ps e :
  In e (StructuredOutput.null_errors fp ps) -> StructuredOutput.path e = fp.
Proof. unfold StructuredOutput.null_errors. intros H. leaf_path H. Qed.

Lemma enum_errors_path fp ps v e :
  In e (StructuredOutput.enum_errors fp ps v) -> StructuredOutput.path e = fp.
Proof. unfold StructuredOutput.enum_errors. intros H. leaf_path H. Qed.

Lemma type_errors_path fp ps v e :
  In e (StructuredOutput.type_errors fp ps v) -> StructuredOutput.path e = fp.
Proof.
  unfold StructuredOutput.type_errors. intros H.
  destruct (StructuredOutput.expected_type_of ps) as [t|]; [|destruct H].
  destruct (StructuredOutput.isinstance_of t v) as [[]|]; try destruct H.
  cbv zeta in H. leaf_path H.
Qed.

Lemma string_errors_path fp ps v e :
  In e (StructuredOutput.string_errors re_match str_len fp ps v) ->
  StructuredOutput.path e = fp.
Proof.
  unfold StructuredOutput.string_errors. intros H.
  destruct v; try destruct H.
  destruct (StructuredOutput.type_is ps "string"); [|destruct H].
  cbv zeta in H. leaf_path H.
Qed.

Lemma numeric_errors_path fp ps v e :
  In e (StructuredOutput.numeric_errors fp ps v) -> StructuredOutput.path e = fp.
Proof.
  unfold StructuredOutput.numeric_errors. intros H.
  destruct (_ || _)%bool; [|destruct H].
  destruct (Json.to_num v); [|destruct H]. leaf_path H.
Qed.

Lemma item_type_errors_path ip s item e :
  In e (StructuredOutput.item_type_errors ip s item) -> StructuredOutput.path e = ip.
Proof. unfold StructuredOutput.item_type_errors. intros H. leaf_path H. Qed.

Lemma item_enum_errors_path ip s item e :
  In e (StructuredOutput.item_enum_errors ip s item) -> StructuredOutput.path e = ip.
Proof. unfold StructuredOutput.item_enum_errors. intros H. leaf_path H. Qed.

Lemma validate_rooted_step d schema path_prefix e :
  Forall (fun kv =>
            (forall schema path_prefix e,
               In e (StructuredOutput.validate_against_schema re_match str_len (snd kv)
                       schema path_prefix) ->
               exists rest, StructuredOutput.path e = path_prefix +:+ rest) /\
            match snd kv with
            | Json.JList l =>
                Forall (fun item =>
                          forall schema path_prefix e,
                            In e (StructuredOutput.validate_against_schema re_match str_len
                                    item schema path_prefix) ->
                            exists rest, StructuredOutput.path e = path_prefix +:+ rest) l
            | _ => True
            end) d ->
  In e (StructuredOutput.validate_against_schema re_match str_len (Json.JDict d) schema
          path_prefix) ->
  exists rest, StructuredOutput.path e = path_prefix +:+ rest.
Proof.
  intros F H. simpl in H. apply in_app_or in H as [H | H].
  - unfold StructuredOutput.required_errors in H.
    apply in_flat_map in H as (field_name & _ & H).
    destruct (Json.mem field_name d); [destruct H|].
    destruct H as [<- | []]. simpl. eexists. reflexivity.
  - induction F as [|[k v] d [Hv Hitems] F IH]; [destruct H|].
    apply in_app_or in H as [H | H]; [|exact (IH H)].
    clear IH.
    simpl in Hv, Hitems.
    apply rooted_below with (x := "." +:+ k).
    set (field_path := path_prefix +:+ "." +:+ k) in *.
    destruct (StructuredOutput.find_schema k _) as [prop_schema|]; [|destruct H].
    assert (Heach : forall items_schema items idx,
              Forall (fun item =>
                        forall schema path_prefix e,
                          In e (StructuredOutput.validate_against_schema re_match str_len
                                  item schema path_prefix) ->
                          exists rest, StructuredOutput.path e = path_prefix +:+ rest)
                items ->
              In e
                ((fix each (idx : Z) (items0 : list Json.json) {struct items0}
                    : list StructuredOutput.ValidationError :=
                    match items0 with
                    | [] => []
                    | item :: more =>
                        match item with
                        | Json.JDict _ =>
                            if StructuredOutput.type_is items_schema "object"
                            then StructuredOutput.validate_against_schema re_match str_len
                                   item items_schema
                                   (field_path +:+ "[" +:+ PyInt.to_str idx +:+ "]")
                            else StructuredOutput.item_type_errors
                                   (field_path +:+ "[" +:+ PyInt.to_str idx +:+ "]")
                                   items_schema item
                        | _ => StructuredOutput.item_type_errors
                                 (field_path +:+ "[" +:+ PyInt.to_str idx +:+ "]")
                                 items_schema item
                        end
                        ++ StructuredOutput.item_enum_errors
                             (field_path +:+ "[" +:+ PyInt.to_str idx +:+ "]")
                             items_schema item
                        ++ each (idx + 1) more
                    end) idx items) ->
              exists rest, StructuredOutput.path e = field_path +:+ rest).
    { intros items_schema items idx Fi. revert idx.
      induction Fi as [|item more Hitem _ IHm]; intros idx Hin; [destruct Hin|].
      apply in_app_or in Hin as [Hin | Hin];
        [|apply in_app_or in Hin as [Hin | Hin]; [|exact (IHm _ Hin)]].
      - assert (Hleaf : In e (StructuredOutput.item_type_errors
                                (field_path +:+ "[" +:+ PyInt.to_str idx +:+ "]")
                                items_schema item) ->
                        exists rest, StructuredOutput.path e = field_path +:+ rest).
        { intros Hl. apply item_type_errors_path in Hl. eexists. exact Hl. }
        destruct item; try exact (Hleaf Hin).
        destruct (StructuredOutput.type_is items_schema "object");
          [|exact (Hleaf Hin)].
        apply rooted_below with (x := "[" +:+ PyInt.to_str idx +:+ "]").
        exact (Hitem _ _ _ Hin).
      - apply item_enum_errors_path in Hin. eexists. exact Hin. }
    assert (Hrest : In e
              (StructuredOutput.enum_errors field_path prop_schema v
               ++ StructuredOutput.type_errors field_path prop_schema v
               ++ match v with
                  | Json.JDict _ =>
                      if StructuredOutput.type_is prop_schema "object"
                      then StructuredOutput.validate_against_schema re_match str_len v
                             prop_schema field_path
                      else []
                  | _ => []
                  end
               ++ match v with
                  | Json.JList items =>
                      match StructuredOutput.s_items prop_schema with
                      | Some items_schema =>
                          if StructuredOutput.type_is prop_schema "array"
                          then (fix each (idx : Z) (items0 : list Json.json)
                                  {struct items0}
                                  : list StructuredOutput.ValidationError :=
                                  match items0 with
                                  | [] => []
                                  | item :: more =>
                                      match item with
                                      | Json.JDict _ =>
                                          if StructuredOutput.type_is items_schema
                                               "object"
                                          then StructuredOutput.validate_against_schema
                                                 re_match str_len item items_schema
                                                 (field_path +:+ "[" +:+
                                                  PyInt.to_str idx +:+ "]")
                                          else StructuredOutput.item_type_errors
                                                 (field_path +:+ "[" +:+
                                                  PyInt.to_str idx +:+ "]")
                                                 items_schema item
                                      | _ => StructuredOutput.item_type_errors
                                               (field_path +:+ "[" +:+
                                                PyInt.to_str idx +:+ "]")
                                               items_schema item
                                      end
                                      ++ StructuredOutput.item_enum_errors
                                           (field_path +:+ "[" +:+
                                            PyInt.to_str idx +:+ "]")
                                           items_schema item
                                      ++ each (idx + 1) more
                                  end) 0 items
                          else []
                      | None => []
                      end
                  | _ => []
                  end
               ++ StructuredOutput.string_errors re_match str_len field_path prop_schema v
               ++ StructuredOutput.numeric_errors field_path prop_schema v) ->
            exists rest, StructuredOutput.path e = field_path +:+ rest).
    { intros Hin.
      apply in_app_or in Hin as [Hin | Hin];
        [apply rooted_here; eapply enum_errors_path; exact Hin|].
      apply in_app_or in Hin as [Hin | Hin];
        [apply rooted_here; eapply type_errors_path; exact Hin|].
      apply in_app_or in Hin as [Hin | Hin].
      { destruct v; try destruct Hin.
        destruct (StructuredOutput.type_is prop_schema "object"); [|destruct Hin].
        exact (Hv _ _ _ Hin). }
      apply in_app_or in Hin as [Hin | Hin].
      { destruct v; try destruct Hin.
        destruct (StructuredOutput.s_items prop_schema) as [items_schema|];
          [|destruct Hin].
        destruct (StructuredOutput.type_is prop_schema "array"); [|destruct Hin].
        exact (Heach _ _ _ Hitems Hin). }
      apply in_app_or in Hin as [Hin | Hin];
        [apply rooted_here; eapply string_errors_path; exact Hin
        |apply rooted_here; eapply numeric_errors_path; exact Hin]. }
    destruct v; try exact (Hrest H).
    apply rooted_here. eapply null_errors_path. exact H.
Qed.

(** X28: every validation error points below the path it was asked to
    validate.  The path of each error that [validate_against_schema] returns
    extends [path_prefix], at every depth of nesting; with the default prefix
    each path therefore begins with "$". *)
Theorem validation_error_paths_are_rooted
    (data : Json.json) (schema : StructuredOutput.Schema) (path_prefix : string)
    (e : StructuredOutput.ValidationError) :
  In e (StructuredOutput.validate_against_schema re_match str_len data schema path_prefix) ->
  exists rest, StructuredOutput.path e = path_prefix +:+ rest.
Proof.
  revert schema path_prefix e.
  assert (G : (forall schema path_prefix e,
                 In e (StructuredOutput.validate_against_schema re_match str_len data
                         schema path_prefix) ->
                 exists rest, StructuredOutput.path e = path_prefix +:+ rest) /\
              match data with
              | Json.JList l =>
                  Forall (fun item =>
                            forall schema path_prefix e,
                              In e (StructuredOutput.validate_against_schema
                                      re_match str_len item schema path_prefix) ->
                              exists rest,
                                StructuredOutput.path e = path_prefix +:+ rest) l
              | _ => True
              end); [|exact (proj1 G)].
  induction data as [ | b | z | f | s | l IH | d IH] using json_nested_ind;
    try (split; [|exact I]; intros schema path_prefix e [<- | []];
         apply rooted_here; reflexivity).
  - split.
    + intros schema path_prefix e [<- | []]. apply rooted_here; reflexivity.
    + eapply Forall_impl; [exact IH|]. intros item H. exact (proj1 H).
  - split; [|exact I]. intros schema path_prefix e H.
    eapply validate_rooted_step; [|exact H].
    eapply Forall_impl; [exact IH|]. intros kv Hkv. exact Hkv.
Qed.

End PathFacts.

Lemma validation_error_paths_are_rooted_witness :
  let data :=
    Json.JDict [("status", Json.JStr "VERIFIED"); ("summary", Json.JStr "ok");
                ("artifacts", Json.JList [Json.JStr "a.md"; Json.JInt 7])] in
  map StructuredOutput.path
    (StructuredOutput.validate_against_schema any_pattern Py.len data
       step_result_schema "$")
  = ["$.artifacts[1]"] /\
  exists rest, "$.artifacts[1]" = "$" +:+ rest.
Proof.
  intros data. split; [vm_compute; reflexivity|].
  apply (validation_error_paths_are_rooted any_pattern Py.len data
           step_result_schema "$"
           {| StructuredOutput.path := "$.artifacts[1]";
              StructuredOutput.message :=
                StructuredOutput.ExpectedItemType "string" "int";
              StructuredOutput.value := Some (Json.JInt 7) |}).
  vm_compute. left. reflexivity.
Defined.

